(** * PerpDEXQuant — the hedge orchestration engine

    A shallow embedding of the parts of [aster_trading.py] (the exchange
    client [AsterDexAPI], the terminal front end [TradingUI] / [main]) and
    of [aster_trading_gui_bootstrap.py] (the decision cycle of
    [BootstrapTradingGUI.trading_loop]) that the specification talks
    about, followed by the properties proved of them.

    Conventions of the embedding.
    - Python numbers ([int] and [float] alike) are exact rationals [Q];
      rounding is written out ([py_round], [py_int]).
    - A method that talks to the venue takes the venue's answer (an
      [Http] value) as an extra argument and is otherwise the source
      function; the orders it sends are recorded in a trace of [Event]s.
    - The timestamp a signed request carries comes from
      [_get_timestamp], which is modelled on its own with the client's
      clock state; a method that posts an order takes that value as an
      argument.
    - The clock ([time.time()], [datetime.now()]) is read from the
      environment of a cycle.
    - An exception is a value [Raise e] of [outcome]; [try/except] is a
      [match] on it. Calls to [print] and [self.log] that only decorate
      the output are left out, except in the time-sync code where the
      specification counts them. *)

From Stdlib Require Import QArith Qround Qabs ZArith List String Lia Lqa.
From stdpp Require Import base gmap strings list.
Import ListNotations.

Local Open Scope string_scope.

(** ** Python values and primitives *)

Inductive exn :=
| ZeroDivisionError | ValueError | KeyError | TypeError | RequestException.

Inductive outcome (A : Type) : Type :=
| Return (a : A)
| Raise (e : exn).
Arguments Return {A} a.
Arguments Raise {A} e.

(** [x < y] on numbers, as a boolean. *)
Definition Qltb (x y : Q) : bool := negb (Qle_bool y x).

(** [x / y]: Python raises on a zero divisor. *)
Definition py_truediv (x y : Q) : outcome Q :=
  if Qeq_bool y 0 then Raise ZeroDivisionError else Return (x / y)%Q.

(** [max(a, b)]: the first argument is kept unless the second is
    strictly greater. *)
Definition py_max (a b : Q) : Q := if Qltb a b then b else a.

(** Round half to even, to an integer. *)
Definition round_half_even (x : Q) : Z :=
  let f := Qfloor x in
  match (x - inject_Z f ?= 1 # 2)%Q with
  | Lt => f
  | Gt => (f + 1)%Z
  | Eq => if Z.even f then f else (f + 1)%Z
  end.

(** [round(x, ndigits)] for [ndigits > 0]: the result is a multiple of
    [10^-ndigits] and is kept with that denominator. *)
Definition py_round (x : Q) (ndigits : positive) : Q :=
  let scale := Pos.pow 10 ndigits in
  round_half_even (x * (Zpos scale # 1)) # scale.

(** [int(x)]: truncation toward zero. *)
Definition py_int (x : Q) : Z :=
  if Qle_bool 0 x then Qfloor x else Qceiling x.

(** [abs(x)] *)
Definition py_abs (x : Q) : Q := Qabs x.

(** ** JSON bodies and venue answers *)

(** A field value: [JNum q] is a number or a numeric string (what
    [float(...)] turns into [q]); [JStr s] is any other text, on which
    [float(...)] raises. The numbers are the finite ones: [nan] and
    [inf], which [float(...)] and the JSON decoder also accept, have no
    counterpart here, and no statement is made about answers that carry
    them. *)
Inductive JVal :=
| JNum (q : Q)
| JStr (s : string).

(** The venue answers with an object or with an array of objects. *)
Inductive Json :=
| JList (items : list (gmap string JVal))
| JDict (d : gmap string JVal).

Inductive Body :=
| EmptyText
| BadJson
| Decoded (j : Json).

(** What [requests.get/post/delete] gives back: an exception, or a
    response with a status code and a body. *)
Inductive Http :=
| ConnectionError
| Response (status_code : Z) (body : Body).

Definition py_float (v : JVal) : outcome Q :=
  match v with
  | JNum q => Return q
  | JStr _ => Raise ValueError
  end.

(** Truth value of a decoded JSON result ([if result:]). *)
Definition truthy (j : Json) : bool :=
  match j with
  | JList [] => false
  | JList (_ :: _) => true
  | JDict d => negb (bool_decide (d = ∅))
  end.

(** [response.json()] *)
Definition json (b : Body) : outcome Json :=
  match b with
  | Decoded j => Return j
  | EmptyText | BadJson => Raise ValueError
  end.

(** [response.text] as a condition. *)
Definition has_text (b : Body) : bool :=
  match b with
  | EmptyText => false
  | BadJson | Decoded _ => true
  end.

(** ** Effects: a trace of what is sent, over a mutable state *)

(** A request parameter. [PSig secret signed] stands for the hex digest
    [hmac.new(secret, urlencode(signed), sha256).hexdigest()]. *)
#[warnings="-register-all"] Inductive PVal :=
| PStr (s : string)
| PNum (q : Q)
| PSig (secret : string) (signed : list (string * PVal)).

Inductive Event :=
| Post (api_key : string) (endpoint : string) (params : list (string * PVal))
| Sleep (seconds : Q).

(** A computation over a state [S] that may raise; the state reached so
    far survives the exception, as in Python. *)
Definition M (S A : Type) : Type := S -> outcome A * S.

Definition ret {S A} (a : A) : M S A := fun s => (Return a, s).
Definition raise {S A} (e : exn) : M S A := fun s => (Raise e, s).
Definition bind {S A B} (m : M S A) (k : A -> M S B) : M S B :=
  fun s =>
    match m s with
    | (Return a, s') => k a s'
    | (Raise e, s') => (Raise e, s')
    end.
Definition of_outcome {S A} (o : outcome A) : M S A := fun s => (o, s).
Definition get {S} : M S S := fun s => (Return s, s).
Definition modify {S} (f : S -> S) : M S unit := fun s => (Return tt, f s).

(** [try: m except Exception: h] *)
Definition try_except {S A} (m : M S A) (h : M S A) : M S A :=
  fun s =>
    match m s with
    | (Return a, s') => (Return a, s')
    | (Raise _, s') => h s'
    end.

Declare Scope py_scope.
Delimit Scope py_scope with py.
Notation "'let*' x := m 'in' k" := (bind m (fun x => k))
  (at level 10, x name, m at level 100, k at level 200) : py_scope.
Notation "m ;; k" := (bind m (fun _ => k))
  (at level 100, k at level 200, right associativity) : py_scope.
Local Open Scope py_scope.

(** API methods only add to the trace. *)
Definition Eff (A : Type) : Type := M (list Event) A.

Definition emit (e : Event) : Eff unit := modify (fun tr => (tr ++ [e])%list).
Definition sleep (seconds : Q) : Eff unit := emit (Sleep seconds).

(** Lookup in a parameter list, first binding first. *)
Fixpoint param (k : string) (ps : list (string * PVal)) : option PVal :=
  match ps with
  | [] => None
  | (k', v) :: ps' => if String.eqb k k' then Some v else param k ps'
  end.

(** [key in d] *)
Definition has_key (k : string) (d : gmap string JVal) : bool :=
  bool_decide (is_Some (d !! k)).

(** [key in result] for a decoded JSON result: on an array it is a
    membership test among objects, which a string never passes. *)
Definition in_json (k : string) (j : Json) : bool :=
  match j with
  | JDict d => has_key k d
  | JList _ => false
  end.

(** ** The exchange client, [class AsterDexAPI] *)

Record AsterDexAPI := {
  api_key : string;
  api_secret : string;
  recv_window : Q;
  server_time_warned : bool;
  time_offset : Q;
  last_time_sync : Q
}.

(** [AsterDexAPI.__init__] *)
Definition AsterDexAPI_init (key secret : string) : AsterDexAPI :=
  {| api_key := key; api_secret := secret; recv_window := 5000;
     server_time_warned := false; time_offset := 0; last_time_sync := 0 |}.

Inductive OrderSide := BUY | SELL.

Definition side_name (s : OrderSide) : string :=
  match s with BUY => "BUY" | SELL => "SELL" end.

(** [_generate_signature] *)
Definition _generate_signature (self : AsterDexAPI)
    (params : list (string * PVal)) : PVal :=
  PSig (api_secret self) params.

(** [get_current_price]: every failure ends in [0.0]. *)
Definition get_current_price (reply : Http) : Q :=
  match reply with
  | ConnectionError => 0
  | Response status_code body =>
      if (status_code =? 200)%Z && has_text body then
        match json body with
        | Raise _ => 0
        | Return (JDict data) =>
            match data !! "price" with
            | Some v => match py_float v with Return p => p | Raise _ => 0 end
            | None => 0
            end
        | Return (JList _) => 0
        end
      else 0
  end.

(** [get_funding_rate]: [0.0] on failure. *)
Definition get_funding_rate (reply : Http) : Q :=
  match reply with
  | ConnectionError => 0
  | Response _ body =>
      match json body with
      | Raise _ => 0
      | Return (JDict result) =>
          match result !! "lastFundingRate" with
          | Some v => match py_float v with Return r => r | Raise _ => 0 end
          | None => 0
          end
      | Return (JList _) => 0
      end
  end.

(** [get_position_info]: the decoded answer, or [[]] on a venue error
    or an exception. *)
Definition get_position_info (reply : Http) : Json :=
  match reply with
  | ConnectionError => JList []
  | Response _ body =>
      match json body with
      | Raise _ => JList []
      | Return (JDict d) => if has_key "code" d then JList [] else JDict d
      | Return (JList l) => JList l
      end
  end.

(** [calculate_quantity_from_usdt]; [ticker] is the answer to the price
    request the method makes itself. *)
Definition calculate_quantity_from_usdt (usdt_amount : Q) (ticker : Http)
    : outcome Q :=
  let current_price := get_current_price ticker in
  match py_truediv usdt_amount current_price with
  | Raise e => Raise e
  | Return quantity =>
      let quantity := py_max (1 # 1000) quantity in
      let final_quantity := py_round quantity 3 in
      Return final_quantity
  end.

(** The parameters [place_order] signs and posts. [timestamp] is what
    [self._get_timestamp()] returned for this call. *)
Definition order_params (self : AsterDexAPI) (symbol : string)
    (side : OrderSide) (order_type : string) (quantity : Q)
    (position_side : string) (time_in_force : option string)
    (timestamp : Q) : list (string * PVal) :=
  let params :=
    [ ("symbol", PStr symbol);
      ("side", PStr (side_name side));
      ("type", PStr order_type);
      ("quantity", PNum quantity);
      ("positionSide", PStr position_side);
      ("timestamp", PNum timestamp);
      ("recvWindow", PNum (recv_window self)) ] in
  let params :=
    match time_in_force with
    | Some tif =>
        if String.eqb order_type "LIMIT" && negb (String.eqb tif "")
        then (params ++ [("timeInForce", PStr tif)])%list else params
    | None => params
    end in
  (params ++ [("signature", _generate_signature self params)])%list.

(** What [place_order] returns for the venue's answer to the POST:
    [None] on an exception or on a venue error (an answer with a
    ["code"]), the decoded answer otherwise. *)
Definition order_result (reply : Http) : option Json :=
  match reply with
  | ConnectionError => None
  | Response _ body =>
      match json body with
      | Raise _ => None
      | Return result => if in_json "code" result then None else Some result
      end
  end.

(** [place_order]; [reply] is the venue's answer to the POST. *)
Definition place_order (self : AsterDexAPI) (symbol : string)
    (side : OrderSide) (order_type : string) (quantity : Q)
    (position_side : string) (time_in_force : option string)
    (timestamp : Q) (reply : Http) : Eff (option Json) :=
  if Qle_bool quantity 0 then raise ValueError
  else
    emit (Post (api_key self) "/fapi/v1/order"
            (order_params self symbol side order_type quantity
               position_side time_in_force timestamp)) ;;
    ret (order_result reply).

(** [close_position]: the [reduce_only] argument is accepted and not
    used. *)
Definition close_position (self : AsterDexAPI) (symbol : string)
    (side : OrderSide) (order_type : string) (quantity : Q)
    (position_side : string) (reduce_only : bool)
    (timestamp : Q) (reply : Http) : Eff (option Json) :=
  let opposite_side := match side with BUY => SELL | SELL => BUY end in
  place_order self symbol opposite_side order_type quantity position_side
    None timestamp reply.

(** [if result:] on what [place_order] returned. *)
Definition succeeded (result : option Json) : bool :=
  match result with
  | Some j => truthy j
  | None => false
  end.

(** *** [close_all_positions] *)

(** What the venue answers during one attempt of [close_all_positions]:
    to the position query, and to the order if one is placed. *)
Record CloseAllVenue := {
  positions_reply : Http;
  order_timestamp : Q;
  order_reply : Http
}.

Definition max_retries : nat := 3.

(** [{"status": "success", "msg": "无持仓"}] *)
Definition success_no_position : Json :=
  JDict (<["status" := JStr "success"]> (<["msg" := JStr "无持仓"]> ∅)).

(** [position_info[0]] when the answer is a non-empty list, else the
    answer itself. *)
Definition first_position (position_info : Json) : gmap string JVal :=
  match position_info with
  | JList (p :: _) => p
  | JList [] => ∅
  | JDict d => d
  end.

(** The amount read from whichever key is present, [0] when none is. *)
Definition position_amount (position : gmap string JVal) : outcome Q :=
  match position !! "positionAmt" with
  | Some v => py_float v
  | None =>
      match position !! "quantity" with
      | Some v => py_float v
      | None =>
          match position !! "qty" with
          | Some v => py_float v
          | None => Return 0%Q
          end
      end
  end.

(** One iteration of the retry loop. [Some r] is [return r]; [None]
    goes on to the next iteration ([continue], or the end of the body). *)
Definition close_all_attempt (self : AsterDexAPI) (symbol : string)
    (attempt : nat) (v : CloseAllVenue) : Eff (option (option Json)) :=
  try_except
    (let position_info := get_position_info (positions_reply v) in
     if negb (truthy position_info) then
       if (attempt <? max_retries - 1)%nat
       then sleep 1 ;; ret None
       else ret (Some None)
     else
       let position := first_position position_info in
       let* position_amt := of_outcome (position_amount position) in
       if Qeq_bool position_amt 0 then ret (Some (Some success_no_position))
       else
         let quantity := py_abs position_amt in
         let side := if Qltb 0 position_amt then SELL else BUY in
         let* result :=
           place_order self symbol side "MARKET" quantity "BOTH" None
             (order_timestamp v) (order_reply v) in
         match result with
         | Some r =>
             if truthy r && in_json "orderId" r then ret (Some result)
             else if truthy r && in_json "code" r then
               if (attempt <? max_retries - 1)%nat
               then sleep 1 ;; ret None
               else ret None
             else ret None
         | None => ret None
         end)
    (if (attempt <? max_retries - 1)%nat
     then sleep 1 ;; ret None
     else ret None).

Fixpoint close_all_loop (self : AsterDexAPI) (symbol : string)
    (venue : nat -> CloseAllVenue) (attempt remaining : nat)
    : Eff (option Json) :=
  match remaining with
  | O => ret None
  | S remaining' =>
      let* step := close_all_attempt self symbol attempt (venue attempt) in
      match step with
      | Some result => ret result
      | None => close_all_loop self symbol venue (S attempt) remaining'
      end
  end.

(** [close_all_positions]; [venue attempt] is what the venue answers
    during the given attempt. *)
Definition close_all_positions (self : AsterDexAPI) (symbol : string)
    (venue : nat -> CloseAllVenue) : Eff (option Json) :=
  close_all_loop self symbol venue 0 max_retries.

(** *** Request timestamps: [_get_server_time] and [_get_timestamp] *)

(** The warnings the two methods print. *)
Inductive Printed :=
| FetchFailed
| FetchException
| TimeDiffTooLarge (time_diff : Q)
| TimestampException.

(** One client object during a session: its fields, how often it has
    read the clock and asked the time endpoint, and what it printed. *)
Record Session := {
  api : AsterDexAPI;
  reads : nat;
  requests : nat;
  printed : list Printed
}.

Definition set_api (f : AsterDexAPI -> AsterDexAPI) : M Session unit :=
  modify (fun s => {| api := f (api s); reads := reads s;
                      requests := requests s; printed := printed s |}).

Definition set_time_offset (x : Q) (a : AsterDexAPI) : AsterDexAPI :=
  {| api_key := api_key a; api_secret := api_secret a;
     recv_window := recv_window a;
     server_time_warned := server_time_warned a;
     time_offset := x; last_time_sync := last_time_sync a |}.

Definition set_last_time_sync (x : Q) (a : AsterDexAPI) : AsterDexAPI :=
  {| api_key := api_key a; api_secret := api_secret a;
     recv_window := recv_window a;
     server_time_warned := server_time_warned a;
     time_offset := time_offset a; last_time_sync := x |}.

Definition set_server_time_warned (b : bool) (a : AsterDexAPI)
    : AsterDexAPI :=
  {| api_key := api_key a; api_secret := api_secret a;
     recv_window := recv_window a;
     server_time_warned := b;
     time_offset := time_offset a; last_time_sync := last_time_sync a |}.

Definition py_print (p : Printed) : M Session unit :=
  modify (fun s => {| api := api s; reads := reads s;
                      requests := requests s;
                      printed := (printed s ++ [p])%list |}).

(** [if not self.server_time_warned: print(...); self.server_time_warned = True] *)
Definition warn_once (p : Printed) : M Session unit :=
  let* s := get in
  if server_time_warned (api s) then ret tt
  else py_print p ;; set_api (set_server_time_warned true).

Section TimeSync.

(** The successive values of [time.time()], in seconds, and the
    successive answers of [/fapi/v1/time]. *)
Variable clock : nat -> Q.
Variable time_endpoint : nat -> Http.

Definition time_time : M Session Q :=
  fun s => (Return (clock (reads s)),
            {| api := api s; reads := S (reads s);
               requests := requests s; printed := printed s |}).

Definition requests_get_time : M Session Http :=
  fun s => (Return (time_endpoint (requests s)),
            {| api := api s; reads := reads s;
               requests := S (requests s); printed := printed s |}).

(** [int(time.time() * 1000)] *)
Definition local_millis : M Session Q :=
  let* t := time_time in ret (inject_Z (py_int (t * 1000)%Q)).

(** [int(time.time() * 1000) + self.time_offset] *)
Definition local_plus_offset : M Session Q :=
  let* local := local_millis in
  let* s := get in
  ret (local + time_offset (api s))%Q.

Definition _get_server_time : M Session Q :=
  try_except
    (let* response := requests_get_time in
     match response with
     | ConnectionError => raise RequestException
     | Response status_code body =>
         if (status_code =? 200)%Z && has_text body then
           let* data := of_outcome (json body) in
           let* server_time :=
             match data with
             | JDict d =>
                 match d !! "serverTime" with
                 | Some (JNum t) => ret t
                 | Some (JStr _) => local_millis ;; raise TypeError
                 | None => raise KeyError
                 end
             | JList _ => raise TypeError
             end in
           let* local_time := local_millis in
           set_api (set_time_offset (server_time - local_time)) ;;
           let* now := time_time in
           set_api (set_last_time_sync now) ;;
           set_api (set_server_time_warned false) ;;
           ret server_time
         else
           warn_once FetchFailed ;;
           local_plus_offset
     end)
    (warn_once FetchException ;;
     local_plus_offset).

Definition _get_timestamp : M Session Q :=
  try_except
    (let* current_time := time_time in
     let* s := get in
     if Qltb 300 (current_time - last_time_sync (api s))
        || Qeq_bool (last_time_sync (api s)) 0
     then
       let* server_time := _get_server_time in
       let* local_time := local_millis in
       let time_diff := (server_time - local_time)%Q in
       if Qltb 60000 (py_abs time_diff) then
         warn_once (TimeDiffTooLarge time_diff) ;;
         ret local_time
       else ret server_time
     else local_plus_offset)
    (warn_once TimestampException ;;
     local_plus_offset).

End TimeSync.

(** ** Account snapshots shared by the two front ends *)

Inductive Side := LONG | SHORT | NONE.

(** One entry of [account_status] / [account_statuses]: the position,
    margin and balance fields. The text fields ([system_status],
    [last_update]) are left out, so equality of two records says
    nothing about them. *)
Record AccountStatus := {
  position_side : Side;
  quantity : Q;
  entry_price : Q;
  unrealized_pnl : Q;
  margin : Q;
  liquidation_price : Q;
  current_balance : Q;
  initial_balance : Q
}.

Definition account1_name : string := "账户1".
Definition account2_name : string := "账户2".

(** [if result1 and result2] *)
Definition both_succeeded (result1 result2 : option Json) : bool :=
  succeeded result1 && succeeded result2.

(** The side that flattens a signed amount:
    ["SELL" if pos_amt > 0 else "BUY"]. *)
Definition flatten_side (pos_amt : Q) : OrderSide :=
  if Qltb 0 pos_amt then SELL else BUY.

(** The requests among the events of a trace. *)
Definition is_post (e : Event) : bool :=
  match e with Post _ _ _ => true | Sleep _ => false end.

Definition posts (tr : list Event) : list Event := List.filter is_post tr.

(** ** The desktop front end: [BootstrapTradingGUI.trading_loop] *)

Module Gui.

Record Stats := {
  trade_count : nat;
  total_volume_usdt : Q;
  position_open_time : option Q;
  current_funding_rate : Q;
  current_price : Q;
  last_trade_time : option string
}.

(** The mutable part of the application object, and the trace. *)
Record State := {
  stats : Stats;
  account_status : gmap string AccountStatus;
  trace : list Event
}.

(** The part fixed when trading starts: the two clients and
    [config["trading"]]. *)
Record Setup := {
  account1_api : AsterDexAPI;
  account2_api : AsterDexAPI;
  symbol : string;
  usdt_amount : Q;
  wait_seconds : Q
}.

(** What the outside world answers during one cycle. *)
Record Venue := {
  ticker_price : Http;          (* the loop's own price request *)
  premium_index : Http;
  position_risk1 : Http;
  position_risk2 : Http;
  ticker_price_qty : Http;      (* the request inside calculate_quantity_from_usdt *)
  order_timestamp1 : Q;
  order_reply1 : Http;
  order_timestamp2 : Q;
  order_reply2 : Http;
  now : Q;                      (* time.time() *)
  now_str : string              (* datetime.now().strftime("%H:%M:%S") *)
}.

Definition set_stats (f : Stats -> Stats) : M State unit :=
  modify (fun st => {| stats := f (stats st);
                       account_status := account_status st;
                       trace := trace st |}).

(** Run a client method, threading the trace. *)
Definition call {A} (m : Eff A) : M State A :=
  fun st =>
    match m (trace st) with
    | (o, tr) => (o, {| stats := stats st;
                        account_status := account_status st;
                        trace := tr |})
    end.

(** [float(positions[0].get("positionAmt", 0))] when the answer is a
    non-empty list; the initial [0] otherwise. *)
Definition pos_amt_of (positions : Json) : outcome Q :=
  match positions with
  | JList (p :: _) =>
      match p !! "positionAmt" with
      | Some v => py_float v
      | None => Return 0%Q
      end
  | JList [] | JDict _ => Return 0%Q
  end.

(** [self.account_status[name]["quantity"] = q] and the two
    assignments after it. *)
Definition project (name : string) (side : Side) (q price : Q)
    : M State unit :=
  fun st =>
    match account_status st !! name with
    | None => (Raise KeyError, st)
    | Some a =>
        (Return tt,
         {| stats := stats st;
            account_status :=
              <[name := {| position_side := side; quantity := q;
                           entry_price := price;
                           unrealized_pnl := unrealized_pnl a;
                           margin := margin a;
                           liquidation_price := liquidation_price a;
                           current_balance := current_balance a;
                           initial_balance := initial_balance a |}]>
                (account_status st);
            trace := trace st |})
    end.

(** The body of [for acc in ["账户1", "账户2"]] after a close. *)
Definition clear (name : string) : M State unit :=
  fun st =>
    match account_status st !! name with
    | None => (Raise KeyError, st)
    | Some a =>
        (Return tt,
         {| stats := stats st;
            account_status :=
              <[name := {| position_side := NONE; quantity := 0;
                           entry_price := 0; unrealized_pnl := 0;
                           margin := margin a;
                           liquidation_price := liquidation_price a;
                           current_balance := current_balance a;
                           initial_balance := initial_balance a |}]>
                (account_status st);
            trace := trace st |})
    end.

(** The four statistics written when both legs went through. *)
Definition record_open (quantity price : Q) (v : Venue) (s : Stats)
    : Stats :=
  {| trade_count := trade_count s + 1;
     total_volume_usdt := (total_volume_usdt s + quantity * price * 2)%Q;
     position_open_time := Some (now v);
     current_funding_rate := current_funding_rate s;
     current_price := current_price s;
     last_trade_time := Some (now_str v) |}.

(** The two branches of [if funding_rate > 0] differ only in the
    sides; [side1]/[side2] are the order sides and [proj1]/[proj2]
    the sides written to the two projections. *)
Definition open_hedge (g : Setup) (v : Venue) (quantity price : Q)
    (side1 side2 : OrderSide) (proj1 proj2 : Side) : M State unit :=
  let* result1 :=
    call (place_order (account1_api g) (symbol g) side1 "MARKET"
            quantity "BOTH" None (order_timestamp1 v) (order_reply1 v)) in
  let* result2 :=
    call (place_order (account2_api g) (symbol g) side2 "MARKET"
            quantity "BOTH" None (order_timestamp2 v) (order_reply2 v)) in
  if both_succeeded result1 result2 then
    set_stats (record_open quantity price v) ;;
    project account1_name proj1 quantity price ;;
    project account2_name proj2 quantity price
  else ret tt.

Definition clear_open_time (s : Stats) : Stats :=
  {| trade_count := trade_count s;
     total_volume_usdt := total_volume_usdt s;
     position_open_time := None;
     current_funding_rate := current_funding_rate s;
     current_price := current_price s;
     last_trade_time := last_trade_time s |}.

(** The [else] branch of [if not has_position]. *)
Definition close_hedge (g : Setup) (v : Venue) (pos_amt1 pos_amt2 : Q)
    : M State unit :=
  let* st := get in
  match position_open_time (stats st) with
  | None => ret tt
  | Some open_time =>
      if Qeq_bool open_time 0 then ret tt
      else
        let hold_time := py_int (now v - open_time) in
        if Qle_bool (wait_seconds g) (inject_Z hold_time) then
          if negb (Qeq_bool pos_amt1 0) && negb (Qeq_bool pos_amt2 0) then
            let side1 := flatten_side pos_amt1 in
            let* result1 :=
              call (place_order (account1_api g) (symbol g) side1 "MARKET"
                      (py_abs pos_amt1) "BOTH" None
                      (order_timestamp1 v) (order_reply1 v)) in
            let side2 := flatten_side pos_amt2 in
            let* result2 :=
              call (place_order (account2_api g) (symbol g) side2 "MARKET"
                      (py_abs pos_amt2) "BOTH" None
                      (order_timestamp2 v) (order_reply2 v)) in
            if both_succeeded result1 result2 then
              set_stats clear_open_time ;;
              clear account1_name ;;
              clear account2_name ;;
              call (sleep 2)
            else ret tt
          else ret tt
        else ret tt
  end.

Definition set_market (price funding : Q) (s : Stats) : Stats :=
  {| trade_count := trade_count s;
     total_volume_usdt := total_volume_usdt s;
     position_open_time := position_open_time s;
     current_funding_rate := funding;
     current_price := price;
     last_trade_time := last_trade_time s |}.

(** The body of the [try] inside [while self.trading_active ...]. *)
Definition trading_cycle (g : Setup) (v : Venue) : M State unit :=
  let current_price := get_current_price (ticker_price v) in
  let funding_rate := get_funding_rate (premium_index v) in
  if Qle_bool current_price 0 then call (sleep 5)
  else
    set_stats (set_market current_price funding_rate) ;;
    let positions1 := get_position_info (position_risk1 v) in
    let positions2 := get_position_info (position_risk2 v) in
    let* pos_amt1 := of_outcome (pos_amt_of positions1) in
    let has_position1 := negb (Qeq_bool pos_amt1 0) in
    let* pos_amt2 := of_outcome (pos_amt_of positions2) in
    let has_position2 := negb (Qeq_bool pos_amt2 0) in
    if xorb has_position1 has_position2 then
      (if has_position1 then
         call (place_order (account1_api g) (symbol g)
                 (flatten_side pos_amt1) "MARKET" (py_abs pos_amt1)
                 "BOTH" None (order_timestamp1 v) (order_reply1 v)) ;;
         ret tt
       else ret tt) ;;
      (if has_position2 then
         call (place_order (account2_api g) (symbol g)
                 (flatten_side pos_amt2) "MARKET" (py_abs pos_amt2)
                 "BOTH" None (order_timestamp2 v) (order_reply2 v)) ;;
         ret tt
       else ret tt) ;;
      call (sleep 2)
    else
      let has_position := has_position1 && has_position2 in
      if negb has_position then
        if negb (Qeq_bool pos_amt1 0) || negb (Qeq_bool pos_amt2 0)
        then call (sleep 5)
        else
          let* quantity :=
            of_outcome (calculate_quantity_from_usdt (usdt_amount g)
                          (ticker_price_qty v)) in
          let notional_value := (quantity * current_price)%Q in
          if Qltb notional_value 5 then call (sleep 5)
          else
            (if Qltb 0 funding_rate
             then open_hedge g v quantity current_price SELL BUY SHORT LONG
             else open_hedge g v quantity current_price BUY SELL LONG SHORT) ;;
            call (sleep 1)
      else
        close_hedge g v pos_amt1 pos_amt2 ;;
        call (sleep 1).

(** One iteration of the loop: the cycle under its
    [except Exception], which waits five seconds. *)
Definition trading_loop_iteration (g : Setup) (v : Venue) : M State unit :=
  try_except (trading_cycle g v) (call (sleep 5)).

End Gui.

(** ** The terminal front end: [TradingUI] and [main] *)

Module Cli.

Record Stats := {
  trade_count : nat;
  current_funding_rate : Q;
  last_trade_time : option string;
  symbol : string;
  leverage : Q;
  wait_seconds : Q;
  last_order_price : Q;
  total_volume : Q;
  total_volume_usdt : Q;
  initial_total_balance : Q;
  position_open_time : option Q;
  actual_hold_time : Z
}.

(** [class TradingUI]: the account snapshots the polling threads
    publish, the statistics, and the trace. *)
Record TradingUI := {
  account_statuses : gmap string AccountStatus;
  stats : Stats;
  trace : list Event
}.

(** [config["trading"]] and the two clients. *)
Record Setup := {
  account1 : AsterDexAPI;
  account2 : AsterDexAPI;
  cfg_symbol : string;
  usdt_amount : Q;
  cfg_position_side : string;
  order_type : string;
  cfg_leverage : Q;
  cfg_wait_seconds : Q;
  max_trades : nat
}.

(** What the outside world answers during one cycle. *)
Record Venue := {
  ticker_price : Http;
  premium_index : Http;
  ticker_price_qty : Http;      (* the request inside calculate_quantity_from_usdt *)
  order_timestamp1 : Q;
  order_reply1 : Http;
  order_timestamp2 : Q;
  order_reply2 : Http;
  close_all_venue : nat -> CloseAllVenue;  (* for the compensating close *)
  now : Q;                      (* time.time() *)
  now_str : string              (* datetime.now().strftime(...) *)
}.

Definition set_stats (f : Stats -> Stats) : M TradingUI unit :=
  modify (fun ui => {| account_statuses := account_statuses ui;
                       stats := f (stats ui);
                       trace := trace ui |}).

Definition call {A} (m : Eff A) : M TradingUI A :=
  fun ui =>
    match m (trace ui) with
    | (o, tr) => (o, {| account_statuses := account_statuses ui;
                        stats := stats ui;
                        trace := tr |})
    end.

(** [sum(status["initial_balance"] for status in
    self.account_statuses.values())] *)
Definition sum_initial_balance (m : gmap string AccountStatus) : Q :=
  map_fold (fun _ a acc => (acc + initial_balance a)%Q) 0%Q m.

(** [TradingUI.update_stats], with the clock readings it makes. *)
Definition update_stats (funding_rate : Q) (symbol : string)
    (leverage wait_seconds last_order_price volume : Q)
    (position_opened : bool) (now : Q) (now_str : string)
    (ui : TradingUI) : TradingUI :=
  let s := stats ui in
  {| account_statuses := account_statuses ui;
     stats :=
       {| trade_count := trade_count s + 1;
          current_funding_rate := funding_rate;
          last_trade_time := Some now_str;
          symbol := symbol;
          leverage := leverage;
          wait_seconds := wait_seconds;
          last_order_price := last_order_price;
          total_volume := (total_volume s + volume)%Q;
          total_volume_usdt :=
            (total_volume_usdt s + volume * last_order_price)%Q;
          initial_total_balance :=
            if Qeq_bool (initial_total_balance s) 0
            then sum_initial_balance (account_statuses ui)
            else initial_total_balance s;
          position_open_time :=
            if position_opened then Some now else position_open_time s;
          actual_hold_time := actual_hold_time s |};
     trace := trace ui |}.

(** The four assignments to [ui.stats] at the top of a cycle. *)
Definition set_display (funding_rate : Q) (g : Setup) (s : Stats) : Stats :=
  {| trade_count := trade_count s;
     current_funding_rate := funding_rate;
     last_trade_time := last_trade_time s;
     symbol := cfg_symbol g;
     leverage := cfg_leverage g;
     wait_seconds := cfg_wait_seconds g;
     last_order_price := last_order_price s;
     total_volume := total_volume s;
     total_volume_usdt := total_volume_usdt s;
     initial_total_balance := initial_total_balance s;
     position_open_time := position_open_time s;
     actual_hold_time := actual_hold_time s |}.

Definition set_hold (open_time : option Q) (hold : Z) (s : Stats) : Stats :=
  {| trade_count := trade_count s;
     current_funding_rate := current_funding_rate s;
     last_trade_time := last_trade_time s;
     symbol := symbol s;
     leverage := leverage s;
     wait_seconds := wait_seconds s;
     last_order_price := last_order_price s;
     total_volume := total_volume s;
     total_volume_usdt := total_volume_usdt s;
     initial_total_balance := initial_total_balance s;
     position_open_time := open_time;
     actual_hold_time := hold |}.

(** [account1_status.get("position_side", "NONE")] on
    [ui.account_statuses.get(account1_name, {})]. *)
Definition side_of (status : option AccountStatus) : Side :=
  match status with
  | Some a => position_side a
  | None => NONE
  end.

(** [account1_status.get("quantity", 0)] *)
Definition quantity_of (status : option AccountStatus) : Q :=
  match status with
  | Some a => quantity a
  | None => 0
  end.

(** The two branches of [if funding_rate > 0] differ only in the
    order sides. *)
Definition open_hedge (g : Setup) (v : Venue)
    (funding_rate current_price quantity : Q) (side1 side2 : OrderSide)
    : M TradingUI unit :=
  let* result1 :=
    call (place_order (account1 g) (cfg_symbol g) side1 (order_type g)
            quantity (cfg_position_side g) None
            (order_timestamp1 v) (order_reply1 v)) in
  let* result2 :=
    call (place_order (account2 g) (cfg_symbol g) side2 (order_type g)
            quantity (cfg_position_side g) None
            (order_timestamp2 v) (order_reply2 v)) in
  if both_succeeded result1 result2 then
    modify (update_stats funding_rate (cfg_symbol g) (cfg_leverage g)
              (cfg_wait_seconds g) current_price quantity true
              (now v) (now_str v))
  else if succeeded result1 && negb (succeeded result2) then
    call (close_all_positions (account1 g) (cfg_symbol g)
            (close_all_venue v)) ;;
    ret tt
  else ret tt.

(** The [elif] branch of the cycle: a position is shown on account 1. *)
Definition close_hedge (g : Setup) (v : Venue) (funding_rate : Q)
    (account1_status : option AccountStatus) : M TradingUI unit :=
  let* ui := get in
  let* actual_hold_time :=
    match position_open_time (stats ui) with
    | Some open_time =>
        let h := py_int (now v - open_time) in
        set_stats (set_hold (Some open_time) h) ;;
        ret h
    | None => ret 0%Z
    end in
  let should_close_by_time :=
    Qle_bool (cfg_wait_seconds g) (inject_Z actual_hold_time) in
  let should_close_by_funding :=
    match side_of account1_status with
    | LONG => Qltb 0 funding_rate
    | SHORT => Qltb funding_rate 0
    | NONE => false
    end in
  if should_close_by_time || should_close_by_funding then
    let quantity := quantity_of account1_status in
    if Qle_bool quantity 0 then ret tt
    else
      let sides :=
        match side_of account1_status with
        | LONG => (SELL, BUY)
        | _ => (BUY, SELL)
        end in
      let* result1 :=
        call (place_order (account1 g) (cfg_symbol g) (fst sides)
                (order_type g) quantity (cfg_position_side g) None
                (order_timestamp1 v) (order_reply1 v)) in
      let* result2 :=
        call (place_order (account2 g) (cfg_symbol g) (snd sides)
                (order_type g) quantity (cfg_position_side g) None
                (order_timestamp2 v) (order_reply2 v)) in
      if both_succeeded result1 result2
      then set_stats (set_hold None 0)
      else ret tt
  else ret tt.

(** The body of the [try] inside [while ui.running], after the
    [max_trades] test; there is one account pair. The refresh of the
    display ([generate_layout], which recomputes the displayed
    [actual_hold_time]) is left out. *)
Definition main_cycle (g : Setup) (v : Venue) : M TradingUI unit :=
  let current_price := get_current_price (ticker_price v) in
  let funding_rate := get_funding_rate (premium_index v) in
  set_stats (set_display funding_rate g) ;;
  let* ui := get in
  let account1_status := account_statuses ui !! account1_name in
  (match side_of account1_status with
   | NONE =>
       let* quantity :=
         of_outcome (calculate_quantity_from_usdt (usdt_amount g)
                       (ticker_price_qty v)) in
       let notional_value := (quantity * current_price)%Q in
       if Qltb notional_value 5 then call (sleep (cfg_wait_seconds g))
       else if Qltb 0 funding_rate
       then open_hedge g v funding_rate current_price quantity SELL BUY
       else open_hedge g v funding_rate current_price quantity BUY SELL
   | LONG | SHORT => close_hedge g v funding_rate account1_status
   end) ;;
  call (sleep (cfg_wait_seconds g)).

(** One iteration: the cycle under its [except Exception]. *)
Definition main_iteration (g : Setup) (v : Venue) : M TradingUI unit :=
  try_except (main_cycle g v) (call (sleep 5)).

End Cli.

(** * Auxiliary definitions for the statements *)

(** A venue answer carrying the given price. *)
Definition ticker_at (price : Q) : Http :=
  Response 200 (Decoded (JDict {["price" := JNum price]})).

(** The ways the price request fails. *)
Inductive price_fetch_failed : Http -> Prop :=
| pf_connection : price_fetch_failed ConnectionError
| pf_status s b : s <> 200%Z -> price_fetch_failed (Response s b)
| pf_empty s : price_fetch_failed (Response s EmptyText)
| pf_bad_json s : price_fetch_failed (Response s BadJson)
| pf_not_object s l : price_fetch_failed (Response s (Decoded (JList l)))
| pf_no_price s d :
    d !! "price" = None -> price_fetch_failed (Response s (Decoded (JDict d)))
| pf_not_a_number s d t :
    d !! "price" = Some (JStr t) ->
    price_fetch_failed (Response s (Decoded (JDict d))).


(** The position query of an attempt came back with a position whose
    amount is zero. *)
Definition flat_reading (v : CloseAllVenue) : Prop :=
  truthy (get_position_info (positions_reply v)) = true /\
  exists q : Q,
    position_amount (first_position (get_position_info (positions_reply v)))
      = Return q /\ (q == 0)%Q.

(** The position query of an attempt came back empty. *)
Definition no_reading (v : CloseAllVenue) : Prop :=
  truthy (get_position_info (positions_reply v)) = false.

(** The account is observed flat at attempt [k]: the queries before it
    came back empty and this one shows a zero amount. *)
Definition observed_flat (venue : nat -> CloseAllVenue) (k : nat) : Prop :=
  (k < max_retries)%nat /\
  (forall i : nat, (i < k)%nat -> no_reading (venue i)) /\
  flat_reading (venue k).

(** A position query answered with one position of the given amount. *)
Definition position_risk_at (amount : Q) : Http :=
  Response 200 (Decoded (JList [ {["positionAmt" := JNum amount]} ])).

Definition flat_venue : nat -> CloseAllVenue :=
  fun _ => {| positions_reply := position_risk_at 0;
              order_timestamp := 0;
              order_reply := ConnectionError |}.

Definition demo_api (key : string) : AsterDexAPI :=
  AsterDexAPI_init key "secret".

(** [_get_timestamp] will ask the venue for its time: first use, or
    more than 300 seconds after the last synchronisation. *)
Definition sync_due (clock : nat -> Q) (s : Session) : Prop :=
  (300 < clock (reads s) - last_time_sync (api s))%Q \/
  (last_time_sync (api s) == 0)%Q.

(** A time endpoint answer carrying the given server time. *)
Definition server_time_at (t : Q) : Http :=
  Response 200 (Decoded (JDict {["serverTime" := JNum t]})).

(** A fresh client, and a session of two timestamp requests 301 seconds
    apart in which the venue's clock is 120000 ms ahead both times. *)
Definition fresh_session : Session :=
  {| api := demo_api "k1"; reads := 0; requests := 0; printed := [] |}.

Definition skewed_clock (n : nat) : Q :=
  if (n <? 4)%nat then 1000 else 1301.

Definition skewed_endpoint (n : nat) : Http :=
  if (n =? 0)%nat then server_time_at 1120000 else server_time_at 1421000.

Definition two_timestamps : M Session (Q * Q) :=
  let* t1 := _get_timestamp skewed_clock skewed_endpoint in
  let* t2 := _get_timestamp skewed_clock skewed_endpoint in
  ret (t1, t2).

(** The request [place_order] posts for a market order in one-way
    mode, as the desktop loop places them. *)
Definition market_order (self : AsterDexAPI) (symbol : string)
    (side : OrderSide) (quantity timestamp : Q) : Event :=
  Post (api_key self) "/fapi/v1/order"
    (order_params self symbol side "MARKET" quantity "BOTH" None timestamp).

(** [x != 0] *)
Definition nonzero (x : Q) : bool := negb (Qeq_bool x 0).

(** *** Concrete venues and states used to exercise the loops *)

Definition funding_at (rate : Q) : Http :=
  Response 200 (Decoded (JDict {["lastFundingRate" := JNum rate]})).

Definition order_accepted : Http :=
  Response 200 (Decoded (JDict {["orderId" := JNum 1]})).

Definition order_rejected : Http :=
  Response 400 (Decoded (JDict {["code" := JNum (-2019)]})).

Definition status_of (side : Side) (qty : Q) : AccountStatus :=
  {| position_side := side; quantity := qty; entry_price := 0;
     unrealized_pnl := 0; margin := 0; liquidation_price := 0;
     current_balance := 0; initial_balance := 0 |}.

Definition two_accounts (s1 s2 : AccountStatus) : gmap string AccountStatus :=
  <[account1_name := s1]> (<[account2_name := s2]> ∅).

Definition gui_setup : Gui.Setup :=
  {| Gui.account1_api := demo_api "key1";
     Gui.account2_api := demo_api "key2";
     Gui.symbol := "ETHUSDT";
     Gui.usdt_amount := 300;
     Gui.wait_seconds := 60 |}.

Definition gui_state (open_time : option Q) (s1 s2 : AccountStatus)
    : Gui.State :=
  {| Gui.stats :=
       {| Gui.trade_count := 0; Gui.total_volume_usdt := 0;
          Gui.position_open_time := open_time;
          Gui.current_funding_rate := 0; Gui.current_price := 0;
          Gui.last_trade_time := None |};
     Gui.account_status := two_accounts s1 s2;
     Gui.trace := [] |}.

(** A cycle of the desktop loop with the given price answer, funding
    rate, position amounts on the two accounts and clock reading; both
    orders, if placed, are accepted. *)
Definition gui_venue (ticker : Http) (rate amt1 amt2 now : Q) : Gui.Venue :=
  {| Gui.ticker_price := ticker;
     Gui.premium_index := funding_at rate;
     Gui.position_risk1 := position_risk_at amt1;
     Gui.position_risk2 := position_risk_at amt2;
     Gui.ticker_price_qty := ticker_at 3000;
     Gui.order_timestamp1 := 1000000;
     Gui.order_reply1 := order_accepted;
     Gui.order_timestamp2 := 1000000;
     Gui.order_reply2 := order_accepted;
     Gui.now := now;
     Gui.now_str := "12:00:00" |}.

Definition cli_setup : Cli.Setup :=
  {| Cli.account1 := demo_api "key1";
     Cli.account2 := demo_api "key2";
     Cli.cfg_symbol := "ETHUSDT";
     Cli.usdt_amount := 300;
     Cli.cfg_position_side := "BOTH";
     Cli.order_type := "MARKET";
     Cli.cfg_leverage := 20;
     Cli.cfg_wait_seconds := 60;
     Cli.max_trades := 100 |}.

Definition cli_ui (open_time : option Q) (s1 s2 : AccountStatus)
    : Cli.TradingUI :=
  {| Cli.account_statuses := two_accounts s1 s2;
     Cli.stats :=
       {| Cli.trade_count := 0; Cli.current_funding_rate := 0;
          Cli.last_trade_time := None; Cli.symbol := "";
          Cli.leverage := 0; Cli.wait_seconds := 0;
          Cli.last_order_price := 0; Cli.total_volume := 0;
          Cli.total_volume_usdt := 0; Cli.initial_total_balance := 0;
          Cli.position_open_time := open_time;
          Cli.actual_hold_time := 0 |};
     Cli.trace := [] |}.

(** A cycle of the terminal loop at price 3000 with the given funding
    rate and clock reading; both orders, if placed, are accepted. *)
Definition cli_venue (rate now : Q) : Cli.Venue :=
  {| Cli.ticker_price := ticker_at 3000;
     Cli.premium_index := funding_at rate;
     Cli.ticker_price_qty := ticker_at 3000;
     Cli.order_timestamp1 := 1000000;
     Cli.order_reply1 := order_accepted;
     Cli.order_timestamp2 := 1000000;
     Cli.order_reply2 := order_accepted;
     Cli.close_all_venue := flat_venue;
     Cli.now := now;
     Cli.now_str := "2025-01-01 12:00:00" |}.

(** The order the terminal loop posts on a leg. *)
Definition cli_order (g : Cli.Setup) (self : AsterDexAPI) (side : OrderSide)
    (quantity timestamp : Q) : Event :=
  Post (api_key self) "/fapi/v1/order"
    (order_params self (Cli.cfg_symbol g) side (Cli.order_type g) quantity
       (Cli.cfg_position_side g) None timestamp).

(** What the open branch writes into an account's projection. *)
Definition projected (side : Side) (qty price : Q) (a : AccountStatus)
    : AccountStatus :=
  {| position_side := side; quantity := qty; entry_price := price;
     unrealized_pnl := unrealized_pnl a; margin := margin a;
     liquidation_price := liquidation_price a;
     current_balance := current_balance a;
     initial_balance := initial_balance a |}.

(** ** More of the two front ends and of the client *)

(** The [while] loop of [BootstrapTradingGUI.trading_loop]:
    [trading_active i] is the value of [self.trading_active] at the
    [i]-th test of the loop condition, [venues i] what the outside world
    answers during the [i]-th iteration; at most [fuel] iterations are
    run. The two [set_leverage] calls before the loop and the
    [stop_trading] call after it are not part of it. *)
Fixpoint trading_loop (g : Gui.Setup) (max_trades : nat)
    (trading_active : nat -> bool) (venues : nat -> Gui.Venue)
    (i fuel : nat) : M Gui.State unit :=
  match fuel with
  | O => ret tt
  | S fuel' =>
      let* st := get in
      if trading_active i
         && (Gui.trade_count (Gui.stats st) <? max_trades)%nat
      then
        Gui.trading_loop_iteration g (venues i) ;;
        trading_loop g max_trades trading_active venues (S i) fuel'
      else ret tt
  end.

(** The [while ui.running] loop of [main]: [running i] is the value of
    [ui.running] at the [i]-th test, [venues i] what the outside world
    answers during the [i]-th iteration; at most [fuel] iterations are
    run. The [break] on [trade_count >= max_trades] comes first in the
    body. The final [cleanup_positions] is not part of the loop. *)
Fixpoint main_loop (g : Cli.Setup) (running : nat -> bool)
    (venues : nat -> Cli.Venue) (i fuel : nat) : M Cli.TradingUI unit :=
  match fuel with
  | O => ret tt
  | S fuel' =>
      if running i then
        let* ui := get in
        if (Cli.max_trades g <=? Cli.trade_count (Cli.stats ui))%nat
        then ret tt
        else
          Cli.main_iteration g (venues i) ;;
          main_loop g running venues (S i) fuel'
      else ret tt
  end.

(** *** [calculate_margin] *)

(** [float(d.get(key, 0))] *)
Definition get_float (d : gmap string JVal) (key : string) : outcome Q :=
  match d !! key with
  | Some v => py_float v
  | None => Return 0%Q
  end.

(** [position_info.get("marginType", "") == "isolated"] *)
Definition is_isolated (position_info : gmap string JVal) : bool :=
  match position_info !! "marginType" with
  | Some (JStr s) => String.eqb s "isolated"
  | Some (JNum _) | None => false
  end.

(** The last step of [calculate_margin]: when no margin is reported,
    derive it from the position, the price and the leverage. *)
Definition derived_margin (position_info : gmap string JVal)
    (leverage margin : Q) : outcome Q :=
  if Qeq_bool margin 0 then
    match get_float position_info "positionAmt" with
    | Raise e => Raise e
    | Return position_amt =>
    match get_float position_info "markPrice" with
    | Raise e => Raise e
    | Return mark_price =>
    match get_float position_info "entryPrice" with
    | Raise e => Raise e
    | Return entry_price =>
        let price := if Qltb 0 mark_price then mark_price else entry_price in
        if negb (Qeq_bool position_amt 0) && Qltb 0 price then
          match
            match position_info !! "leverage" with
            | Some v => py_float v
            | None => Return leverage
            end
          with
          | Raise e => Raise e
          | Return position_leverage =>
              py_truediv (py_abs (position_amt * price)) position_leverage
          end
        else Return margin
    end end end
  else Return margin.

(** [calculate_margin(position_info, leverage=20)] on a position
    record; an empty record is the falsy [position_info]. *)
Definition calculate_margin (position_info : gmap string JVal)
    (leverage : Q) : outcome Q :=
  if bool_decide (position_info = ∅) then Return 0%Q
  else
    match
      if is_isolated position_info then
        match get_float position_info "isolatedMargin" with
        | Raise e => Raise e
        | Return margin =>
            if Qltb 0 margin then Return (Some (py_round margin 2))
            else Return None
        end
      else Return None
    with
    | Raise e => Raise e
    | Return (Some rounded) => Return rounded
    | Return None =>
        match get_float position_info "initialMargin" with
        | Raise e => Raise e
        | Return margin =>
            match
              if Qeq_bool margin 0
              then get_float position_info "positionInitialMargin"
              else Return margin
            with
            | Raise e => Raise e
            | Return margin =>
                match derived_margin position_info leverage margin with
                | Raise e => Raise e
                | Return margin => Return (py_round margin 2)
                end
            end
        end
    end.

(** *** Account answers: [get_account_info] and [get_account_balance] *)

(** The account endpoints answer with an array of asset records
    ([/fapi/v2/balance]) or with an object whose ["assets"] entry, when
    it has one, is an array of asset records ([/fapi/v4/account],
    [/fapi/v1/account]). *)
Inductive AccountJson :=
| AccList (items : list (gmap string JVal))
| AccDict (fields : gmap string JVal)
          (assets : option (list (gmap string JVal))).

Inductive AccountBody :=
| AccEmptyText
| AccBadJson
| AccDecoded (j : AccountJson).

Inductive AccountHttp :=
| AccConnectionError
| AccResponse (status_code : Z) (body : AccountBody).

(** [response.status_code == 200 and response.text], then
    [response.json()]; [None] stands for the condition being false and
    [Raise] for a body that does not decode. *)
Definition ok_json (reply : AccountHttp) : outcome (option AccountJson) :=
  match reply with
  | AccConnectionError => Raise RequestException
  | AccResponse status_code body =>
      if (status_code =? 200)%Z then
        match body with
        | AccEmptyText => Return None
        | AccBadJson => Raise ValueError
        | AccDecoded j => Return (Some j)
        end
      else Return None
  end.

(** [asset.get("asset") == "USDT"] *)
Definition is_usdt (asset : gmap string JVal) : bool :=
  match asset !! "asset" with
  | Some (JStr s) => String.eqb s "USDT"
  | Some (JNum _) | None => false
  end.

(** [asset.get(key, 0)], not converted. *)
Definition get_raw (d : gmap string JVal) (key : string) : JVal :=
  match d !! key with
  | Some v => v
  | None => JNum 0
  end.

(** The asset record [get_account_info] builds from the first USDT
    entry of a [/fapi/v2/balance] answer. *)
Definition v2_asset (asset : gmap string JVal)
    : outcome (gmap string JVal) :=
  match get_float asset "balance" with
  | Raise e => Raise e
  | Return wallet_balance =>
  match get_float asset "crossWalletBalance" with
  | Raise e => Raise e
  | Return cross_wallet =>
  match get_float asset "availableBalance" with
  | Raise e => Raise e
  | Return available =>
      let wallet_balance :=
        if Qeq_bool wallet_balance 0 && Qltb 0 cross_wallet
        then cross_wallet else wallet_balance in
      Return
        (<["asset" := JStr "USDT"]>
        (<["walletBalance" := JNum wallet_balance]>
        (<["marginBalance" :=
             JNum (if Qltb 0 cross_wallet then cross_wallet
                   else wallet_balance)]>
        (<["unrealizedProfit" := get_raw asset "crossUnPnl"]>
        (<["availableBalance" :=
             JNum (if Qltb 0 available then available
                   else wallet_balance)]>
        (<["updateTime" := JNum 0]> ∅))))))
  end end end.

(** The [for asset in result] loop of the v2 branch: the assets list
    built from the first USDT entry, [[]] when there is none. *)
Fixpoint v2_assets (result : list (gmap string JVal))
    : outcome (list (gmap string JVal)) :=
  match result with
  | [] => Return []
  | asset :: rest =>
      if is_usdt asset then
        match v2_asset asset with
        | Raise e => Raise e
        | Return a => Return [a]
        end
      else v2_assets rest
  end.

(** The answer of last resort: one USDT asset with zero balances. *)
Definition default_assets : list (gmap string JVal) :=
  [ <["asset" := JStr "USDT"]>
    (<["walletBalance" := JNum 0]>
    (<["marginBalance" := JNum 0]>
    (<["unrealizedProfit" := JNum 0]>
    (<["availableBalance" := JNum 0]>
    (<["updateTime" := JNum 0]> ∅))))) ].

(** [get_account_info]: the ["assets"] entry of the dictionary it
    returns (the only entry its callers read); [v4] and [v2] are the
    answers of the two endpoints it may ask. *)
Definition get_account_info (v4 v2 : AccountHttp)
    : list (gmap string JVal) :=
  match ok_json v4 with
  | Return (Some (AccDict _ (Some assets))) => assets
  | _ =>
      match ok_json v2 with
      | Return (Some (AccList result)) =>
          match v2_assets result with
          | Return assets => assets
          | Raise _ => default_assets
          end
      | _ => default_assets
      end
  end.

(** The body of a [for asset in ...] loop of [get_account_balance]:
    the first positive balance among the three fields of the first USDT
    entries; [None] when the loop ends without a [return]. *)
Fixpoint first_positive_balance (k1 k2 k3 : string)
    (assets : list (gmap string JVal)) : outcome (option Q) :=
  match assets with
  | [] => Return None
  | asset :: rest =>
      if is_usdt asset then
        match get_float asset k1 with
        | Raise e => Raise e
        | Return b1 =>
            if Qltb 0 b1 then Return (Some b1)
            else
              match get_float asset k2 with
              | Raise e => Raise e
              | Return b2 =>
                  if Qltb 0 b2 then Return (Some b2)
                  else
                    match get_float asset k3 with
                    | Raise e => Raise e
                    | Return b3 =>
                        if Qltb 0 b3 then Return (Some b3)
                        else first_positive_balance k1 k2 k3 rest
                    end
              end
        end
      else first_positive_balance k1 k2 k3 rest
  end.

(** The third method: the two totals of [/fapi/v1/account]. *)
Definition v1_balance (result : AccountJson) : outcome (option Q) :=
  match result with
  | AccList _ => Return None
  | AccDict fields _ =>
      match
        match fields !! "totalWalletBalance" with
        | Some v =>
            match py_float v with
            | Raise e => Raise e
            | Return b => Return (if Qltb 0 b then Some b else None)
            end
        | None => Return None
        end
      with
      | Raise e => Raise e
      | Return (Some b) => Return (Some b)
      | Return None =>
          match fields !! "totalCrossWalletBalance" with
          | Some v =>
              match py_float v with
              | Raise e => Raise e
              | Return b => Return (if Qltb 0 b then Some b else None)
              end
          | None => Return None
          end
      end
  end.

(** The four answers [get_account_balance] may need: the two of its
    [get_account_info] call, the [/fapi/v2/balance] answer of its second
    method and the [/fapi/v1/account] answer of its third. *)
Record BalanceVenue := {
  info_v4 : AccountHttp;
  info_v2 : AccountHttp;
  balance_v2 : AccountHttp;
  account_v1 : AccountHttp
}.

(** [get_account_balance] *)
Definition get_account_balance (bv : BalanceVenue) : Q :=
  match
    first_positive_balance "walletBalance" "crossWalletBalance"
      "availableBalance" (get_account_info (info_v4 bv) (info_v2 bv))
  with
  | Return (Some b) => b
  | _ =>
      match
        match ok_json (balance_v2 bv) with
        | Return (Some (AccList result)) =>
            first_positive_balance "balance" "crossWalletBalance"
              "availableBalance" result
        | Return _ => Return None
        | Raise e => Raise e
        end
      with
      | Return (Some b) => b
      | _ =>
          match
            match ok_json (account_v1 bv) with
            | Return (Some result) => v1_balance result
            | Return None => Return None
            | Raise e => Raise e
            end
          with
          | Return (Some b) => b
          | _ => 0
          end
      end
  end.

(** *** Cleaning up: the two [cleanup_positions] *)

(** What the venue answers while the desktop application cleans up:
    per account, the position query, and the order if one is placed. *)
Record GuiCleanupVenue := {
  cleanup_risk1 : Http;
  cleanup_timestamp1 : Q;
  cleanup_reply1 : Http;
  cleanup_risk2 : Http;
  cleanup_timestamp2 : Q;
  cleanup_reply2 : Http
}.

(** The body of [for i, api in enumerate([...], 1)] in
    [BootstrapTradingGUI.cleanup_positions]. *)
Definition gui_cleanup_account (api : AsterDexAPI) (symbol : string)
    (risk : Http) (timestamp : Q) (reply : Http) : Eff unit :=
  match get_position_info risk with
  | JList (position :: _) =>
      let* pos_amt := of_outcome (get_float position "positionAmt") in
      if negb (Qeq_bool pos_amt 0) then
        let side := if Qltb 0 pos_amt then SELL else BUY in
        place_order api symbol side "MARKET" (py_abs pos_amt) "BOTH" None
          timestamp reply ;;
        ret tt
      else ret tt
  | JList [] | JDict _ => ret tt
  end.

(** [BootstrapTradingGUI.cleanup_positions]: one [try] around the loop
    over the two clients. *)
Definition gui_cleanup_positions (g : Gui.Setup) (v : GuiCleanupVenue)
    : Eff unit :=
  try_except
    (gui_cleanup_account (Gui.account1_api g) (Gui.symbol g)
       (cleanup_risk1 v) (cleanup_timestamp1 v) (cleanup_reply1 v) ;;
     gui_cleanup_account (Gui.account2_api g) (Gui.symbol g)
       (cleanup_risk2 v) (cleanup_timestamp2 v) (cleanup_reply2 v))
    (ret tt).

(** The terminal program's [cleanup_positions] keeps a list of the
    accounts it could not clean. *)
Record Cleanup := {
  failed_accounts : list string;
  cleanup_trace : list Event
}.

(** Run a client method, threading the trace. *)
Definition cleanup_call {A} (m : Eff A) : M Cleanup A :=
  fun st =>
    match m (cleanup_trace st) with
    | (o, tr) => (o, {| failed_accounts := failed_accounts st;
                        cleanup_trace := tr |})
    end.

(** What the venue answers during one cleanup attempt: to the attempts
    of [close_all_positions], and to the position query that follows. *)
Record CleanupVenue := {
  close_venue : nat -> CloseAllVenue;
  verify_reply : Http
}.

Definition max_cleanup_retries : nat := 3.

(** How an iteration of [for cleanup_attempt in range(...)] ends. *)
Inductive CleanupStep := CleanupBreak | CleanupNext.

(** [float(position_info[0].get("positionAmt", 0))] under
    [if position_info and isinstance(position_info, list) and
    len(position_info) > 0]; [None] is the [else] branch. *)
Definition verified_amount (position_info : Json) : outcome (option Q) :=
  match position_info with
  | JList (position :: _) =>
      match get_float position "positionAmt" with
      | Raise e => Raise e
      | Return position_amt => Return (Some position_amt)
      end
  | JList [] | JDict _ => Return None
  end.

(** [result.get("status") == "success" and result.get("msg") == "无持仓"] *)
Definition is_no_position (result : gmap string JVal) : bool :=
  match result !! "status" with
  | Some (JStr s) =>
      String.eqb s "success" &&
      match result !! "msg" with
      | Some (JStr m) => String.eqb m "无持仓"
      | Some (JNum _) | None => false
      end
  | Some (JNum _) | None => false
  end.

(** The two branches of [if cleanup_attempt < max_cleanup_retries - 1]
    in the failure paths: only the last attempt records the account. *)
Definition report_failure (account_name : string) (cleanup_attempt : nat)
    : M Cleanup unit :=
  if (cleanup_attempt <? max_cleanup_retries - 1)%nat then ret tt
  else
    modify (fun st =>
              {| failed_accounts := (failed_accounts st ++ [account_name])%list;
                 cleanup_trace := cleanup_trace st |}).

(** One iteration of [for cleanup_attempt in range(max_cleanup_retries)].
    The request of [cancel_all_orders] is not an order and nothing of
    what it returns is used. *)
Definition cleanup_attempt (account_name : string) (api : AsterDexAPI)
    (symbol : string) (attempt : nat) (v : CleanupVenue)
    : M Cleanup CleanupStep :=
  try_except
    ((if (0 <? attempt)%nat then cleanup_call (sleep 1) else ret tt) ;;
     let* result :=
       cleanup_call (close_all_positions api symbol (close_venue v)) in
     if succeeded result then
       match result with
       | Some (JDict d) =>
           if is_no_position d then ret CleanupBreak
           else if has_key "orderId" d then
             cleanup_call (sleep 2) ;;
             match verified_amount (get_position_info (verify_reply v)) with
             | Return (Some position_amt) =>
                 if Qeq_bool position_amt 0 then ret CleanupBreak
                 else ret CleanupNext
             | Return None => ret CleanupBreak
             | Raise _ => ret CleanupBreak
             end
           else ret CleanupBreak
       | Some (JList _) | None => ret CleanupBreak
       end
     else
       match verified_amount (get_position_info (verify_reply v)) with
       | Return (Some position_amt) =>
           if Qeq_bool position_amt 0 then ret CleanupBreak
           else report_failure account_name attempt ;; ret CleanupNext
       | Return None => ret CleanupBreak
       | Raise _ => report_failure account_name attempt ;; ret CleanupNext
       end)
    (report_failure account_name attempt ;; ret CleanupNext).

(** The retry loop for one account; [venue k] is what the venue answers
    during attempt [k]. *)
Fixpoint cleanup_retries (account_name : string) (api : AsterDexAPI)
    (symbol : string) (venue : nat -> CleanupVenue)
    (attempt remaining : nat) : M Cleanup unit :=
  match remaining with
  | O => ret tt
  | S remaining' =>
      let* step := cleanup_attempt account_name api symbol attempt
                     (venue attempt) in
      match step with
      | CleanupBreak => ret tt
      | CleanupNext =>
          cleanup_retries account_name api symbol venue (S attempt)
            remaining'
      end
  end.

(** The body of [for account_name, api in accounts]. *)
Definition cleanup_account (account_name : string) (api : AsterDexAPI)
    (symbol : string) (venue : nat -> CleanupVenue) : M Cleanup unit :=
  cleanup_retries account_name api symbol venue 0 max_cleanup_retries.

(** [cleanup_positions(accounts, symbol)]: [venue i] is what the venue
    answers for the [i]-th account of the list. The accounts left in
    [failed_accounts] are the ones the final report names. *)
Fixpoint cleanup_positions (accounts : list (string * AsterDexAPI))
    (symbol : string) (venue : nat -> nat -> CleanupVenue) (i : nat)
    : M Cleanup unit :=
  match accounts with
  | [] => ret tt
  | (account_name, api) :: rest =>
      cleanup_account account_name api symbol (venue i) ;;
      cleanup_positions rest symbol venue (S i)
  end.

(** *** The status thread of the terminal program:
    [update_position_status] *)

(** The local variables of one status thread that outlive an iteration,
    and the two fields of the [TradingUI] object it writes. *)
Record Tracker := {
  initial_balance_set : bool;
  consecutive_errors : nat;
  last_known_balance : Q;
  statuses : gmap string AccountStatus;   (* ui.account_statuses *)
  shown_price : Q                         (* ui.current_price *)
}.

(** What the venue answers during one iteration. *)
Record TrackerVenue := {
  tracker_ticker : Http;
  tracker_info_v4 : AccountHttp;
  tracker_info_v2 : AccountHttp;
  tracker_balance : BalanceVenue;   (* for the [get_account_balance] call *)
  tracker_risk : Http
}.

(** [TradingUI.update_status] *)
Definition update_status (account_name : string) (status : AccountStatus)
    (current_price : Q) : M Tracker unit :=
  modify (fun t =>
            {| initial_balance_set := initial_balance_set t;
               consecutive_errors := consecutive_errors t;
               last_known_balance := last_known_balance t;
               statuses :=
                 match statuses t !! account_name with
                 | Some _ => <[account_name := status]> (statuses t)
                 | None => statuses t
                 end;
               shown_price := current_price |}).

Definition set_consecutive_errors (n : nat) (t : Tracker) : Tracker :=
  {| initial_balance_set := initial_balance_set t;
     consecutive_errors := n;
     last_known_balance := last_known_balance t;
     statuses := statuses t;
     shown_price := shown_price t |}.

(** [last_known_balance = current_balance; consecutive_errors = 0] *)
Definition balance_seen (current_balance : Q) (t : Tracker) : Tracker :=
  {| initial_balance_set := initial_balance_set t;
     consecutive_errors := 0;
     last_known_balance := current_balance;
     statuses := statuses t;
     shown_price := shown_price t |}.

Definition set_initial_balance_set (t : Tracker) : Tracker :=
  {| initial_balance_set := true;
     consecutive_errors := consecutive_errors t;
     last_known_balance := last_known_balance t;
     statuses := statuses t;
     shown_price := shown_price t |}.

(** The [for asset in account_info.get("assets", [])] loop: wallet
    balance, margin balance and unrealized profit of the first USDT
    asset, zeros when there is none. *)
Fixpoint usdt_balances (assets : list (gmap string JVal))
    : outcome (Q * Q * Q) :=
  match assets with
  | [] => Return (0%Q, 0%Q, 0%Q)
  | asset :: rest =>
      if is_usdt asset then
        match get_float asset "walletBalance" with
        | Raise e => Raise e
        | Return current_balance =>
        match
          match asset !! "marginBalance" with
          | Some v => py_float v
          | None => Return current_balance
          end
        with
        | Raise e => Raise e
        | Return margin_balance =>
        match get_float asset "unrealizedProfit" with
        | Raise e => Raise e
        | Return unrealized_pnl =>
            Return (current_balance, margin_balance, unrealized_pnl)
        end end end
      else usdt_balances rest
  end.

(** What the thread reads of the position: amount, entry price,
    liquidation price, unrealized profit and margin. *)
Record Tracked := {
  position_amt : Q;
  tracked_entry_price : Q;
  tracked_liquidation_price : Q;
  tracked_unrealized_pnl : Q;
  position_margin : Q
}.

(** The block after [positions = api.get_position_info(symbol)];
    [unrealized_pnl] is the value read from the account. *)
Definition tracked_position (positions : Json) (unrealized_pnl : Q)
    : outcome Tracked :=
  match positions with
  | JList (position :: _) =>
      match get_float position "positionAmt" with
      | Raise e => Raise e
      | Return position_amt =>
      match get_float position "entryPrice" with
      | Raise e => Raise e
      | Return entry_price =>
      match get_float position "liquidationPrice" with
      | Raise e => Raise e
      | Return liquidation_price =>
      match
        match position !! "unrealizedProfit" with
        | Some v => py_float v
        | None => Return unrealized_pnl
        end
      with
      | Raise e => Raise e
      | Return position_unrealized_pnl =>
      match calculate_margin position 20 with
      | Raise e => Raise e
      | Return position_margin =>
          Return
            {| position_amt := position_amt;
               tracked_entry_price := entry_price;
               tracked_liquidation_price := liquidation_price;
               tracked_unrealized_pnl :=
                 if negb (Qeq_bool position_unrealized_pnl 0)
                 then position_unrealized_pnl else unrealized_pnl;
               position_margin := position_margin |}
      end end end end end
  | JList [] | JDict _ =>
      Return {| position_amt := 0; tracked_entry_price := 0;
                tracked_liquidation_price := 0;
                tracked_unrealized_pnl := unrealized_pnl;
                position_margin := 0 |}
  end.

(** ["LONG" if position_amt > 0, "SHORT" if position_amt < 0, else
    "NONE"] *)
Definition side_of_amount (position_amt : Q) : Side :=
  if Qltb 0 position_amt then LONG
  else if Qltb position_amt 0 then SHORT
  else NONE.

(** The status dictionary of a successful pass. *)
Definition tracked_status (p : Tracked)
    (current_balance initial_balance : Q) : AccountStatus :=
  {| position_side := side_of_amount (position_amt p);
     quantity := py_abs (position_amt p);
     entry_price := py_round (tracked_entry_price p) 2;
     unrealized_pnl := py_round (tracked_unrealized_pnl p) 2;
     margin := if negb (Qeq_bool (position_amt p) 0)
               then py_round (position_margin p) 2 else 0;
     liquidation_price := py_round (tracked_liquidation_price p) 2;
     current_balance := py_round current_balance 2;
     initial_balance := py_round initial_balance 2 |}.

(** The [try] block of the loop body. *)
Definition tracker_pass (account_name : string) (v : TrackerVenue)
    : M Tracker unit :=
  let* t := get in
  let current_price := get_current_price (tracker_ticker v) in
  let current_price :=
    if Qle_bool current_price 0 then shown_price t else current_price in
  let account_info :=
    get_account_info (tracker_info_v4 v) (tracker_info_v2 v) in
  let* balances := of_outcome (usdt_balances account_info) in
  let '(current_balance, margin_balance, unrealized_pnl) := balances in
  let* current_balance :=
    if Qeq_bool current_balance 0 then
      let balance_from_v2 := get_account_balance (tracker_balance v) in
      if Qltb 0 balance_from_v2 then ret balance_from_v2
      else if Qltb 0 (last_known_balance t)
           then ret (last_known_balance t)
           else ret current_balance
    else
      modify (balance_seen current_balance) ;;
      ret current_balance in
  let* p :=
    of_outcome (tracked_position (get_position_info (tracker_risk v))
                  unrealized_pnl) in
  let* t := get in
  let* initial_balance :=
    if negb (initial_balance_set t) && Qltb 0 current_balance then
      modify set_initial_balance_set ;;
      ret current_balance
    else if negb (initial_balance_set t) then ret 0%Q
    else
      match statuses t !! account_name with
      | Some a =>
          if Qeq_bool (initial_balance a) 0 && Qltb 0 current_balance
          then ret current_balance
          else ret (initial_balance a)
      | None => ret current_balance
      end in
  update_status account_name
    (tracked_status p current_balance initial_balance) current_price ;;
  if Qltb 0 current_balance || negb (Qeq_bool (position_amt p) 0)
  then modify (set_consecutive_errors 0)
  else ret tt.

(** The status published from the sixth consecutive error on. *)
Definition disconnected_status (t : Tracker) (account_name : string)
    : AccountStatus :=
  {| position_side := NONE; quantity := 0; entry_price := 0;
     unrealized_pnl := 0;
     margin := last_known_balance t;
     liquidation_price := 0;
     current_balance := last_known_balance t;
     initial_balance :=
       match statuses t !! account_name with
       | Some a => initial_balance a
       | None => 0
       end |}.

(** The status of an account that has not been published yet. *)
Definition initial_status : AccountStatus :=
  {| position_side := NONE; quantity := 0; entry_price := 0;
     unrealized_pnl := 0; margin := 0; liquidation_price := 0;
     current_balance := 0; initial_balance := 0 |}.

(** The [except Exception] block of the loop body. Up to the fifth
    consecutive error it publishes a copy of the previous status in
    which only the texts [system_status] and [last_update] differ. *)
Definition tracker_error (account_name : string) : M Tracker unit :=
  modify (fun t => set_consecutive_errors (consecutive_errors t + 1) t) ;;
  let* t := get in
  let status :=
    if (5 <? consecutive_errors t)%nat
    then disconnected_status t account_name
    else
      match statuses t !! account_name with
      | Some a => a
      | None => initial_status
      end in
  update_status account_name status (shown_price t).

(** One iteration of [while ui.running] in [update_position_status];
    the loop then sleeps one second. *)
Definition tracker_iteration (account_name : string) (v : TrackerVenue)
    : M Tracker unit :=
  try_except (tracker_pass account_name v) (tracker_error account_name).

(** The loop: [running i] is the value of [ui.running] at the [i]-th
    test, [venues i] what the venue answers during the [i]-th
    iteration; at most [fuel] iterations are run. *)
Fixpoint update_position_status (account_name : string)
    (running : nat -> bool) (venues : nat -> TrackerVenue) (i fuel : nat)
    : M Tracker unit :=
  match fuel with
  | O => ret tt
  | S fuel' =>
      if running i then
        tracker_iteration account_name (venues i) ;;
        update_position_status account_name running venues (S i) fuel'
      else ret tt
  end.

(** *** The status thread of the desktop application:
    [update_status_loop] *)

(** What the venue answers for one account during one pass: to the
    balance request, to the second one made half a second later when
    the first gave nothing and no balance is known, and to the position
    query. *)
Record StatusAccountVenue := {
  status_balance : BalanceVenue;
  status_balance_retry : BalanceVenue;
  status_risk : Http
}.

Record StatusVenue := {
  status_now : Q;                      (* time.time() *)
  status_account1 : StatusAccountVenue;
  status_account2 : StatusAccountVenue
}.

(** The [status] dictionary of one account. It has no
    ["initial_balance"] entry: that field of the record is a
    placeholder which [update_account_status] does not read. *)
Definition status_shown (positions : Json) (balance : Q)
    : outcome AccountStatus :=
  match positions with
  | JList (pos :: _) =>
      match get_float pos "positionAmt" with
      | Raise e => Raise e
      | Return pos_amt =>
      match get_float pos "entryPrice" with
      | Raise e => Raise e
      | Return entry =>
      match get_float pos "unRealizedProfit" with
      | Raise e => Raise e
      | Return pnl =>
      match
        if negb (Qeq_bool pos_amt 0) then calculate_margin pos 20
        else Return 0%Q
      with
      | Raise e => Raise e
      | Return position_margin =>
      match get_float pos "liquidationPrice" with
      | Raise e => Raise e
      | Return liquidation =>
          Return
            {| position_side := side_of_amount pos_amt;
               quantity := py_abs pos_amt;
               entry_price := entry;
               unrealized_pnl := pnl;
               margin := position_margin;
               liquidation_price := liquidation;
               current_balance := balance;
               initial_balance := 0 |}
      end end end end end
  | JList [] | JDict _ =>
      Return {| position_side := NONE; quantity := 0; entry_price := 0;
                unrealized_pnl := 0; margin := 0; liquidation_price := 0;
                current_balance := balance; initial_balance := 0 |}
  end.

(** [update_account_status]: [self.account_status[name].update(status)]
    for a known account; the table widget is not modelled. *)
Definition update_account_status (account_name : string)
    (status : AccountStatus) : M Gui.State unit :=
  modify (fun st =>
            match Gui.account_status st !! account_name with
            | Some a =>
                {| Gui.stats := Gui.stats st;
                   Gui.account_status :=
                     <[account_name :=
                         {| position_side := position_side status;
                            quantity := quantity status;
                            entry_price := entry_price status;
                            unrealized_pnl := unrealized_pnl status;
                            margin := margin status;
                            liquidation_price := liquidation_price status;
                            current_balance := current_balance status;
                            initial_balance := initial_balance a |}]>
                       (Gui.account_status st);
                   Gui.trace := Gui.trace st |}
            | None => st
            end).

(** The body of [for i, api in enumerate([...], 1)]; [due] is
    [current_time - last_balance_update >= balance_update_interval]. *)
Definition status_update (account_name : string) (due : bool)
    (v : StatusAccountVenue) : M Gui.State unit :=
  let* st := get in
  match Gui.account_status st !! account_name with
  | None => raise KeyError
  | Some a =>
      let balance := current_balance a in
      let* balance :=
        if due then
          let new_balance := get_account_balance (status_balance v) in
          if Qltb 0 new_balance then ret new_balance
          else if Qeq_bool balance 0 then
            Gui.call (sleep (1 # 2)) ;;
            let new_balance :=
              get_account_balance (status_balance_retry v) in
            if Qltb 0 new_balance then ret new_balance else ret balance
          else ret balance
        else ret balance in
      let* status :=
        of_outcome (status_shown (get_position_info (status_risk v))
                      balance) in
      update_account_status account_name status
  end.

Definition balance_update_interval : Q := 5.

(** One iteration of [while self.trading_active] in
    [update_status_loop]: the [try] with its [except Exception: pass].
    The local [last_balance_update] is passed in and returned. *)
Definition status_iteration (v : StatusVenue) (last_balance_update : Q)
    : M Gui.State Q :=
  try_except
    (let current_time := status_now v in
     let due :=
       Qle_bool balance_update_interval
         (current_time - last_balance_update) in
     status_update account1_name due (status_account1 v) ;;
     status_update account2_name due (status_account2 v) ;;
     let last_balance_update :=
       if due then current_time else last_balance_update in
     Gui.call (sleep 1) ;;
     ret last_balance_update)
    (ret last_balance_update).

(** * Further definitions for the statements *)

(** An order request sent with the given client's key. *)
Definition order_on (self : AsterDexAPI) (e : Event) : Prop :=
  exists params, e = Post (api_key self) "/fapi/v1/order" params.

(** The ways a position query ends in the empty answer [[]]. *)
Inductive position_query_failed : Http -> Prop :=
| pq_connection : position_query_failed ConnectionError
| pq_empty s : position_query_failed (Response s EmptyText)
| pq_bad_json s : position_query_failed (Response s BadJson)
| pq_venue_error s d :
    is_Some (d !! "code") ->
    position_query_failed (Response s (Decoded (JDict d)))
| pq_no_position s :
    position_query_failed (Response s (Decoded (JList []))).

(** A venue error answer to a position query. *)
Definition position_risk_error : Http :=
  Response 400 (Decoded (JDict {["code" := JNum (-1021)]})).

(** The time request fails, or its answer carries no [serverTime]. *)
Inductive time_fetch_failed : Http -> Prop :=
| tf_connection : time_fetch_failed ConnectionError
| tf_status s b : s <> 200%Z -> time_fetch_failed (Response s b)
| tf_empty s : time_fetch_failed (Response s EmptyText)
| tf_bad_json s : time_fetch_failed (Response s BadJson)
| tf_not_object s l : time_fetch_failed (Response s (Decoded (JList l)))
| tf_no_server_time s d :
    d !! "serverTime" = None ->
    time_fetch_failed (Response s (Decoded (JDict d))).

(** [int(t * 1000)] as a number. *)
Definition millis (t : Q) : Q := inject_Z (py_int (t * 1000)%Q).

(** The attempt reads a position of the given non-zero amount. *)
Definition open_reading (v : CloseAllVenue) (amt : Q) : Prop :=
  truthy (get_position_info (positions_reply v)) = true /\
  position_amount (first_position (get_position_info (positions_reply v)))
    = Return amt /\
  ~ (amt == 0)%Q.

(** A position record as the venue's position endpoint gives it. *)
Definition position_record (amt mark entry lev : Q) : gmap string JVal :=
  <["positionAmt" := JNum amt]>
    (<["markPrice" := JNum mark]>
       (<["entryPrice" := JNum entry]>
          (<["leverage" := JNum lev]> ∅))).

(** A USDT asset record of [/fapi/v2/balance]. *)
Definition v2_usdt (balance cross available : Q) : gmap string JVal :=
  <["asset" := JStr "USDT"]>
    (<["balance" := JNum balance]>
       (<["crossWalletBalance" := JNum cross]>
          (<["availableBalance" := JNum available]> ∅))).

(** A USDT asset record of [/fapi/v4/account]. *)
Definition v4_usdt (wallet : Q) : gmap string JVal :=
  <["asset" := JStr "USDT"]> (<["walletBalance" := JNum wallet]> ∅).

(** An asset record of another currency. *)
Definition other_asset : gmap string JVal :=
  <["asset" := JStr "BNB"]> (<["walletBalance" := JNum 7]> ∅).

(** The account endpoint cannot be used by [get_account_info]: the
    request failed, or its answer is not an object with assets. *)
Definition v4_unusable (v4 : AccountHttp) : Prop :=
  forall fields assets,
    ok_json v4 <> Return (Some (AccDict fields (Some assets))).

(** A position query whose first record has an amount that does not
    parse. *)
Definition position_risk_unreadable : Http :=
  Response 200 (Decoded (JList [ {["positionAmt" := JStr "n/a"]} ])).

(** During a cleanup attempt the venue accepts the closing order of the
    first attempt of [close_all_positions] (a position of amount [amt]),
    and the query made two seconds later still reads a position. *)
Definition accepted_but_open (v : CleanupVenue) (amt : Q) : Prop :=
  open_reading (close_venue v 0%nat) amt /\
  (exists d,
      order_result (order_reply (close_venue v 0%nat)) = Some (JDict d) /\
      has_key "orderId" d = true /\ is_no_position d = false) /\
  (exists b,
      verified_amount (get_position_info (verify_reply v)) = Return (Some b) /\
      ~ (b == 0)%Q).

(** A venue that accepts every order and never shows the position
    closed. *)
Definition stuck_venue (amt : Q) : CleanupVenue :=
  {| close_venue := fun _ => {| positions_reply := position_risk_at amt;
                                order_timestamp := 1000001;
                                order_reply := order_accepted |};
     verify_reply := position_risk_at amt |}.

(** The account endpoint reports one USDT asset with the given wallet
    balance. *)
Definition account_at (wallet : Q) : AccountHttp :=
  AccResponse 200 (AccDecoded (AccDict ∅ (Some [v4_usdt wallet]))).

(** No balance endpoint answers. *)
Definition no_balance : BalanceVenue :=
  {| info_v4 := AccConnectionError; info_v2 := AccConnectionError;
     balance_v2 := AccConnectionError; account_v1 := AccConnectionError |}.

(** The position endpoint answers with one record. *)
Definition position_risk_of (record : gmap string JVal) : Http :=
  Response 200 (Decoded (JList [record])).

(** During the iteration the account shows a non-zero wallet balance
    and the position record cannot be read: a field does not parse, or
    [calculate_margin] raises. *)
Definition unreadable_position (v : TrackerVenue) : Prop :=
  exists cb mb up e,
    usdt_balances (get_account_info (tracker_info_v4 v) (tracker_info_v2 v))
      = Return (cb, mb, up) /\
    ~ (cb == 0)%Q /\
    tracked_position (get_position_info (tracker_risk v)) up = Raise e.

(** A tracker state with both accounts published. *)
Definition tracker_state (errors : nat) (s1 s2 : AccountStatus) : Tracker :=
  {| initial_balance_set := true; consecutive_errors := errors;
     last_known_balance := 250;
     statuses := two_accounts s1 s2;
     shown_price := 3000 |}.

Definition tracker_venue (wallet : Q) (risk : Http) : TrackerVenue :=
  {| tracker_ticker := ticker_at 3000;
     tracker_info_v4 := account_at wallet;
     tracker_info_v2 := AccConnectionError;
     tracker_balance := no_balance;
     tracker_risk := risk |}.

(** Two statuses agree on every position, margin and balance field. *)
Definition same_position (s s' : AccountStatus) : Prop :=
  position_side s' = position_side s /\
  quantity s' = quantity s /\
  entry_price s' = entry_price s /\
  unrealized_pnl s' = unrealized_pnl s /\
  margin s' = margin s /\
  liquidation_price s' = liquidation_price s /\
  current_balance s' = current_balance s /\
  initial_balance s' = initial_balance s.

(** * Properties *)

(** ** Arithmetic of the quantity computation *)

Lemma Qltb_true_iff (x y : Q) : Qltb x y = true <-> (x < y)%Q.
Proof.
  unfold Qltb. rewrite negb_true_iff. split.
  - intros H. apply Qnot_le_lt. intros Hle.
    apply Qle_bool_iff in Hle. congruence.
  - intros H. destruct (Qle_bool y x) eqn:E; [|reflexivity].
    apply Qle_bool_iff in E. exfalso. exact (Qlt_not_le _ _ H E).
Qed.

Lemma Qltb_false_iff (x y : Q) : Qltb x y = false <-> (y <= x)%Q.
Proof.
  unfold Qltb. rewrite negb_false_iff. apply Qle_bool_iff.
Qed.

Lemma round_half_even_le (x : Q) (n : Z) :
  (x <= inject_Z n)%Q -> (round_half_even x <= n)%Z.
Proof.
  intros Hx. unfold round_half_even.
  assert (Hf : (Qfloor x <= n)%Z).
  { rewrite <- (Qfloor_Z n). now apply Qfloor_resp_le. }
  assert (Hstep : (0 < x - inject_Z (Qfloor x))%Q -> (Qfloor x + 1 <= n)%Z).
  { intros Hpos. destruct (Z.eq_dec (Qfloor x) n) as [E|E]; [|lia].
    rewrite E in Hpos. exfalso. lra. }
  destruct (x - inject_Z (Qfloor x) ?= 1 # 2)%Q eqn:C.
  - apply Qeq_alt in C. destruct (Z.even (Qfloor x)); [exact Hf|].
    apply Hstep. rewrite C. reflexivity.
  - exact Hf.
  - apply Qgt_alt in C. apply Hstep. lra.
Qed.

Lemma round_half_even_ge (x : Q) (n : Z) :
  (inject_Z n <= x)%Q -> (n <= round_half_even x)%Z.
Proof.
  intros Hx. unfold round_half_even.
  assert (Hf : (n <= Qfloor x)%Z).
  { rewrite <- (Qfloor_Z n). now apply Qfloor_resp_le. }
  destruct (x - inject_Z (Qfloor x) ?= 1 # 2)%Q;
    [destruct (Z.even (Qfloor x))| |]; lia.
Qed.

(** Rounding to three places commutes with the floor of [0.001]. *)
Lemma round3_max_commute (q : Q) :
  py_round (py_max (1 # 1000) q) 3 = py_max (1 # 1000) (py_round q 3).
Proof.
  unfold py_max. destruct (Qltb (1 # 1000) q) eqn:E.
  - apply Qltb_true_iff in E.
    assert (H1 : (1 <= round_half_even (q * (1000 # 1)))%Z).
    { apply round_half_even_ge. unfold inject_Z. lra. }
    unfold py_round. change (10 ^ 3)%positive with 1000%positive.
    destruct (Qltb (1 # 1000) (round_half_even (q * (1000 # 1)) # 1000)) eqn:E2.
    + reflexivity.
    + apply Qltb_false_iff in E2. unfold Qle in E2. simpl in E2.
      f_equal. lia.
  - apply Qltb_false_iff in E.
    assert (H1 : (round_half_even (q * (1000 # 1)) <= 1)%Z).
    { apply round_half_even_le. unfold inject_Z. lra. }
    unfold py_round at 2. change (10 ^ 3)%positive with 1000%positive.
    destruct (Qltb (1 # 1000) (round_half_even (q * (1000 # 1)) # 1000)) eqn:E2.
    + apply Qltb_true_iff in E2. unfold Qlt in E2. simpl in E2. lia.
    + reflexivity.
Qed.

Lemma py_max_ge_left (a b : Q) : (a <= py_max a b)%Q.
Proof.
  unfold py_max. destruct (Qltb a b) eqn:E.
  - apply Qltb_true_iff in E. now apply Qlt_le_weak.
  - apply Qle_refl.
Qed.

Lemma calculate_quantity_from_usdt_ok (usdt_amount : Q) (ticker : Http) :
  (0 < get_current_price ticker)%Q ->
  calculate_quantity_from_usdt usdt_amount ticker =
    Return (py_round
              (py_max (1 # 1000) (usdt_amount / get_current_price ticker)) 3).
Proof.
  intros Hp. unfold calculate_quantity_from_usdt, py_truediv.
  destruct (Qeq_bool (get_current_price ticker) 0) eqn:E; [|reflexivity].
  apply Qeq_bool_eq in E. rewrite E in Hp. discriminate Hp.
Qed.

Lemma get_current_price_ticker_at (price : Q) :
  get_current_price (ticker_at price) = price.
Proof. reflexivity. Qed.

(** C4. For every positive fetched price and every USDT amount,
    [calculate_quantity_from_usdt] returns
    [max(0.001, round(usdt_amount / price, 3))]: the amount divided by
    the price, rounded to three decimals, and never below [0.001]. *)
Theorem calculate_quantity_from_usdt_spec (usdt_amount : Q) (ticker : Http) :
  (0 < get_current_price ticker)%Q ->
  calculate_quantity_from_usdt usdt_amount ticker =
    Return (py_max (1 # 1000)
              (py_round (usdt_amount / get_current_price ticker) 3)).
Proof.
  intros Hp. rewrite calculate_quantity_from_usdt_ok by exact Hp.
  now rewrite round3_max_commute.
Qed.

Lemma calculate_quantity_from_usdt_spec_witness :
  (0 < get_current_price (ticker_at 3000))%Q /\
  calculate_quantity_from_usdt 300 (ticker_at 3000) =
    Return (py_max (1 # 1000)
              (py_round (300 / get_current_price (ticker_at 3000)) 3)).
Proof.
  split; [reflexivity|].
  apply (calculate_quantity_from_usdt_spec 300 (ticker_at 3000)).
  reflexivity.
Defined.

(** The three sizing scenarios of the specification, at price 3000. *)
Example quantity_300_usdt :
  calculate_quantity_from_usdt 300 (ticker_at 3000) = Return (100 # 1000).
Proof. reflexivity. Qed.

Example quantity_10_usdt :
  calculate_quantity_from_usdt 10 (ticker_at 3000) = Return (3 # 1000).
Proof. reflexivity. Qed.

Example quantity_1_usdt :
  calculate_quantity_from_usdt 1 (ticker_at 3000) = Return (1 # 1000).
Proof. reflexivity. Qed.

Lemma get_current_price_failed (ticker : Http) :
  price_fetch_failed ticker -> get_current_price ticker = 0%Q.
Proof.
  intros H. destruct H; simpl; try reflexivity.
  - apply Z.eqb_neq in H. now rewrite H.
  - now destruct (s =? 200)%Z.
  - now destruct (s =? 200)%Z.
  - now destruct (s =? 200)%Z.
  - rewrite H. now destruct (s =? 200)%Z.
  - rewrite H. now destruct (s =? 200)%Z.
Qed.

(** C10. [calculate_quantity_from_usdt] divides by the price it fetches
    without a guard: whenever the price request fails,
    [get_current_price] returns its failure value [0.0] and the division
    raises [ZeroDivisionError] instead of returning a quantity. *)
Theorem calculate_quantity_from_usdt_raises (usdt_amount : Q) (ticker : Http) :
  price_fetch_failed ticker ->
  get_current_price ticker = 0%Q /\
  calculate_quantity_from_usdt usdt_amount ticker = Raise ZeroDivisionError.
Proof.
  intros H. pose proof (get_current_price_failed ticker H) as E.
  split; [exact E|].
  unfold calculate_quantity_from_usdt. now rewrite E.
Qed.

Lemma calculate_quantity_from_usdt_raises_witness :
  price_fetch_failed ConnectionError /\
  get_current_price ConnectionError = 0%Q /\
  calculate_quantity_from_usdt 300 ConnectionError = Raise ZeroDivisionError.
Proof.
  split; [constructor|].
  apply (calculate_quantity_from_usdt_raises 300 ConnectionError).
  constructor.
Defined.

(** ** [close_all_positions] on a flat account *)

Lemma close_all_attempt_flat (self : AsterDexAPI) (symbol : string)
    (attempt : nat) (v : CloseAllVenue) (tr : list Event) :
  flat_reading v ->
  close_all_attempt self symbol attempt v tr =
    (Return (Some (Some success_no_position)), tr).
Proof.
  intros [Ht (q & Hq & Hz)].
  unfold close_all_attempt, try_except, bind, of_outcome.
  rewrite Ht. simpl. rewrite Hq.
  apply Qeq_eq_bool in Hz. now rewrite Hz.
Qed.

Lemma close_all_attempt_no_reading (self : AsterDexAPI) (symbol : string)
    (attempt : nat) (v : CloseAllVenue) (tr : list Event) :
  no_reading v -> (attempt < max_retries - 1)%nat ->
  close_all_attempt self symbol attempt v tr =
    (Return None, (tr ++ [Sleep 1])%list).
Proof.
  intros Hn Hlt. unfold close_all_attempt, try_except, bind.
  rewrite Hn. simpl negb. cbv iota.
  apply Nat.ltb_lt in Hlt. rewrite Hlt. reflexivity.
Qed.

Lemma close_all_loop_flat (self : AsterDexAPI) (symbol : string)
    (venue : nat -> CloseAllVenue) (k : nat) :
  forall (attempt remaining : nat) (tr : list Event),
    (attempt + k < max_retries)%nat -> (k < remaining)%nat ->
    (forall i, (i < k)%nat -> no_reading (venue (attempt + i)%nat)) ->
    flat_reading (venue (attempt + k)%nat) ->
    close_all_loop self symbol venue attempt remaining tr =
      (Return (Some success_no_position),
       (tr ++ List.repeat (Sleep 1) k)%list).
Proof.
  induction k as [|k IH]; intros attempt remaining tr Hk Hr Hno Hflat.
  - destruct remaining as [|remaining]; [lia|].
    rewrite Nat.add_0_r in Hflat. simpl. unfold bind.
    rewrite close_all_attempt_flat by exact Hflat.
    simpl. now rewrite app_nil_r.
  - destruct remaining as [|remaining]; [lia|].
    simpl close_all_loop. unfold bind at 1.
    rewrite close_all_attempt_no_reading.
    + rewrite (IH (S attempt) remaining).
      * simpl. now rewrite <- app_assoc.
      * lia.
      * lia.
      * intros i Hi. replace (S attempt + i)%nat with (attempt + S i)%nat by lia.
        apply Hno. lia.
      * replace (S attempt + k)%nat with (attempt + S k)%nat by lia.
        exact Hflat.
    + specialize (Hno 0%nat). rewrite Nat.add_0_r in Hno. apply Hno. lia.
    + unfold max_retries in *. lia.
Qed.

Lemma posts_app (tr1 tr2 : list Event) :
  posts (tr1 ++ tr2) = (posts tr1 ++ posts tr2)%list.
Proof. unfold posts. apply List.filter_app. Qed.

Lemma posts_repeat_sleep (s : Q) (k : nat) :
  posts (List.repeat (Sleep s) k) = [].
Proof. induction k; simpl; auto. Qed.

Lemma close_all_positions_observed_flat (self : AsterDexAPI)
    (symbol : string) (venue : nat -> CloseAllVenue) (k : nat)
    (tr : list Event) :
  observed_flat venue k ->
  close_all_positions self symbol venue tr =
    (Return (Some success_no_position),
     (tr ++ List.repeat (Sleep 1) k)%list).
Proof.
  intros (Hk & Hno & Hflat). unfold close_all_positions.
  apply close_all_loop_flat; simpl; auto.
Qed.

(** C5. Calling [close_all_positions] on an account that is observed
    flat returns the success result and submits no order; calling it
    again under the same observation does the same, so the operation is
    idempotent on a flat account. *)
Theorem close_all_positions_flat (self : AsterDexAPI) (symbol : string)
    (venue venue' : nat -> CloseAllVenue) (k k' : nat) (tr : list Event) :
  observed_flat venue k ->
  observed_flat venue' k' ->
  let first := close_all_positions self symbol venue tr in
  let second := close_all_positions self symbol venue' (snd first) in
  fst first = Return (Some success_no_position) /\
  posts (snd first) = posts tr /\
  fst second = fst first /\
  posts (snd second) = posts tr /\
  (k = 0%nat -> snd first = tr).
Proof.
  intros H1 H2. cbv zeta.
  rewrite (close_all_positions_observed_flat self symbol venue k tr H1).
  cbn [fst snd].
  rewrite (close_all_positions_observed_flat self symbol venue' k' _ H2).
  cbn [fst snd].
  rewrite !posts_app, !posts_repeat_sleep, !app_nil_r.
  repeat split; auto.
  intros ->. simpl. now rewrite app_nil_r.
Qed.

Lemma flat_venue_observed_flat : observed_flat flat_venue 0.
Proof.
  split; [unfold max_retries; lia|]. split; [intros i Hi; lia|].
  split; [reflexivity|]. exists 0%Q. split; reflexivity.
Defined.

Lemma close_all_positions_flat_witness :
  let first := close_all_positions (demo_api "k1") "ETHUSDT" flat_venue [] in
  let second :=
    close_all_positions (demo_api "k1") "ETHUSDT" flat_venue (snd first) in
  fst first = Return (Some success_no_position) /\
  posts (snd first) = posts [] /\
  fst second = fst first /\
  posts (snd second) = posts [] /\
  (0%nat = 0%nat -> snd first = []).
Proof.
  apply (close_all_positions_flat (demo_api "k1") "ETHUSDT"
           flat_venue flat_venue 0 0 []);
    exact flat_venue_observed_flat.
Defined.

(** ** Request timestamps under clock skew *)

Lemma sync_due_test (clock : nat -> Q) (s : Session) :
  sync_due clock s ->
  Qltb 300 (clock (reads s) - last_time_sync (api s))
  || Qeq_bool (last_time_sync (api s)) 0 = true.
Proof.
  intros [H|H]; apply orb_true_iff.
  - left. now apply Qltb_true_iff.
  - right. now apply Qeq_eq_bool.
Qed.

Ltac run_session :=
  cbv beta iota zeta delta
    [_get_timestamp _get_server_time try_except bind ret raise get modify
     of_outcome time_time requests_get_time local_millis local_plus_offset
     warn_once py_print set_api json has_text andb py_abs];
  cbn [api reads requests printed server_time_warned time_offset
       last_time_sync set_server_time_warned set_last_time_sync
       set_time_offset Z.eqb Pos.eqb].

(** C8, as the code has it by design. When a synchronising call of
    [_get_timestamp] fetches a server time that differs from the local
    time by more than 60000 ms, that call returns the local time and
    prints the warning exactly once during that call, whatever was
    printed earlier in the session: the successful fetch has just reset
    [server_time_warned]. The statement is about this call only; the
    offset that [_get_server_time] has stored by then is treated
    separately, further down. *)
Theorem get_timestamp_skewed_returns_local
    (clock : nat -> Q) (time_endpoint : nat -> Http) (s : Session)
    (d : gmap string JVal) (server_time : Q) :
  sync_due clock s ->
  time_endpoint (requests s) = Response 200 (Decoded (JDict d)) ->
  d !! "serverTime" = Some (JNum server_time) ->
  let local_time := inject_Z (py_int (clock (reads s + 3)%nat * 1000)%Q) in
  (60000 < Qabs (server_time - local_time))%Q ->
  let r := _get_timestamp clock time_endpoint s in
  fst r = Return local_time /\
  printed (snd r) =
    (printed s ++ [TimeDiffTooLarge (server_time - local_time)])%list /\
  server_time_warned (api (snd r)) = true.
Proof.
  intros Hdue Hep Hd local_time Hskew r.
  apply sync_due_test in Hdue. apply Qltb_true_iff in Hskew.
  subst r. run_session. rewrite Hdue. run_session. rewrite Hep.
  run_session. rewrite Hd. run_session.
  replace (S (S (S (reads s)))) with (reads s + 3)%nat by lia.
  fold local_time. rewrite Hskew. run_session.
  cbn [fst snd api printed server_time_warned]. auto.
Qed.

Lemma get_timestamp_skewed_returns_local_witness :
  sync_due skewed_clock fresh_session /\
  let local_time := inject_Z (py_int (skewed_clock 3 * 1000)%Q) in
  let r := _get_timestamp skewed_clock skewed_endpoint fresh_session in
  fst r = Return local_time /\
  printed (snd r) = [TimeDiffTooLarge (1120000 - local_time)] /\
  server_time_warned (api (snd r)) = true.
Proof.
  split; [right; reflexivity|].
  apply (get_timestamp_skewed_returns_local skewed_clock skewed_endpoint
           fresh_session {["serverTime" := JNum 1120000]} 1120000).
  - right. reflexivity.
  - reflexivity.
  - reflexivity.
  - vm_compute. reflexivity.
Defined.

(** A call that uses the cached offset prints nothing. *)
Lemma get_timestamp_cached_silent
    (clock : nat -> Q) (time_endpoint : nat -> Http) (s : Session) :
  Qltb 300 (clock (reads s) - last_time_sync (api s))
  || Qeq_bool (last_time_sync (api s)) 0 = false ->
  let r := _get_timestamp clock time_endpoint s in
  fst r = Return (inject_Z (py_int (clock (S (reads s)) * 1000)%Q)
                  + time_offset (api s))%Q /\
  printed (snd r) = printed s.
Proof.
  intros H r. subst r. run_session. rewrite H. run_session.
  cbn [fst snd printed]. auto.
Qed.

(** C8, the part that fails. In a session of two synchronising calls,
    301 seconds apart, with the venue's clock 120000 ms ahead both
    times, both calls return the local time and the warning is printed
    twice: it is not printed at most once per session. *)
Lemma skew_warning_printed_twice :
  let r := two_timestamps fresh_session in
  fst r = Return (1000000, 1301000)%Q /\
  printed (snd r) = [TimeDiffTooLarge 120000; TimeDiffTooLarge 120000] /\
  ~ (length (printed (snd r)) <= 1)%nat.
Proof.
  vm_compute. repeat split; try reflexivity. lia.
Qed.

(** ** Facts shared by the two decision loops *)

Lemma py_abs_nonzero (a : Q) : nonzero a = true -> Qle_bool (py_abs a) 0 = false.
Proof.
  unfold nonzero, py_abs. rewrite negb_true_iff. intros H.
  apply Qeq_bool_neq in H.
  destruct (Qle_bool (Qabs a) 0) eqn:E; [|reflexivity].
  apply Qle_bool_iff in E. exfalso. apply H.
  revert E. apply Qabs_case; intros Ha Hb; lra.
Qed.

Lemma nonzero_true (a : Q) : ~ (a == 0)%Q -> nonzero a = true.
Proof.
  intros H. unfold nonzero. destruct (Qeq_bool a 0) eqn:E; [|reflexivity].
  apply Qeq_bool_eq in E. contradiction.
Qed.

Lemma nonzero_false (a : Q) : (a == 0)%Q -> nonzero a = false.
Proof. intros H. unfold nonzero. now rewrite (Qeq_eq_bool _ _ H). Qed.

Lemma price_test (p : Q) : (0 < p)%Q -> Qle_bool p 0 = false.
Proof. intros H. apply Qltb_true_iff in H. unfold Qltb in H.
  now apply negb_true_iff in H. Qed.

(** [place_order] with a positive quantity posts the order and returns
    what the venue's answer decodes to. *)
Lemma place_order_posts (self : AsterDexAPI) (symbol : string)
    (side : OrderSide) (order_type : string) (quantity : Q)
    (position_side : string) (tif : option string) (timestamp : Q)
    (reply : Http) (tr : list Event) :
  Qle_bool quantity 0 = false ->
  place_order self symbol side order_type quantity position_side tif
    timestamp reply tr =
  (Return (order_result reply),
   (tr ++ [Post (api_key self) "/fapi/v1/order"
             (order_params self symbol side order_type quantity
                position_side tif timestamp)])%list).
Proof. intros H. unfold place_order. now rewrite H. Qed.

(** No request that [place_order] builds has a [reduceOnly] parameter. *)
Lemma order_params_no_reduce_only (self : AsterDexAPI) (symbol : string)
    (side : OrderSide) (order_type : string) (quantity : Q)
    (position_side : string) (tif : option string) (timestamp : Q) :
  param "reduceOnly"
    (order_params self symbol side order_type quantity position_side tif
       timestamp) = None.
Proof.
  unfold order_params. destruct tif as [t|]; [|reflexivity].
  destruct (String.eqb order_type "LIMIT" && negb (String.eqb t ""));
    reflexivity.
Qed.

Lemma order_params_quantity (self : AsterDexAPI) (symbol : string)
    (side : OrderSide) (order_type : string) (quantity : Q)
    (position_side : string) (tif : option string) (timestamp : Q) :
  param "quantity"
    (order_params self symbol side order_type quantity position_side tif
       timestamp) = Some (PNum quantity) /\
  param "side"
    (order_params self symbol side order_type quantity position_side tif
       timestamp) = Some (PStr (side_name side)).
Proof.
  unfold order_params. destruct tif as [t|]; [|split; reflexivity].
  destruct (String.eqb order_type "LIMIT" && negb (String.eqb t ""));
    split; reflexivity.
Qed.

(** ** The desktop loop *)

Ltac run_gui :=
  cbv beta iota zeta delta
    [Gui.trading_loop_iteration Gui.trading_cycle Gui.open_hedge
     Gui.close_hedge Gui.call Gui.set_stats Gui.project Gui.clear
     try_except bind ret raise get modify of_outcome sleep emit
     both_succeeded];
  cbn [Gui.stats Gui.account_status Gui.trace xorb negb andb orb fst snd].

(** The repair branch: with a valid price and exactly one account
    showing a position, the cycle posts the flattening order(s) and
    waits two seconds; nothing else happens. *)
Lemma gui_repair_cycle (g : Gui.Setup) (v : Gui.Venue) (st : Gui.State)
    (a1 a2 : Q) :
  (0 < get_current_price (Gui.ticker_price v))%Q ->
  Gui.pos_amt_of (get_position_info (Gui.position_risk1 v)) = Return a1 ->
  Gui.pos_amt_of (get_position_info (Gui.position_risk2 v)) = Return a2 ->
  xorb (nonzero a1) (nonzero a2) = true ->
  Gui.trading_loop_iteration g v st =
    (Return tt,
     {| Gui.stats :=
          Gui.set_market (get_current_price (Gui.ticker_price v))
            (get_funding_rate (Gui.premium_index v)) (Gui.stats st);
        Gui.account_status := Gui.account_status st;
        Gui.trace :=
          (Gui.trace st ++
           (if nonzero a1
            then [market_order (Gui.account1_api g) (Gui.symbol g)
                    (flatten_side a1) (py_abs a1) (Gui.order_timestamp1 v)]
            else []) ++
           (if nonzero a2
            then [market_order (Gui.account2_api g) (Gui.symbol g)
                    (flatten_side a2) (py_abs a2) (Gui.order_timestamp2 v)]
            else []) ++
           [Sleep 2])%list |}).
Proof.
  intros Hp H1 H2 Hx. apply price_test in Hp.
  run_gui. rewrite Hp. run_gui. rewrite H1. run_gui. rewrite H2.
  fold (nonzero a1). fold (nonzero a2). rewrite Hx. run_gui.
  destruct (nonzero a1) eqn:N1, (nonzero a2) eqn:N2; try discriminate Hx.
  - rewrite place_order_posts by now apply py_abs_nonzero.
    run_gui. unfold market_order. now rewrite <- !app_assoc.
  - rewrite place_order_posts by now apply py_abs_nonzero.
    run_gui. unfold market_order. now rewrite <- !app_assoc.
Qed.

(** C1, as the code has it. In the desktop loop, in every cycle that
    got a valid price and in which exactly one of the two accounts is
    observed with a non-zero position, the cycle posts one market order
    that flattens that account, waits two seconds and ends: nothing is
    opened or closed, the projections, the trade counter and the open
    time are untouched. *)
Theorem gui_repairs_single_sided (g : Gui.Setup) (v : Gui.Venue)
    (st : Gui.State) (a1 a2 : Q) :
  (0 < get_current_price (Gui.ticker_price v))%Q ->
  Gui.pos_amt_of (get_position_info (Gui.position_risk1 v)) = Return a1 ->
  Gui.pos_amt_of (get_position_info (Gui.position_risk2 v)) = Return a2 ->
  (~ (a1 == 0)%Q /\ (a2 == 0)%Q) \/ ((a1 == 0)%Q /\ ~ (a2 == 0)%Q) ->
  let r := Gui.trading_loop_iteration g v st in
  fst r = Return tt /\
  Gui.trace (snd r) =
    (Gui.trace st ++
     [ if Qeq_bool a2 0
       then market_order (Gui.account1_api g) (Gui.symbol g)
              (flatten_side a1) (py_abs a1) (Gui.order_timestamp1 v)
       else market_order (Gui.account2_api g) (Gui.symbol g)
              (flatten_side a2) (py_abs a2) (Gui.order_timestamp2 v);
       Sleep 2 ])%list /\
  Gui.account_status (snd r) = Gui.account_status st /\
  Gui.trade_count (Gui.stats (snd r)) = Gui.trade_count (Gui.stats st) /\
  Gui.position_open_time (Gui.stats (snd r)) =
    Gui.position_open_time (Gui.stats st).
Proof.
  intros Hp H1 H2 Hone r. subst r.
  assert (Hx : xorb (nonzero a1) (nonzero a2) = true).
  { destruct Hone as [[Ha Hb]|[Ha Hb]].
    - now rewrite (nonzero_true _ Ha), (nonzero_false _ Hb).
    - now rewrite (nonzero_false _ Ha), (nonzero_true _ Hb). }
  rewrite (gui_repair_cycle g v st a1 a2 Hp H1 H2 Hx).
  cbn [fst snd Gui.trace Gui.account_status Gui.stats Gui.set_market
       Gui.trade_count Gui.position_open_time].
  repeat split.
  destruct Hone as [[Ha Hb]|[Ha Hb]].
  - rewrite (nonzero_true _ Ha), (nonzero_false _ Hb).
    now rewrite (Qeq_eq_bool _ _ Hb).
  - rewrite (nonzero_false _ Ha), (nonzero_true _ Hb).
    apply nonzero_true in Hb. unfold nonzero in Hb.
    apply negb_true_iff in Hb. now rewrite Hb.
Qed.

Lemma gui_repairs_single_sided_witness :
  let v := gui_venue (ticker_at 3000) (1 # 10000) (1 # 10) 0 100 in
  let st := gui_state None (status_of NONE 0) (status_of NONE 0) in
  let r := Gui.trading_loop_iteration gui_setup v st in
  fst r = Return tt /\
  Gui.trace (snd r) =
    [ market_order (demo_api "key1") "ETHUSDT" SELL (1 # 10) 1000000;
      Sleep 2 ] /\
  Gui.account_status (snd r) = Gui.account_status st /\
  Gui.trade_count (Gui.stats (snd r)) = 0%nat /\
  Gui.position_open_time (Gui.stats (snd r)) = None.
Proof.
  apply (gui_repairs_single_sided gui_setup
           (gui_venue (ticker_at 3000) (1 # 10000) (1 # 10) 0 100)
           (gui_state None (status_of NONE 0) (status_of NONE 0))
           (1 # 10) 0).
  - reflexivity.
  - reflexivity.
  - reflexivity.
  - left. split; [discriminate|reflexivity].
Defined.

(** C1, where it fails. With an exposure on account 1 only, the desktop
    loop posts nothing when the price request failed (the cycle is
    skipped before the positions are read), and the terminal loop, which
    decides on account 1's snapshot alone, opens a new hedge when it is
    account 2 that holds the position. *)
Lemma single_sided_not_always_repaired :
  posts (Gui.trace (snd (Gui.trading_loop_iteration gui_setup
          (gui_venue ConnectionError (1 # 10000) (1 # 10) 0 100)
          (gui_state None (status_of LONG (1 # 10)) (status_of NONE 0)))))
    = [] /\
  posts (Cli.trace (snd (Cli.main_iteration cli_setup
          (cli_venue (1 # 10000) 100)
          (cli_ui None (status_of NONE 0) (status_of LONG (1 # 10))))))
    = [ cli_order cli_setup (demo_api "key1") SELL (100 # 1000) 1000000;
        cli_order cli_setup (demo_api "key2") BUY (100 # 1000) 1000000 ].
Proof. split; vm_compute; reflexivity. Qed.

Lemma quantity_positive (usdt_amount : Q) (ticker : Http) (q : Q) :
  calculate_quantity_from_usdt usdt_amount ticker = Return q ->
  Qle_bool q 0 = false.
Proof.
  unfold calculate_quantity_from_usdt.
  destruct (py_truediv usdt_amount (get_current_price ticker)) as [x|e];
    [|discriminate].
  intros H. injection H as <-. rewrite round3_max_commute.
  pose proof (py_max_ge_left (1 # 1000) (py_round x 3)) as Hge.
  destruct (Qle_bool _ 0) eqn:E; [|reflexivity].
  apply Qle_bool_iff in E. exfalso. lra.
Qed.

Lemma names_differ : account1_name <> account2_name.
Proof. discriminate. Qed.

(** The open branch when both orders go through and both accounts have
    a projection: the whole state after the cycle. *)
Lemma gui_open_cycle_success (g : Gui.Setup) (v : Gui.Venue)
    (st : Gui.State) (a1 a2 q : Q) (s1 s2 : AccountStatus) :
  (0 < get_current_price (Gui.ticker_price v))%Q ->
  Gui.pos_amt_of (get_position_info (Gui.position_risk1 v)) = Return a1 ->
  Gui.pos_amt_of (get_position_info (Gui.position_risk2 v)) = Return a2 ->
  (a1 == 0)%Q -> (a2 == 0)%Q ->
  calculate_quantity_from_usdt (Gui.usdt_amount g) (Gui.ticker_price_qty v)
    = Return q ->
  (5 <= q * get_current_price (Gui.ticker_price v))%Q ->
  succeeded (order_result (Gui.order_reply1 v)) = true ->
  succeeded (order_result (Gui.order_reply2 v)) = true ->
  Gui.account_status st !! account1_name = Some s1 ->
  Gui.account_status st !! account2_name = Some s2 ->
  let price := get_current_price (Gui.ticker_price v) in
  let funding := get_funding_rate (Gui.premium_index v) in
  let short1 := Qltb 0 funding in
  Gui.trading_loop_iteration g v st =
    (Return tt,
     {| Gui.stats :=
          Gui.record_open q price v (Gui.set_market price funding (Gui.stats st));
        Gui.account_status :=
          <[account2_name :=
              projected (if short1 then LONG else SHORT) q price s2]>
            (<[account1_name :=
                 projected (if short1 then SHORT else LONG) q price s1]>
               (Gui.account_status st));
        Gui.trace :=
          (Gui.trace st ++
           [ market_order (Gui.account1_api g) (Gui.symbol g)
               (if short1 then SELL else BUY) q (Gui.order_timestamp1 v);
             market_order (Gui.account2_api g) (Gui.symbol g)
               (if short1 then BUY else SELL) q (Gui.order_timestamp2 v);
             Sleep 1 ])%list |}).
Proof.
  intros Hp H1 H2 Z1 Z2 Hq Hn S1 S2 L1 L2 price funding short1.
  pose proof (quantity_positive _ _ _ Hq) as Hpos.
  apply price_test in Hp. apply Qeq_eq_bool in Z1, Z2.
  apply Qltb_false_iff in Hn.
  run_gui. rewrite Hp. run_gui. rewrite H1. run_gui. rewrite H2.
  subst price funding short1.
  rewrite Z1, Z2. run_gui. rewrite Hq. run_gui. rewrite Hn.
  destruct (Qltb 0 (get_funding_rate (Gui.premium_index v))); run_gui;
    rewrite !place_order_posts by exact Hpos;
    run_gui; rewrite S1, S2; run_gui; rewrite L1; run_gui;
    rewrite lookup_insert_ne by exact names_differ; rewrite L2; run_gui;
    unfold market_order, projected; rewrite <- !app_assoc; reflexivity.
Qed.

(** The open branch in general: whatever the venue answers to the two
    orders, these two requests, and no others, are posted. *)
Lemma gui_open_cycle_posts (g : Gui.Setup) (v : Gui.Venue)
    (st : Gui.State) (a1 a2 q : Q) :
  (0 < get_current_price (Gui.ticker_price v))%Q ->
  Gui.pos_amt_of (get_position_info (Gui.position_risk1 v)) = Return a1 ->
  Gui.pos_amt_of (get_position_info (Gui.position_risk2 v)) = Return a2 ->
  (a1 == 0)%Q -> (a2 == 0)%Q ->
  calculate_quantity_from_usdt (Gui.usdt_amount g) (Gui.ticker_price_qty v)
    = Return q ->
  (5 <= q * get_current_price (Gui.ticker_price v))%Q ->
  let short1 := Qltb 0 (get_funding_rate (Gui.premium_index v)) in
  posts (Gui.trace (snd (Gui.trading_loop_iteration g v st))) =
    (posts (Gui.trace st) ++
     [ market_order (Gui.account1_api g) (Gui.symbol g)
         (if short1 then SELL else BUY) q (Gui.order_timestamp1 v);
       market_order (Gui.account2_api g) (Gui.symbol g)
         (if short1 then BUY else SELL) q (Gui.order_timestamp2 v) ])%list.
Proof.
  intros Hp H1 H2 Z1 Z2 Hq Hn short1.
  pose proof (quantity_positive _ _ _ Hq) as Hpos.
  apply price_test in Hp. apply Qeq_eq_bool in Z1, Z2.
  apply Qltb_false_iff in Hn.
  run_gui. rewrite Hp. run_gui. rewrite H1. run_gui. rewrite H2.
  subst short1.
  rewrite Z1, Z2. run_gui. rewrite Hq. run_gui. rewrite Hn.
  destruct (Qltb 0 (get_funding_rate (Gui.premium_index v))); run_gui;
    rewrite !place_order_posts by exact Hpos; run_gui;
    destruct (succeeded (order_result (Gui.order_reply1 v)));
    destruct (succeeded (order_result (Gui.order_reply2 v)));
    run_gui;
    try destruct (Gui.account_status st !! account1_name) eqn:L1;
    run_gui;
    try destruct (_ !! account2_name) eqn:L2;
    run_gui;
    rewrite <- ?app_assoc, !posts_app; reflexivity.
Qed.

Lemma nonzero_test (a : Q) : ~ (a == 0)%Q -> Qeq_bool a 0 = false.
Proof.
  intros H. destruct (Qeq_bool a 0) eqn:E; [|reflexivity].
  apply Qeq_bool_eq in E. contradiction.
Qed.

(** The branch taken when both accounts show a position: the two
    closing orders are posted exactly when an open time is recorded and
    the whole seconds elapsed since reach [wait_seconds]. *)
Lemma gui_close_cycle_posts (g : Gui.Setup) (v : Gui.Venue)
    (st : Gui.State) (a1 a2 T : Q) :
  (0 < get_current_price (Gui.ticker_price v))%Q ->
  Gui.pos_amt_of (get_position_info (Gui.position_risk1 v)) = Return a1 ->
  Gui.pos_amt_of (get_position_info (Gui.position_risk2 v)) = Return a2 ->
  ~ (a1 == 0)%Q -> ~ (a2 == 0)%Q ->
  Gui.position_open_time (Gui.stats st) = Some T ->
  ~ (T == 0)%Q ->
  posts (Gui.trace (snd (Gui.trading_loop_iteration g v st))) =
    (posts (Gui.trace st) ++
     if Qle_bool (Gui.wait_seconds g) (inject_Z (py_int (Gui.now v - T)))
     then [ market_order (Gui.account1_api g) (Gui.symbol g)
              (flatten_side a1) (py_abs a1) (Gui.order_timestamp1 v);
            market_order (Gui.account2_api g) (Gui.symbol g)
              (flatten_side a2) (py_abs a2) (Gui.order_timestamp2 v) ]
     else [])%list.
Proof.
  intros Hp H1 H2 N1 N2 HT NT.
  pose proof (py_abs_nonzero a1 (nonzero_true _ N1)) as P1.
  pose proof (py_abs_nonzero a2 (nonzero_true _ N2)) as P2.
  apply price_test in Hp. apply nonzero_test in N1, N2, NT.
  run_gui. rewrite Hp. run_gui. rewrite H1. run_gui. rewrite H2.
  rewrite N1, N2. run_gui.
  cbn [Gui.set_market Gui.position_open_time]. rewrite HT, NT.
  destruct (Qle_bool (Gui.wait_seconds g) _); run_gui.
  - rewrite !place_order_posts by assumption. run_gui.
    destruct (succeeded (order_result (Gui.order_reply1 v)));
      destruct (succeeded (order_result (Gui.order_reply2 v)));
      run_gui;
      try destruct (Gui.account_status st !! account1_name) eqn:L1;
      run_gui;
      try destruct (_ !! account2_name) eqn:L2;
      run_gui;
      rewrite <- ?app_assoc, !posts_app; reflexivity.
  - rewrite !posts_app. reflexivity.
Qed.

(** Without a recorded open time the desktop loop never closes. *)
Lemma gui_close_needs_open_time (g : Gui.Setup) (v : Gui.Venue)
    (st : Gui.State) (a1 a2 : Q) :
  (0 < get_current_price (Gui.ticker_price v))%Q ->
  Gui.pos_amt_of (get_position_info (Gui.position_risk1 v)) = Return a1 ->
  Gui.pos_amt_of (get_position_info (Gui.position_risk2 v)) = Return a2 ->
  ~ (a1 == 0)%Q -> ~ (a2 == 0)%Q ->
  Gui.position_open_time (Gui.stats st) = None ->
  posts (Gui.trace (snd (Gui.trading_loop_iteration g v st))) =
    posts (Gui.trace st).
Proof.
  intros Hp H1 H2 N1 N2 HT.
  apply price_test in Hp. apply nonzero_test in N1, N2.
  run_gui. rewrite Hp. run_gui. rewrite H1. run_gui. rewrite H2.
  rewrite N1, N2. run_gui.
  cbn [Gui.set_market Gui.position_open_time]. rewrite HT. run_gui.
  rewrite posts_app. simpl. now rewrite app_nil_r.
Qed.

(** ** The terminal loop *)

Ltac extends_trace :=
  first [ exists []; cbn; now rewrite app_nil_r
        | eexists; cbn; rewrite <- ?app_assoc; reflexivity ].

Ltac run_eff :=
  cbv beta iota zeta delta
    [close_all_attempt try_except bind of_outcome place_order sleep emit
     modify ret raise negb].

Lemma close_all_attempt_extends (self : AsterDexAPI) (symbol : string)
    (attempt : nat) (v : CloseAllVenue) (tr : list Event) :
  exists extra : list Event,
    snd (close_all_attempt self symbol attempt v tr) = (tr ++ extra)%list.
Proof.
  run_eff.
  destruct (truthy (get_position_info (positions_reply v))); run_eff.
  - destruct (position_amount _) as [amt|e]; run_eff.
    + destruct (Qeq_bool amt 0); [extends_trace|].
      destruct (Qle_bool (py_abs amt) 0); run_eff.
      * destruct (attempt <? max_retries - 1)%nat; extends_trace.
      * destruct (order_result (order_reply v)) as [r|]; run_eff;
          [|extends_trace].
        repeat match goal with
               | |- context [if ?b then _ else _] => destruct b
               end; extends_trace.
    + destruct (attempt <? max_retries - 1)%nat; extends_trace.
  - destruct (attempt <? max_retries - 1)%nat; extends_trace.
Qed.

Lemma close_all_loop_extends (self : AsterDexAPI) (symbol : string)
    (venue : nat -> CloseAllVenue) (remaining : nat) :
  forall (attempt : nat) (tr : list Event),
  exists extra : list Event,
    snd (close_all_loop self symbol venue attempt remaining tr)
      = (tr ++ extra)%list.
Proof.
  induction remaining as [|n IH]; intros attempt tr.
  - exists []. simpl. now rewrite app_nil_r.
  - simpl. unfold bind.
    destruct (close_all_attempt_extends self symbol attempt (venue attempt) tr)
      as [e1 He1].
    destruct (close_all_attempt self symbol attempt (venue attempt) tr)
      as [[[r|]|e] tr1]; simpl in He1; subst tr1.
    + exists e1. reflexivity.
    + destruct (IH (S attempt) (tr ++ e1)%list) as [e2 He2].
      exists (e1 ++ e2)%list. rewrite He2. now rewrite app_assoc.
    + exists e1. reflexivity.
Qed.

Lemma close_all_positions_extends (self : AsterDexAPI) (symbol : string)
    (venue : nat -> CloseAllVenue) (tr : list Event) :
  exists extra : list Event,
    snd (close_all_positions self symbol venue tr) = (tr ++ extra)%list.
Proof. apply close_all_loop_extends. Qed.

(** Bring the requests of a trace into the form [old ++ new]. *)
Ltac norm_posts :=
  rewrite <- ?app_assoc; rewrite ?posts_app;
  cbn [posts List.filter is_post app]; rewrite ?app_nil_r.

Ltac run_cli :=
  cbv beta iota zeta delta
    [Cli.main_iteration Cli.main_cycle Cli.open_hedge Cli.close_hedge
     Cli.call Cli.set_stats
     try_except bind ret raise get modify of_outcome sleep emit
     both_succeeded];
  cbn [Cli.stats Cli.account_statuses Cli.trace negb andb orb fst snd
       Cli.set_display Cli.set_hold Cli.position_open_time].

(** The open branch of the terminal loop: the two leg orders are
    posted first; a compensating [close_all_positions] may follow. *)
Lemma cli_open_cycle_posts (g : Cli.Setup) (v : Cli.Venue)
    (ui : Cli.TradingUI) (q : Q) :
  Cli.side_of (Cli.account_statuses ui !! account1_name) = NONE ->
  calculate_quantity_from_usdt (Cli.usdt_amount g) (Cli.ticker_price_qty v)
    = Return q ->
  (5 <= q * get_current_price (Cli.ticker_price v))%Q ->
  let short1 := Qltb 0 (get_funding_rate (Cli.premium_index v)) in
  exists rest : list Event,
    posts (Cli.trace (snd (Cli.main_iteration g v ui))) =
      (posts (Cli.trace ui) ++
       [ cli_order g (Cli.account1 g) (if short1 then SELL else BUY) q
           (Cli.order_timestamp1 v);
         cli_order g (Cli.account2 g) (if short1 then BUY else SELL) q
           (Cli.order_timestamp2 v) ] ++ rest)%list.
Proof.
  intros Hs Hq Hn short1. subst short1.
  pose proof (quantity_positive _ _ _ Hq) as Hpos.
  apply Qltb_false_iff in Hn.
  run_cli. rewrite Hs. run_cli. rewrite Hq. run_cli. rewrite Hn.
  destruct (Qltb 0 (get_funding_rate (Cli.premium_index v))); run_cli;
    rewrite !place_order_posts by exact Hpos; run_cli;
    destruct (succeeded (order_result (Cli.order_reply1 v)));
    destruct (succeeded (order_result (Cli.order_reply2 v)));
    run_cli; unfold cli_order.
  all: try (exists []; cbn [Cli.update_stats Cli.trace]; norm_posts;
            reflexivity).
  all: match goal with
       | |- context [close_all_positions ?s ?y ?w ?t] =>
           destruct (close_all_positions_extends s y w t) as [extra He];
           destruct (close_all_positions s y w t) as [[r|e] tr'];
           simpl in He; subst tr'; run_cli;
           exists (posts extra); norm_posts; reflexivity
       end.
Qed.

(** The open branch of the terminal loop when both orders go through:
    what [update_stats] leaves behind. *)
Lemma cli_open_cycle_success (g : Cli.Setup) (v : Cli.Venue)
    (ui : Cli.TradingUI) (q : Q) :
  Cli.side_of (Cli.account_statuses ui !! account1_name) = NONE ->
  calculate_quantity_from_usdt (Cli.usdt_amount g) (Cli.ticker_price_qty v)
    = Return q ->
  (5 <= q * get_current_price (Cli.ticker_price v))%Q ->
  succeeded (order_result (Cli.order_reply1 v)) = true ->
  succeeded (order_result (Cli.order_reply2 v)) = true ->
  let r := Cli.main_iteration g v ui in
  let s' := Cli.stats (snd r) in
  fst r = Return tt /\
  Cli.trade_count s' = (Cli.trade_count (Cli.stats ui) + 1)%nat /\
  Cli.total_volume s' = (Cli.total_volume (Cli.stats ui) + q)%Q /\
  Cli.total_volume_usdt s' =
    (Cli.total_volume_usdt (Cli.stats ui)
     + q * get_current_price (Cli.ticker_price v))%Q /\
  Cli.position_open_time s' = Some (Cli.now v) /\
  Cli.last_trade_time s' = Some (Cli.now_str v) /\
  Cli.account_statuses (snd r) = Cli.account_statuses ui.
Proof.
  intros Hs Hq Hn S1 S2 r s'. subst s' r.
  pose proof (quantity_positive _ _ _ Hq) as Hpos.
  apply Qltb_false_iff in Hn.
  run_cli. rewrite Hs. run_cli. rewrite Hq. run_cli. rewrite Hn.
  destruct (Qltb 0 (get_funding_rate (Cli.premium_index v))); run_cli;
    rewrite !place_order_posts by exact Hpos; run_cli;
    rewrite S1, S2; run_cli; cbn; repeat split; reflexivity.
Qed.

(** The closing branch of the terminal loop: account 1 shows a position
    of positive quantity. Both closing orders carry account 1's
    quantity and sides derived from account 1's side; they are posted
    exactly when the whole seconds held reach [wait_seconds] or
    account 1 is on the paying side of the funding rate. *)
Lemma cli_close_cycle_posts (g : Cli.Setup) (v : Cli.Venue)
    (ui : Cli.TradingUI) (a : AccountStatus) (T : Q) :
  Cli.account_statuses ui !! account1_name = Some a ->
  position_side a <> NONE ->
  (0 < quantity a)%Q ->
  Cli.position_open_time (Cli.stats ui) = Some T ->
  let funding := get_funding_rate (Cli.premium_index v) in
  let by_time :=
    Qle_bool (Cli.cfg_wait_seconds g) (inject_Z (py_int (Cli.now v - T))) in
  let by_funding :=
    match position_side a with
    | LONG => Qltb 0 funding
    | SHORT => Qltb funding 0
    | NONE => false
    end in
  posts (Cli.trace (snd (Cli.main_iteration g v ui))) =
    (posts (Cli.trace ui) ++
     if by_time || by_funding
     then [ cli_order g (Cli.account1 g)
              (match position_side a with LONG => SELL | _ => BUY end)
              (quantity a) (Cli.order_timestamp1 v);
            cli_order g (Cli.account2 g)
              (match position_side a with LONG => BUY | _ => SELL end)
              (quantity a) (Cli.order_timestamp2 v) ]
     else [])%list.
Proof.
  intros Hl Hside Hqty HT funding by_time by_funding.
  subst funding by_time by_funding.
  apply price_test in Hqty.
  run_cli. rewrite Hl. cbn [Cli.side_of Cli.quantity_of].
  destruct (position_side a) eqn:Es; [| |congruence].
  all: run_cli; rewrite HT; run_cli;
    cbn [Cli.side_of Cli.quantity_of]; rewrite ?Es;
    match goal with
    | |- context [if ?b then _ else _] => destruct b
    end; run_cli; rewrite ?Hqty; run_cli;
    rewrite ?place_order_posts by exact Hqty; run_cli;
    repeat match goal with
           | |- context [if ?b then _ else _] => destruct b
           end; run_cli; unfold cli_order; norm_posts; reflexivity.
Qed.

(** ** The decisions of a cycle *)

(** C2. Whenever a cycle opens a hedge, in the desktop loop and in the
    terminal loop alike, a strictly positive funding rate puts the SELL
    leg on account 1 and the BUY leg on account 2, and a non-positive
    funding rate puts the BUY leg on account 1 and the SELL leg on
    account 2; both legs carry the computed quantity. *)
Theorem direction_law :
  (forall (g : Gui.Setup) (v : Gui.Venue) (st : Gui.State) (a1 a2 q : Q),
      (0 < get_current_price (Gui.ticker_price v))%Q ->
      Gui.pos_amt_of (get_position_info (Gui.position_risk1 v)) = Return a1 ->
      Gui.pos_amt_of (get_position_info (Gui.position_risk2 v)) = Return a2 ->
      (a1 == 0)%Q -> (a2 == 0)%Q ->
      calculate_quantity_from_usdt (Gui.usdt_amount g)
        (Gui.ticker_price_qty v) = Return q ->
      (5 <= q * get_current_price (Gui.ticker_price v))%Q ->
      exists side1 side2 : OrderSide,
        posts (Gui.trace (snd (Gui.trading_loop_iteration g v st))) =
          (posts (Gui.trace st) ++
           [ market_order (Gui.account1_api g) (Gui.symbol g) side1 q
               (Gui.order_timestamp1 v);
             market_order (Gui.account2_api g) (Gui.symbol g) side2 q
               (Gui.order_timestamp2 v) ])%list /\
        ((0 < get_funding_rate (Gui.premium_index v))%Q ->
         side1 = SELL /\ side2 = BUY) /\
        ((get_funding_rate (Gui.premium_index v) <= 0)%Q ->
         side1 = BUY /\ side2 = SELL)) /\
  (forall (g : Cli.Setup) (v : Cli.Venue) (ui : Cli.TradingUI) (q : Q),
      Cli.side_of (Cli.account_statuses ui !! account1_name) = NONE ->
      calculate_quantity_from_usdt (Cli.usdt_amount g)
        (Cli.ticker_price_qty v) = Return q ->
      (5 <= q * get_current_price (Cli.ticker_price v))%Q ->
      exists (side1 side2 : OrderSide) (rest : list Event),
        posts (Cli.trace (snd (Cli.main_iteration g v ui))) =
          (posts (Cli.trace ui) ++
           [ cli_order g (Cli.account1 g) side1 q (Cli.order_timestamp1 v);
             cli_order g (Cli.account2 g) side2 q (Cli.order_timestamp2 v) ]
           ++ rest)%list /\
        ((0 < get_funding_rate (Cli.premium_index v))%Q ->
         side1 = SELL /\ side2 = BUY) /\
        ((get_funding_rate (Cli.premium_index v) <= 0)%Q ->
         side1 = BUY /\ side2 = SELL)).
Proof.
  split.
  - intros g v st a1 a2 q Hp H1 H2 Z1 Z2 Hq Hn.
    pose proof (gui_open_cycle_posts g v st a1 a2 q Hp H1 H2 Z1 Z2 Hq Hn)
      as E. cbv zeta in E.
    destruct (Qltb 0 (get_funding_rate (Gui.premium_index v))) eqn:F.
    + exists SELL, BUY. split; [exact E|]. split; [auto|].
      intros Hle. apply Qltb_true_iff in F. exfalso. lra.
    + exists BUY, SELL. split; [exact E|]. split; [|auto].
      intros Hlt. apply Qltb_false_iff in F. exfalso. lra.
  - intros g v ui q Hs Hq Hn.
    destruct (cli_open_cycle_posts g v ui q Hs Hq Hn) as [rest E].
    destruct (Qltb 0 (get_funding_rate (Cli.premium_index v))) eqn:F.
    + exists SELL, BUY, rest. split; [exact E|]. split; [auto|].
      intros Hle. apply Qltb_true_iff in F. exfalso. lra.
    + exists BUY, SELL, rest. split; [exact E|]. split; [|auto].
      intros Hlt. apply Qltb_false_iff in F. exfalso. lra.
Qed.

Lemma direction_law_witness :
  (exists side1 side2 : OrderSide,
      posts (Gui.trace (snd (Gui.trading_loop_iteration gui_setup
               (gui_venue (ticker_at 3000) (1 # 10000) 0 0 100)
               (gui_state None (status_of NONE 0) (status_of NONE 0))))) =
        [ market_order (demo_api "key1") "ETHUSDT" side1 (100 # 1000) 1000000;
          market_order (demo_api "key2") "ETHUSDT" side2 (100 # 1000) 1000000 ]
      /\ side1 = SELL /\ side2 = BUY) /\
  (exists (side1 side2 : OrderSide) (rest : list Event),
      posts (Cli.trace (snd (Cli.main_iteration cli_setup
               (cli_venue (-1 # 10000) 100)
               (cli_ui None (status_of NONE 0) (status_of NONE 0))))) =
        ([ cli_order cli_setup (demo_api "key1") side1 (100 # 1000) 1000000;
           cli_order cli_setup (demo_api "key2") side2 (100 # 1000) 1000000 ]
         ++ rest)%list
      /\ side1 = BUY /\ side2 = SELL).
Proof.
  split.
  - destruct (proj1 direction_law gui_setup
                (gui_venue (ticker_at 3000) (1 # 10000) 0 0 100)
                (gui_state None (status_of NONE 0) (status_of NONE 0))
                0%Q 0%Q (100 # 1000))
      as (s1 & s2 & E & Hpos & _);
      [reflexivity | reflexivity | reflexivity | reflexivity | reflexivity
      | reflexivity | discriminate |].
    exists s1, s2. split; [exact E|]. apply Hpos. reflexivity.
  - destruct (proj2 direction_law cli_setup (cli_venue (-1 # 10000) 100)
                (cli_ui None (status_of NONE 0) (status_of NONE 0))
                (100 # 1000))
      as (s1 & s2 & rest & E & _ & Hneg);
      [reflexivity | reflexivity | discriminate |].
    exists s1, s2, rest. split; [exact E|]. apply Hneg. discriminate.
Defined.

Lemma by_funding_iff (side : Side) (funding : Q) :
  match side with
  | LONG => Qltb 0 funding
  | SHORT => Qltb funding 0
  | NONE => false
  end = true <->
  (side = LONG /\ (0 < funding)%Q) \/ (side = SHORT /\ (funding < 0)%Q).
Proof.
  destruct side; rewrite ?Qltb_true_iff; split.
  - intros H. left. auto.
  - intros [[_ H]|[E _]]; [exact H|discriminate].
  - intros H. right. auto.
  - intros [[E _]|[_ H]]; [discriminate|exact H].
  - discriminate.
  - intros [[E _]|[E _]]; discriminate.
Qed.

(** C3, as the code has it. With a hedge open and its open time
    recorded, the terminal loop posts the two closing orders exactly
    when the whole seconds held, [int(now - open_time)], reach
    [wait_seconds] or account 1 is on the paying side of the funding
    rate (LONG with a positive rate, SHORT with a negative one), and
    holds otherwise. The desktop loop has the timer only: it closes
    exactly when the whole seconds held reach [wait_seconds]. *)
Theorem close_decision :
  (forall (g : Cli.Setup) (v : Cli.Venue) (ui : Cli.TradingUI)
          (a : AccountStatus) (T : Q),
      Cli.account_statuses ui !! account1_name = Some a ->
      position_side a <> NONE ->
      (0 < quantity a)%Q ->
      Cli.position_open_time (Cli.stats ui) = Some T ->
      let funding := get_funding_rate (Cli.premium_index v) in
      let held := inject_Z (py_int (Cli.now v - T)) in
      let due :=
        (Cli.cfg_wait_seconds g <= held)%Q \/
        (position_side a = LONG /\ (0 < funding)%Q) \/
        (position_side a = SHORT /\ (funding < 0)%Q) in
      let posted := posts (Cli.trace (snd (Cli.main_iteration g v ui))) in
      (due ->
       posted =
         (posts (Cli.trace ui) ++
          [ cli_order g (Cli.account1 g)
              (match position_side a with LONG => SELL | _ => BUY end)
              (quantity a) (Cli.order_timestamp1 v);
            cli_order g (Cli.account2 g)
              (match position_side a with LONG => BUY | _ => SELL end)
              (quantity a) (Cli.order_timestamp2 v) ])%list) /\
      (~ due -> posted = posts (Cli.trace ui))) /\
  (forall (g : Gui.Setup) (v : Gui.Venue) (st : Gui.State) (a1 a2 T : Q),
      (0 < get_current_price (Gui.ticker_price v))%Q ->
      Gui.pos_amt_of (get_position_info (Gui.position_risk1 v)) = Return a1 ->
      Gui.pos_amt_of (get_position_info (Gui.position_risk2 v)) = Return a2 ->
      ~ (a1 == 0)%Q -> ~ (a2 == 0)%Q ->
      Gui.position_open_time (Gui.stats st) = Some T ->
      ~ (T == 0)%Q ->
      let held := inject_Z (py_int (Gui.now v - T)) in
      let posted :=
        posts (Gui.trace (snd (Gui.trading_loop_iteration g v st))) in
      ((Gui.wait_seconds g <= held)%Q ->
       posted =
         (posts (Gui.trace st) ++
          [ market_order (Gui.account1_api g) (Gui.symbol g)
              (flatten_side a1) (py_abs a1) (Gui.order_timestamp1 v);
            market_order (Gui.account2_api g) (Gui.symbol g)
              (flatten_side a2) (py_abs a2) (Gui.order_timestamp2 v) ])%list) /\
      (~ (Gui.wait_seconds g <= held)%Q -> posted = posts (Gui.trace st))).
Proof.
  split.
  - intros g v ui a T Hl Hs Hq HT funding held due posted.
    pose proof (cli_close_cycle_posts g v ui a T Hl Hs Hq HT) as E.
    cbv zeta in E. fold funding in E. fold held in E. fold posted in E.
    assert (Hdue : Qle_bool (Cli.cfg_wait_seconds g) held
                   || match position_side a with
                      | LONG => Qltb 0 funding
                      | SHORT => Qltb funding 0
                      | NONE => false
                      end = true <-> due).
    { rewrite orb_true_iff, Qle_bool_iff, by_funding_iff. reflexivity. }
    destruct (Qle_bool (Cli.cfg_wait_seconds g) held || _) eqn:B.
    + split; [intros _; exact E|].
      intros Hn. exfalso. apply Hn. now apply Hdue.
    + split; [|intros _; rewrite E; apply app_nil_r].
      intros Hd. apply Hdue in Hd. discriminate Hd.
  - intros g v st a1 a2 T Hp H1 H2 N1 N2 HT NT held posted.
    pose proof (gui_close_cycle_posts g v st a1 a2 T Hp H1 H2 N1 N2 HT NT)
      as E. fold held in E. fold posted in E.
    destruct (Qle_bool (Gui.wait_seconds g) held) eqn:B.
    + split; [intros _; exact E|].
      intros Hn. exfalso. apply Hn. now apply Qle_bool_iff.
    + split; [|intros _; rewrite E; apply app_nil_r].
      intros Hd. apply Qle_bool_iff in Hd. congruence.
Qed.

(** The timing scenario on the terminal loop: opened at 1000, 60 seconds
    to wait, funding still negative for a LONG account 1. At 1061 the
    hedge is closed, at 1030 it is held. *)
Lemma close_decision_witness :
  let ui := cli_ui (Some 1000%Q) (status_of LONG (1 # 10))
              (status_of SHORT (1 # 10)) in
  posts (Cli.trace (snd (Cli.main_iteration cli_setup
           (cli_venue (-1 # 10000) 1061) ui))) =
    [ cli_order cli_setup (demo_api "key1") SELL (1 # 10) 1000000;
      cli_order cli_setup (demo_api "key2") BUY (1 # 10) 1000000 ] /\
  posts (Cli.trace (snd (Cli.main_iteration cli_setup
           (cli_venue (-1 # 10000) 1030) ui))) = [] /\
  posts (Gui.trace (snd (Gui.trading_loop_iteration gui_setup
           (gui_venue (ticker_at 3000) (-1 # 10000) (1 # 10) (-1 # 10) 1061)
           (gui_state (Some 1000%Q) (status_of LONG (1 # 10))
              (status_of SHORT (1 # 10)))))) =
    [ market_order (demo_api "key1") "ETHUSDT" SELL (1 # 10) 1000000;
      market_order (demo_api "key2") "ETHUSDT" BUY (1 # 10) 1000000 ].
Proof.
  intros ui. split; [|split].
  - apply (proj1 (proj1 close_decision cli_setup (cli_venue (-1 # 10000) 1061)
                    ui (status_of LONG (1 # 10)) 1000%Q
                    eq_refl ltac:(discriminate) eq_refl eq_refl)).
    left. vm_compute. discriminate.
  - apply (proj2 (proj1 close_decision cli_setup (cli_venue (-1 # 10000) 1030)
                    ui (status_of LONG (1 # 10)) 1000%Q
                    eq_refl ltac:(discriminate) eq_refl eq_refl)).
    intros [H|[[_ H]|[H _]]]; vm_compute in H;
      first [discriminate H | now apply H].
  - apply (proj1 (proj2 close_decision gui_setup
                    (gui_venue (ticker_at 3000) (-1 # 10000) (1 # 10)
                       (-1 # 10) 1061)
                    (gui_state (Some 1000%Q) (status_of LONG (1 # 10))
                       (status_of SHORT (1 # 10)))
                    (1 # 10) (-1 # 10) 1000%Q
                    eq_refl eq_refl eq_refl ltac:(discriminate)
                    ltac:(discriminate) eq_refl ltac:(discriminate))).
    vm_compute. discriminate.
Defined.

(** C3, where it fails. In the desktop loop, thirty seconds after the
    open with sixty to wait, account 1 LONG and the funding rate now
    positive (the paying side), the cycle posts nothing: a funding flip
    does not close the hedge there. *)
Lemma gui_ignores_funding_flip :
  posts (Gui.trace (snd (Gui.trading_loop_iteration gui_setup
           (gui_venue (ticker_at 3000) (1 # 10000) (1 # 10) (-1 # 10) 1030)
           (gui_state (Some 1000%Q) (status_of LONG (1 # 10))
              (status_of SHORT (1 # 10)))))) = [].
Proof. vm_compute. reflexivity. Qed.

(** C6, as the code has it. When both leg orders of an open succeed,
    the desktop loop adds one to the trade counter, adds
    [quantity * price * 2] to the cumulative volume, sets the open time
    to the current time, records the last-trade time and at once writes
    the new side and quantity into both position projections. The
    terminal loop ([update_stats]) adds one to the counter, sets the
    open time and the last-trade time, but adds [quantity * price] once
    to the cumulative USDT volume and leaves the projections to the
    polling threads. *)
Theorem open_hedge_bookkeeping :
  (forall (g : Gui.Setup) (v : Gui.Venue) (st : Gui.State) (a1 a2 q : Q)
          (s1 s2 : AccountStatus),
      (0 < get_current_price (Gui.ticker_price v))%Q ->
      Gui.pos_amt_of (get_position_info (Gui.position_risk1 v)) = Return a1 ->
      Gui.pos_amt_of (get_position_info (Gui.position_risk2 v)) = Return a2 ->
      (a1 == 0)%Q -> (a2 == 0)%Q ->
      calculate_quantity_from_usdt (Gui.usdt_amount g)
        (Gui.ticker_price_qty v) = Return q ->
      (5 <= q * get_current_price (Gui.ticker_price v))%Q ->
      succeeded (order_result (Gui.order_reply1 v)) = true ->
      succeeded (order_result (Gui.order_reply2 v)) = true ->
      Gui.account_status st !! account1_name = Some s1 ->
      Gui.account_status st !! account2_name = Some s2 ->
      let price := get_current_price (Gui.ticker_price v) in
      let short1 := Qltb 0 (get_funding_rate (Gui.premium_index v)) in
      let r := Gui.trading_loop_iteration g v st in
      let s' := Gui.stats (snd r) in
      fst r = Return tt /\
      Gui.trade_count s' = (Gui.trade_count (Gui.stats st) + 1)%nat /\
      Gui.total_volume_usdt s' =
        (Gui.total_volume_usdt (Gui.stats st) + q * price * 2)%Q /\
      Gui.position_open_time s' = Some (Gui.now v) /\
      Gui.last_trade_time s' = Some (Gui.now_str v) /\
      Gui.account_status (snd r) !! account1_name =
        Some (projected (if short1 then SHORT else LONG) q price s1) /\
      Gui.account_status (snd r) !! account2_name =
        Some (projected (if short1 then LONG else SHORT) q price s2)) /\
  (forall (g : Cli.Setup) (v : Cli.Venue) (ui : Cli.TradingUI) (q : Q),
      Cli.side_of (Cli.account_statuses ui !! account1_name) = NONE ->
      calculate_quantity_from_usdt (Cli.usdt_amount g)
        (Cli.ticker_price_qty v) = Return q ->
      (5 <= q * get_current_price (Cli.ticker_price v))%Q ->
      succeeded (order_result (Cli.order_reply1 v)) = true ->
      succeeded (order_result (Cli.order_reply2 v)) = true ->
      let r := Cli.main_iteration g v ui in
      let s' := Cli.stats (snd r) in
      fst r = Return tt /\
      Cli.trade_count s' = (Cli.trade_count (Cli.stats ui) + 1)%nat /\
      Cli.total_volume_usdt s' =
        (Cli.total_volume_usdt (Cli.stats ui)
         + q * get_current_price (Cli.ticker_price v))%Q /\
      Cli.position_open_time s' = Some (Cli.now v) /\
      Cli.last_trade_time s' = Some (Cli.now_str v) /\
      Cli.account_statuses (snd r) = Cli.account_statuses ui).
Proof.
  split.
  - intros g v st a1 a2 q s1 s2 Hp H1 H2 Z1 Z2 Hq Hn S1 S2 L1 L2
      price short1 r s'.
    subst s' r.
    rewrite (gui_open_cycle_success g v st a1 a2 q s1 s2
               Hp H1 H2 Z1 Z2 Hq Hn S1 S2 L1 L2).
    cbn [fst snd Gui.stats Gui.account_status Gui.record_open
         Gui.set_market Gui.trade_count Gui.total_volume_usdt
         Gui.position_open_time Gui.last_trade_time].
    repeat split.
    + rewrite lookup_insert_ne by (intros E; symmetry in E;
                                  exact (names_differ E)).
      now rewrite lookup_insert_eq.
    + now rewrite lookup_insert_eq.
  - intros g v ui q Hs Hq Hn S1 S2 r s'.
    destruct (cli_open_cycle_success g v ui q Hs Hq Hn S1 S2)
      as (R & C & _ & V & O & L & A).
    repeat split; assumption.
Qed.

Lemma open_hedge_bookkeeping_witness :
  let rg := Gui.trading_loop_iteration gui_setup
              (gui_venue (ticker_at 3000) (1 # 10000) 0 0 100)
              (gui_state None (status_of NONE 0) (status_of NONE 0)) in
  let rc := Cli.main_iteration cli_setup (cli_venue (1 # 10000) 100)
              (cli_ui None (status_of NONE 0) (status_of NONE 0)) in
  (Gui.trade_count (Gui.stats (snd rg)) = 1%nat /\
   Gui.total_volume_usdt (Gui.stats (snd rg)) =
     (0 + (100 # 1000) * get_current_price (ticker_at 3000) * 2)%Q /\
   Gui.account_status (snd rg) !! account1_name =
     Some (projected SHORT (100 # 1000) 3000 (status_of NONE 0))) /\
  (Cli.trade_count (Cli.stats (snd rc)) = 1%nat /\
   Cli.total_volume_usdt (Cli.stats (snd rc)) =
     (0 + (100 # 1000) * get_current_price (ticker_at 3000))%Q).
Proof.
  intros rg rc. split.
  - destruct (proj1 open_hedge_bookkeeping gui_setup
                (gui_venue (ticker_at 3000) (1 # 10000) 0 0 100)
                (gui_state None (status_of NONE 0) (status_of NONE 0))
                0%Q 0%Q (100 # 1000) (status_of NONE 0) (status_of NONE 0))
      as (_ & C & V & _ & _ & P1 & _);
      [reflexivity | reflexivity | reflexivity | reflexivity | reflexivity
      | reflexivity | discriminate | reflexivity | reflexivity | reflexivity
      | reflexivity |].
    split; [exact C | split; [exact V | exact P1]].
  - destruct (proj2 open_hedge_bookkeeping cli_setup
                (cli_venue (1 # 10000) 100)
                (cli_ui None (status_of NONE 0) (status_of NONE 0))
                (100 # 1000))
      as (_ & C & V & _);
      [reflexivity | reflexivity | discriminate | reflexivity | reflexivity |].
    split; [exact C | exact V].
Defined.

(** C6, where it fails. After a successful open of 0.1 at 3000 in the
    terminal loop the cumulative USDT volume has grown by 300, not by
    600, and both projections still show no position. *)
Lemma cli_open_counts_one_leg :
  let r := Cli.main_iteration cli_setup (cli_venue (1 # 10000) 100)
             (cli_ui None (status_of NONE 0) (status_of NONE 0)) in
  fst r = Return tt /\
  Cli.trade_count (Cli.stats (snd r)) = 1%nat /\
  (Cli.total_volume_usdt (Cli.stats (snd r)) == 300)%Q /\
  ~ (Cli.total_volume_usdt (Cli.stats (snd r)) == 0 + (1 # 10) * 3000 * 2)%Q /\
  Cli.account_statuses (snd r) !! account1_name = Some (status_of NONE 0) /\
  Cli.account_statuses (snd r) !! account2_name = Some (status_of NONE 0).
Proof. vm_compute. repeat split; try reflexivity. discriminate. Qed.

(** C7 on the terminal loop. Whenever the terminal loop closes a hedge,
    both closing orders carry the quantity of account 1's snapshot;
    account 2's own quantity is never read. *)
Theorem cli_close_shares_quantity (g : Cli.Setup) (v : Cli.Venue)
    (ui : Cli.TradingUI) (a : AccountStatus) (T : Q) :
  Cli.account_statuses ui !! account1_name = Some a ->
  position_side a <> NONE ->
  (0 < quantity a)%Q ->
  Cli.position_open_time (Cli.stats ui) = Some T ->
  (Cli.cfg_wait_seconds g <= inject_Z (py_int (Cli.now v - T)))%Q ->
  exists side1 side2 : OrderSide,
    posts (Cli.trace (snd (Cli.main_iteration g v ui))) =
      (posts (Cli.trace ui) ++
       [ cli_order g (Cli.account1 g) side1 (quantity a)
           (Cli.order_timestamp1 v);
         cli_order g (Cli.account2 g) side2 (quantity a)
           (Cli.order_timestamp2 v) ])%list.
Proof.
  intros Hl Hs Hq HT Hdue.
  pose proof (cli_close_cycle_posts g v ui a T Hl Hs Hq HT) as E.
  cbv zeta in E. apply Qle_bool_iff in Hdue. rewrite Hdue in E.
  cbn [orb] in E. eauto.
Qed.

(** The failing input: account 1 LONG 0.1, account 2 SHORT 0.2, held
    for 61 of 60 seconds. Account 2 is sent a BUY of 0.1. *)
Lemma cli_close_shares_quantity_witness :
  exists side1 side2 : OrderSide,
    posts (Cli.trace (snd (Cli.main_iteration cli_setup
             (cli_venue (-1 # 10000) 1061)
             (cli_ui (Some 1000%Q) (status_of LONG (1 # 10))
                (status_of SHORT (2 # 10)))))) =
      [ cli_order cli_setup (demo_api "key1") side1 (1 # 10) 1000000;
        cli_order cli_setup (demo_api "key2") side2 (1 # 10) 1000000 ].
Proof.
  apply (cli_close_shares_quantity cli_setup (cli_venue (-1 # 10000) 1061)
           (cli_ui (Some 1000%Q) (status_of LONG (1 # 10))
              (status_of SHORT (2 # 10)))
           (status_of LONG (1 # 10)) 1000%Q).
  - reflexivity.
  - discriminate.
  - reflexivity.
  - reflexivity.
  - vm_compute. discriminate.
Defined.

(** The desktop loop, for comparison, sizes each closing order to the
    amount observed on its own account. *)
Lemma gui_close_sizes_each_leg :
  posts (Gui.trace (snd (Gui.trading_loop_iteration gui_setup
           (gui_venue (ticker_at 3000) (-1 # 10000) (1 # 10) (-2 # 10) 1061)
           (gui_state (Some 1000%Q) (status_of LONG (1 # 10))
              (status_of SHORT (2 # 10)))))) =
    [ market_order (demo_api "key1") "ETHUSDT" SELL (1 # 10) 1000000;
      market_order (demo_api "key2") "ETHUSDT" BUY (2 # 10) 1000000 ].
Proof. vm_compute. reflexivity. Qed.

(** ** Repair orders and the reduce-only flag *)

(** [close_position] documents a reduce-only close and takes
    [reduce_only=True], but the request it posts has no such
    parameter. *)
Lemma close_position_drops_reduce_only (self : AsterDexAPI)
    (symbol : string) (side : OrderSide) (order_type : string)
    (quantity : Q) (position_side : string) (timestamp : Q) (reply : Http)
    (tr : list Event) :
  (0 < quantity)%Q ->
  exists params : list (string * PVal),
    snd (close_position self symbol side order_type quantity position_side
           true timestamp reply tr) =
      (tr ++ [Post (api_key self) "/fapi/v1/order" params])%list /\
    param "reduceOnly" params = None.
Proof.
  intros Hq. apply price_test in Hq. unfold close_position.
  rewrite place_order_posts by exact Hq.
  eexists. split; [reflexivity|]. apply order_params_no_reduce_only.
Qed.

(** C9 on the code. A repair in the desktop loop posts one order, on
    the account that shows the position and sized to the amount observed
    there, and nothing on the other account; but the request is a plain
    market order: it has no [reduceOnly] parameter. *)
Theorem repair_order_not_reduce_only (g : Gui.Setup) (v : Gui.Venue)
    (st : Gui.State) (a1 a2 : Q) :
  (0 < get_current_price (Gui.ticker_price v))%Q ->
  Gui.pos_amt_of (get_position_info (Gui.position_risk1 v)) = Return a1 ->
  Gui.pos_amt_of (get_position_info (Gui.position_risk2 v)) = Return a2 ->
  (~ (a1 == 0)%Q /\ (a2 == 0)%Q) \/ ((a1 == 0)%Q /\ ~ (a2 == 0)%Q) ->
  exists (key : string) (params : list (string * PVal)) (amount : Q),
    Gui.trace (snd (Gui.trading_loop_iteration g v st)) =
      (Gui.trace st ++ [Post key "/fapi/v1/order" params; Sleep 2])%list /\
    ((key = api_key (Gui.account1_api g) /\ amount = a1 /\ (a2 == 0)%Q) \/
     (key = api_key (Gui.account2_api g) /\ amount = a2 /\ (a1 == 0)%Q)) /\
    param "quantity" params = Some (PNum (py_abs amount)) /\
    param "side" params = Some (PStr (side_name (flatten_side amount))) /\
    param "reduceOnly" params = None.
Proof.
  intros Hp H1 H2 Hone.
  assert (Hx : xorb (nonzero a1) (nonzero a2) = true).
  { destruct Hone as [[Ha Hb]|[Ha Hb]].
    - now rewrite (nonzero_true _ Ha), (nonzero_false _ Hb).
    - now rewrite (nonzero_false _ Ha), (nonzero_true _ Hb). }
  rewrite (gui_repair_cycle g v st a1 a2 Hp H1 H2 Hx).
  cbn [snd Gui.trace]. unfold market_order.
  destruct Hone as [[Ha Hb]|[Ha Hb]].
  - rewrite (nonzero_true _ Ha), (nonzero_false _ Hb).
    eexists _, _, a1. split; [reflexivity|]. split; [left; auto|].
    split; [apply order_params_quantity|].
    split; [apply order_params_quantity|apply order_params_no_reduce_only].
  - rewrite (nonzero_false _ Ha), (nonzero_true _ Hb).
    eexists _, _, a2. split; [reflexivity|]. split; [right; auto|].
    split; [apply order_params_quantity|].
    split; [apply order_params_quantity|apply order_params_no_reduce_only].
Qed.

(** The failing input: 0.1 long on account 1, account 2 flat. *)
Lemma repair_order_not_reduce_only_witness :
  exists (key : string) (params : list (string * PVal)) (amount : Q),
    Gui.trace (snd (Gui.trading_loop_iteration gui_setup
                 (gui_venue (ticker_at 3000) (1 # 10000) (1 # 10) 0 100)
                 (gui_state None (status_of LONG (1 # 10))
                    (status_of NONE 0)))) =
      [Post key "/fapi/v1/order" params; Sleep 2] /\
    ((key = "key1" /\ amount = (1 # 10)%Q /\ (0 == 0)%Q) \/
     (key = "key2" /\ amount = 0%Q /\ (1 # 10 == 0)%Q)) /\
    param "quantity" params = Some (PNum (py_abs amount)) /\
    param "side" params = Some (PStr (side_name (flatten_side amount))) /\
    param "reduceOnly" params = None.
Proof.
  apply (repair_order_not_reduce_only gui_setup
           (gui_venue (ticker_at 3000) (1 # 10000) (1 # 10) 0 100)
           (gui_state None (status_of LONG (1 # 10)) (status_of NONE 0))
           (1 # 10) 0).
  - reflexivity.
  - reflexivity.
  - reflexivity.
  - left. split; [discriminate|reflexivity].
Defined.

(** ** The timing scenario at an arbitrary open time *)

Lemma py_int_comp (x y : Q) : (x == y)%Q -> py_int x = py_int y.
Proof.
  intros E. unfold py_int. rewrite (Qleb_comp 0%Q 0%Q (Qeq_refl 0%Q) x y E).
  destruct (Qle_bool 0 y).
  - now apply Qfloor_comp.
  - now apply Qceiling_comp.
Qed.

Lemma py_int_inject_Z (n : Z) : py_int (inject_Z n) = n.
Proof.
  unfold py_int. destruct (Qle_bool 0 (inject_Z n)).
  - apply Qfloor_Z.
  - apply Qceiling_Z.
Qed.

(** For a whole number of seconds to wait and a clock that did not go
    backwards, comparing the truncated hold time is comparing the hold
    time itself. *)
Lemma held_whole_seconds (w : Z) (x : Q) :
  (0 <= x)%Q ->
  (inject_Z w <= inject_Z (py_int x))%Q <-> (inject_Z w <= x)%Q.
Proof.
  intros Hx. unfold py_int. apply Qle_bool_iff in Hx. rewrite Hx.
  split; intros H.
  - apply Qle_trans with (inject_Z (Qfloor x)); [exact H|apply Qfloor_le].
  - rewrite <- Zle_Qle. rewrite <- (Qfloor_Z w). now apply Qfloor_resp_le.
Qed.

(** Opened at [T] with sixty seconds to wait: the terminal loop closes
    at [T + 61], and holds at [T + 30] unless account 1 is on the paying
    side. *)
Lemma cli_timing_scenario (g : Cli.Setup) (v : Cli.Venue)
    (ui : Cli.TradingUI) (a : AccountStatus) (T : Q) :
  Cli.account_statuses ui !! account1_name = Some a ->
  position_side a <> NONE ->
  (0 < quantity a)%Q ->
  Cli.position_open_time (Cli.stats ui) = Some T ->
  (Cli.cfg_wait_seconds g == 60)%Q ->
  let funding := get_funding_rate (Cli.premium_index v) in
  let posted := posts (Cli.trace (snd (Cli.main_iteration g v ui))) in
  ((Cli.now v == T + 61)%Q ->
   posted =
     (posts (Cli.trace ui) ++
      [ cli_order g (Cli.account1 g)
          (match position_side a with LONG => SELL | _ => BUY end)
          (quantity a) (Cli.order_timestamp1 v);
        cli_order g (Cli.account2 g)
          (match position_side a with LONG => BUY | _ => SELL end)
          (quantity a) (Cli.order_timestamp2 v) ])%list) /\
  ((Cli.now v == T + 30)%Q ->
   ~ ((position_side a = LONG /\ (0 < funding)%Q) \/
      (position_side a = SHORT /\ (funding < 0)%Q)) ->
   posted = posts (Cli.trace ui)).
Proof.
  intros Hl Hs Hq HT Hw funding posted.
  pose proof (cli_close_cycle_posts g v ui a T Hl Hs Hq HT) as E.
  cbv zeta in E. fold funding in E. fold posted in E.
  split.
  - intros Hnow.
    assert (Hi : py_int (Cli.now v - T) = 61%Z).
    { rewrite (py_int_comp _ (inject_Z 61)); [apply py_int_inject_Z|].
      rewrite Hnow. unfold inject_Z. ring. }
    rewrite Hi in E.
    assert (B : Qle_bool (Cli.cfg_wait_seconds g) (inject_Z 61) = true).
    { apply Qle_bool_iff. rewrite Hw. discriminate. }
    rewrite B in E. exact E.
  - intros Hnow Hpay.
    assert (Hi : py_int (Cli.now v - T) = 30%Z).
    { rewrite (py_int_comp _ (inject_Z 30)); [apply py_int_inject_Z|].
      rewrite Hnow. unfold inject_Z. ring. }
    rewrite Hi in E.
    assert (B : Qle_bool (Cli.cfg_wait_seconds g) (inject_Z 30) = false).
    { destruct (Qle_bool _ _) eqn:B; [|reflexivity].
      apply Qle_bool_iff in B. rewrite Hw in B. exfalso. now apply B. }
    rewrite B in E.
    destruct (match position_side a with
              | LONG => Qltb 0 funding
              | SHORT => Qltb funding 0
              | NONE => false
              end) eqn:F.
    + apply by_funding_iff in F. contradiction.
    + rewrite E. apply app_nil_r.
Qed.

(** * Further properties of the code *)

(** ** What one iteration of the desktop loop can do *)

Lemma positive_test (q : Q) : Qle_bool q 0 = false -> (0 < q)%Q.
Proof.
  intros H. apply Qnot_le_lt. intros Hle. apply Qle_bool_iff in Hle.
  congruence.
Qed.

Ltac run_gui_all :=
  cbv beta iota zeta delta
    [Gui.trading_loop_iteration Gui.trading_cycle Gui.open_hedge
     Gui.close_hedge Gui.call Gui.set_stats Gui.project Gui.clear
     try_except bind ret raise get modify of_outcome sleep emit
     both_succeeded place_order];
  cbn [Gui.stats Gui.account_status Gui.trace xorb negb andb orb fst snd
       Gui.set_market Gui.record_open Gui.clear_open_time
       Gui.position_open_time Gui.trade_count].

Ltac atomic_destruct :=
  match goal with
  | |- context [match ?x with _ => _ end] =>
      lazymatch x with
      | context [match _ with _ => _ end] => fail
      | _ => destruct x eqn:?
      end
  end.

Ltac split_cases := repeat (atomic_destruct; run_gui_all).

(** Everything one iteration can do, whatever the venue answers. *)
Lemma gui_iteration_frame (g : Gui.Setup) (v : Gui.Venue) (st : Gui.State) :
  let r := Gui.trading_loop_iteration g v st in
  fst r = Return tt /\
  exists extra : list Event,
    Gui.trace (snd r) = (Gui.trace st ++ extra)%list /\
    (posts extra = [] \/
     (exists p, posts extra = [p] /\
        (order_on (Gui.account1_api g) p \/ order_on (Gui.account2_api g) p)) \/
     (exists p1 p2, posts extra = [p1; p2] /\
        order_on (Gui.account1_api g) p1 /\
        order_on (Gui.account2_api g) p2)) /\
    (Gui.trade_count (Gui.stats (snd r)) = Gui.trade_count (Gui.stats st) \/
     (Gui.trade_count (Gui.stats (snd r)) =
        (Gui.trade_count (Gui.stats st) + 1)%nat /\
      length (posts extra) = 2%nat /\
      Gui.position_open_time (Gui.stats (snd r)) = Some (Gui.now v))).
Proof.
  run_gui_all. split_cases.
  all: split; [reflexivity|]; rewrite <- ?app_assoc; eexists;
    (split; [reflexivity|]);
    cbn [posts List.filter is_post app length]; unfold order_on;
    (split;
     [ first
         [ left; reflexivity
         | right; left; eexists; (split; [reflexivity|]);
           first [left; eexists; reflexivity | right; eexists; reflexivity]
         | right; right; eexists _, _; (split; [reflexivity|]);
           split; eexists; reflexivity ]
     | first [left; reflexivity | right; repeat split; reflexivity] ]).
Qed.

(** X1. Whatever the venue answers, one iteration of the desktop loop
    ends normally (its handler catches every exception) and posts at
    most two orders, at most one per account and account 1 first. It
    books at most one trade, and only in an iteration that posted two
    orders; the open time it then records is the clock reading of that
    iteration. *)
Theorem gui_iteration_orders (g : Gui.Setup) (v : Gui.Venue)
    (st : Gui.State) :
  let r := Gui.trading_loop_iteration g v st in
  fst r = Return tt /\
  exists extra : list Event,
    Gui.trace (snd r) = (Gui.trace st ++ extra)%list /\
    (posts extra = [] \/
     (exists p, posts extra = [p] /\
        (order_on (Gui.account1_api g) p \/ order_on (Gui.account2_api g) p)) \/
     (exists p1 p2, posts extra = [p1; p2] /\
        order_on (Gui.account1_api g) p1 /\
        order_on (Gui.account2_api g) p2)) /\
    (Gui.trade_count (Gui.stats (snd r)) = Gui.trade_count (Gui.stats st) \/
     (Gui.trade_count (Gui.stats (snd r)) =
        (Gui.trade_count (Gui.stats st) + 1)%nat /\
      length (posts extra) = 2%nat /\
      Gui.position_open_time (Gui.stats (snd r)) = Some (Gui.now v))).
Proof. apply gui_iteration_frame. Qed.

Lemma trading_loop_frame (g : Gui.Setup) (max_trades : nat)
    (trading_active : nat -> bool) (venues : nat -> Gui.Venue) (fuel : nat) :
  forall (i : nat) (st : Gui.State),
    (Gui.trade_count (Gui.stats st) <= max_trades)%nat ->
    let r := trading_loop g max_trades trading_active venues i fuel st in
    fst r = Return tt /\
    (Gui.trade_count (Gui.stats st)
       <= Gui.trade_count (Gui.stats (snd r)) <= max_trades)%nat /\
    exists extra : list Event,
      Gui.trace (snd r) = (Gui.trace st ++ extra)%list.
Proof.
  induction fuel as [|fuel IH]; intros i st Hle.
  - simpl. split; [reflexivity|]. split; [lia|].
    exists []. now rewrite app_nil_r.
  - cbn [trading_loop]. cbv beta iota zeta delta [bind get].
    destruct (trading_active i
              && (Gui.trade_count (Gui.stats st) <? max_trades)%nat) eqn:C.
    + apply andb_true_iff in C. destruct C as [_ C].
      apply Nat.ltb_lt in C.
      destruct (gui_iteration_frame g (venues i) st)
        as (R & e1 & E1 & _ & T).
      destruct (Gui.trading_loop_iteration g (venues i) st) as [o st1].
      cbn [fst snd] in R, E1, T. subst o.
      assert (H1 : (Gui.trade_count (Gui.stats st1) <= max_trades)%nat).
      { destruct T as [T|(T & _)]; lia. }
      destruct (IH (S i) st1 H1) as (R2 & B & e2 & E2).
      cbv zeta in R2, B, E2.
      split; [exact R2|]. split.
      * destruct T as [T|(T & _)]; lia.
      * exists (e1 ++ e2)%list. rewrite E2, E1. now rewrite app_assoc.
    + simpl. split; [reflexivity|]. split; [lia|].
      exists []. now rewrite app_nil_r.
Qed.

(** X2. The desktop loop never makes more trades than [max_trades]:
    started with a counter that is within the limit, after any number of
    iterations, whatever the venue answers, the loop has ended normally,
    the counter is still within the limit and has not decreased, and
    the trace has only been extended. *)
Theorem trading_loop_respects_max_trades (g : Gui.Setup) (max_trades : nat)
    (trading_active : nat -> bool) (venues : nat -> Gui.Venue)
    (fuel : nat) (st : Gui.State) :
  (Gui.trade_count (Gui.stats st) <= max_trades)%nat ->
  let r := trading_loop g max_trades trading_active venues 0 fuel st in
  fst r = Return tt /\
  (Gui.trade_count (Gui.stats st)
     <= Gui.trade_count (Gui.stats (snd r)) <= max_trades)%nat /\
  exists extra : list Event,
    Gui.trace (snd r) = (Gui.trace st ++ extra)%list.
Proof. apply trading_loop_frame. Qed.

Lemma trading_loop_respects_max_trades_witness :
  let st := gui_state None (status_of NONE 0) (status_of NONE 0) in
  let r := trading_loop gui_setup 1 (fun _ => true)
             (fun _ => gui_venue (ticker_at 3000) (1 # 10000) 0 0 100)
             0 5 st in
  fst r = Return tt /\
  (Gui.trade_count (Gui.stats st)
     <= Gui.trade_count (Gui.stats (snd r)) <= 1)%nat /\
  exists extra : list Event,
    Gui.trace (snd r) = (Gui.trace st ++ extra)%list.
Proof.
  apply (trading_loop_respects_max_trades gui_setup 1 (fun _ => true)
           (fun _ => gui_venue (ticker_at 3000) (1 # 10000) 0 0 100) 5
           (gui_state None (status_of NONE 0) (status_of NONE 0))).
  simpl. lia.
Defined.

(** In that run the single allowed trade is made and the loop stops. *)
Example trading_loop_one_trade :
  let r := trading_loop gui_setup 1 (fun _ => true)
             (fun _ => gui_venue (ticker_at 3000) (1 # 10000) 0 0 100)
             0 5 (gui_state None (status_of NONE 0) (status_of NONE 0)) in
  Gui.trade_count (Gui.stats (snd r)) = 1%nat /\
  length (posts (Gui.trace (snd r))) = 2%nat.
Proof. vm_compute. split; reflexivity. Qed.

(** ** What [close_all_positions] and one iteration of the terminal loop
    can do *)

Ltac frame_exists :=
  rewrite <- ?app_assoc;
  first [ exists []; split; [now rewrite app_nil_r|]
        | eexists; split; [reflexivity|] ].

Lemma close_all_attempt_frame (self : AsterDexAPI) (symbol : string)
    (attempt : nat) (v : CloseAllVenue) (tr : list Event) :
  exists extra : list Event,
    snd (close_all_attempt self symbol attempt v tr) = (tr ++ extra)%list /\
    (length (posts extra) <= 1)%nat.
Proof.
  run_eff.
  repeat (atomic_destruct; run_eff).
  all: cbn [snd]; frame_exists;
    cbn [posts List.filter is_post app length]; lia.
Qed.

Lemma close_all_loop_frame (self : AsterDexAPI) (symbol : string)
    (venue : nat -> CloseAllVenue) (remaining : nat) :
  forall (attempt : nat) (tr : list Event),
  exists extra : list Event,
    snd (close_all_loop self symbol venue attempt remaining tr)
      = (tr ++ extra)%list /\
    (length (posts extra) <= remaining)%nat.
Proof.
  induction remaining as [|n IH]; intros attempt tr.
  - exists []. simpl. split; [now rewrite app_nil_r|lia].
  - cbn [close_all_loop]. cbv beta iota zeta delta [bind].
    destruct (close_all_attempt_frame self symbol attempt (venue attempt) tr)
      as (e1 & He1 & L1).
    destruct (close_all_attempt self symbol attempt (venue attempt) tr)
      as [[[r|]|e] tr1]; cbn [snd] in He1; subst tr1.
    + exists e1. split; [reflexivity|lia].
    + destruct (IH (S attempt) (tr ++ e1)%list) as (e2 & He2 & L2).
      exists (e1 ++ e2)%list. rewrite He2.
      split; [now rewrite app_assoc|].
      rewrite posts_app, length_app. lia.
    + exists e1. split; [reflexivity|lia].
Qed.

Lemma close_all_attempt_returns (self : AsterDexAPI) (symbol : string)
    (attempt : nat) (v : CloseAllVenue) (tr : list Event) :
  exists step, fst (close_all_attempt self symbol attempt v tr) = Return step.
Proof.
  run_eff. repeat (atomic_destruct; run_eff).
  all: eexists; reflexivity.
Qed.

Lemma close_all_loop_returns (self : AsterDexAPI) (symbol : string)
    (venue : nat -> CloseAllVenue) (remaining : nat) :
  forall (attempt : nat) (tr : list Event),
  exists result,
    fst (close_all_loop self symbol venue attempt remaining tr)
      = Return result.
Proof.
  induction remaining as [|n IH]; intros attempt tr.
  - exists None. reflexivity.
  - cbn [close_all_loop]. cbv beta iota zeta delta [bind].
    destruct (close_all_attempt_returns self symbol attempt (venue attempt) tr)
      as [step Hs].
    destruct (close_all_attempt self symbol attempt (venue attempt) tr)
      as [o tr1]. cbn [fst] in Hs. subst o.
    destruct step as [result|]; [exists result; reflexivity|apply IH].
Qed.

(** X3. Whatever the venue answers, [close_all_positions] returns
    normally (every exception is caught inside the attempt) after
    posting at most three orders, one per attempt. *)
Theorem close_all_positions_bounded (self : AsterDexAPI) (symbol : string)
    (venue : nat -> CloseAllVenue) (tr : list Event) :
  exists (result : option Json) (extra : list Event),
    close_all_positions self symbol venue tr =
      (Return result, (tr ++ extra)%list) /\
    (length (posts extra) <= 3)%nat.
Proof.
  unfold close_all_positions.
  destruct (close_all_loop_returns self symbol venue max_retries 0%nat tr)
    as [result Hr].
  destruct (close_all_loop_frame self symbol venue max_retries 0%nat tr)
    as (extra & He & Hl).
  exists result, extra. split; [|exact Hl].
  destruct (close_all_loop self symbol venue 0 max_retries tr) as [o tr'].
  cbn [fst snd] in Hr, He. now subst.
Qed.

Ltac run_cli_all :=
  cbv beta iota zeta delta
    [Cli.main_iteration Cli.main_cycle Cli.open_hedge Cli.close_hedge
     Cli.call Cli.set_stats
     try_except bind ret raise get modify of_outcome sleep emit
     both_succeeded place_order];
  cbn [Cli.stats Cli.account_statuses Cli.trace negb andb orb fst snd
       Cli.set_display Cli.set_hold Cli.position_open_time Cli.trade_count
       Cli.update_stats].

Ltac use_close_all_frame :=
  match goal with
  | H : close_all_positions ?s ?y ?w ?t = (_, ?tr') |- _ =>
      let ex := fresh "ex" in
      let Hex := fresh "Hex" in
      let Lex := fresh "Lex" in
      destruct (close_all_loop_frame s y w max_retries 0%nat t)
        as (ex & Hex & Lex);
      unfold max_retries in Lex;
      unfold close_all_positions in H; rewrite H in Hex;
      cbn [snd] in Hex; subst tr'
  end.

(** Everything one iteration of the terminal loop can do. *)
Lemma cli_iteration_frame (g : Cli.Setup) (v : Cli.Venue)
    (ui : Cli.TradingUI) :
  let r := Cli.main_iteration g v ui in
  fst r = Return tt /\
  Cli.account_statuses (snd r) = Cli.account_statuses ui /\
  (exists extra : list Event,
      Cli.trace (snd r) = (Cli.trace ui ++ extra)%list /\
      (length (posts extra) <= 5)%nat) /\
  (Cli.trade_count (Cli.stats (snd r)) = Cli.trade_count (Cli.stats ui) \/
   (Cli.trade_count (Cli.stats (snd r)) =
      (Cli.trade_count (Cli.stats ui) + 1)%nat /\
    Cli.position_open_time (Cli.stats (snd r)) = Some (Cli.now v))).
Proof.
  run_cli_all.
  repeat (atomic_destruct; run_cli_all).
  all: try use_close_all_frame.
  all: split; [reflexivity|]; (split; [reflexivity|]); split;
    [ rewrite <- ?app_assoc; eexists; (split; [reflexivity|]);
      rewrite ?posts_app, ?length_app;
      cbn [posts List.filter is_post app length]; lia
    | first [left; reflexivity | right; split; reflexivity] ].
Qed.

(** X4. Whatever the venue answers, one iteration of the terminal loop
    ends normally, leaves the account snapshots as the polling threads
    published them (the loop only reads them) and posts at most five
    orders, the three attempts of the compensating close included; it
    books at most one trade, and the open time it then records is the
    clock reading of that iteration. *)
Theorem cli_iteration_orders (g : Cli.Setup) (v : Cli.Venue)
    (ui : Cli.TradingUI) :
  let r := Cli.main_iteration g v ui in
  fst r = Return tt /\
  Cli.account_statuses (snd r) = Cli.account_statuses ui /\
  (exists extra : list Event,
      Cli.trace (snd r) = (Cli.trace ui ++ extra)%list /\
      (length (posts extra) <= 5)%nat) /\
  (Cli.trade_count (Cli.stats (snd r)) = Cli.trade_count (Cli.stats ui) \/
   (Cli.trade_count (Cli.stats (snd r)) =
      (Cli.trade_count (Cli.stats ui) + 1)%nat /\
    Cli.position_open_time (Cli.stats (snd r)) = Some (Cli.now v))).
Proof. apply cli_iteration_frame. Qed.

Lemma main_loop_frame (g : Cli.Setup) (running : nat -> bool)
    (venues : nat -> Cli.Venue) (fuel : nat) :
  forall (i : nat) (ui : Cli.TradingUI),
    (Cli.trade_count (Cli.stats ui) <= Cli.max_trades g)%nat ->
    let r := main_loop g running venues i fuel ui in
    fst r = Return tt /\
    (Cli.trade_count (Cli.stats ui)
       <= Cli.trade_count (Cli.stats (snd r)) <= Cli.max_trades g)%nat /\
    Cli.account_statuses (snd r) = Cli.account_statuses ui /\
    exists extra : list Event,
      Cli.trace (snd r) = (Cli.trace ui ++ extra)%list.
Proof.
  induction fuel as [|fuel IH]; intros i ui Hle.
  - simpl. split; [reflexivity|]. split; [lia|]. split; [reflexivity|].
    exists []. now rewrite app_nil_r.
  - cbn [main_loop]. cbv beta iota zeta delta [bind get].
    destruct (running i).
    + destruct (Cli.max_trades g <=? Cli.trade_count (Cli.stats ui))%nat
        eqn:C.
      * simpl. split; [reflexivity|]. split; [lia|]. split; [reflexivity|].
        exists []. now rewrite app_nil_r.
      * apply Nat.leb_gt in C.
        destruct (cli_iteration_frame g (venues i) ui)
          as (R & A1 & (e1 & E1 & _) & T).
        destruct (Cli.main_iteration g (venues i) ui) as [o ui1].
        cbn [fst snd] in R, A1, E1, T. subst o.
        assert (H1 : (Cli.trade_count (Cli.stats ui1)
                      <= Cli.max_trades g)%nat).
        { destruct T as [T|(T & _)]; lia. }
        destruct (IH (S i) ui1 H1) as (R2 & B & A2 & e2 & E2).
        cbv zeta in R2, B, A2, E2.
        split; [exact R2|]. split; [destruct T as [T|(T & _)]; lia|].
        split; [congruence|].
        exists (e1 ++ e2)%list. rewrite E2, E1. now rewrite app_assoc.
    + simpl. split; [reflexivity|]. split; [lia|]. split; [reflexivity|].
      exists []. now rewrite app_nil_r.
Qed.

(** X5. The terminal loop never makes more trades than [max_trades]:
    started with a counter within the limit, after any number of
    iterations the counter is still within the limit and has not
    decreased; the loop never writes the account snapshots. *)
Theorem main_loop_respects_max_trades (g : Cli.Setup)
    (running : nat -> bool) (venues : nat -> Cli.Venue) (fuel : nat)
    (ui : Cli.TradingUI) :
  (Cli.trade_count (Cli.stats ui) <= Cli.max_trades g)%nat ->
  let r := main_loop g running venues 0 fuel ui in
  fst r = Return tt /\
  (Cli.trade_count (Cli.stats ui)
     <= Cli.trade_count (Cli.stats (snd r)) <= Cli.max_trades g)%nat /\
  Cli.account_statuses (snd r) = Cli.account_statuses ui.
Proof.
  intros H. destruct (main_loop_frame g running venues fuel 0%nat ui H)
    as (R & B & A & _). auto.
Qed.

Lemma main_loop_respects_max_trades_witness :
  let ui := cli_ui None (status_of NONE 0) (status_of NONE 0) in
  let r := main_loop cli_setup (fun _ => true)
             (fun _ => cli_venue (1 # 10000) 100) 0 3 ui in
  fst r = Return tt /\
  (Cli.trade_count (Cli.stats ui)
     <= Cli.trade_count (Cli.stats (snd r)) <= Cli.max_trades cli_setup)%nat /\
  Cli.account_statuses (snd r) = Cli.account_statuses ui.
Proof.
  apply (main_loop_respects_max_trades cli_setup (fun _ => true)
           (fun _ => cli_venue (1 # 10000) 100) 3
           (cli_ui None (status_of NONE 0) (status_of NONE 0))).
  simpl. lia.
Defined.

(** Because the terminal loop never writes the snapshots, a run in which
    the polling threads do not publish keeps opening: three iterations
    on two accounts shown flat post three pairs of opening orders. *)
Example main_loop_reopens_on_stale_snapshot :
  let r := main_loop cli_setup (fun _ => true)
             (fun _ => cli_venue (1 # 10000) 100) 0 3
             (cli_ui None (status_of NONE 0) (status_of NONE 0)) in
  Cli.trade_count (Cli.stats (snd r)) = 3%nat /\
  length (posts (Cli.trace (snd r))) = 6%nat.
Proof. vm_compute. split; reflexivity. Qed.

(** ** Partial fills, skipped opens and failed queries *)

Lemma get_position_info_failed (reply : Http) :
  position_query_failed reply -> get_position_info reply = JList [].
Proof.
  intros H. destruct H; simpl; try reflexivity.
  unfold has_key. now rewrite bool_decide_eq_true_2.
Qed.

(** X6. A failed position query reads as "no position": when the query
    on account 1 fails (connection error, empty or undecodable body, a
    venue error, an empty list) while account 2 is seen with a position
    and the price is valid, the desktop loop flattens account 2. *)
Theorem gui_failed_query_reads_flat (g : Gui.Setup) (v : Gui.Venue)
    (st : Gui.State) (a2 : Q) :
  (0 < get_current_price (Gui.ticker_price v))%Q ->
  position_query_failed (Gui.position_risk1 v) ->
  Gui.pos_amt_of (get_position_info (Gui.position_risk2 v)) = Return a2 ->
  ~ (a2 == 0)%Q ->
  Gui.trace (snd (Gui.trading_loop_iteration g v st)) =
    (Gui.trace st ++
     [ market_order (Gui.account2_api g) (Gui.symbol g)
         (flatten_side a2) (py_abs a2) (Gui.order_timestamp2 v);
       Sleep 2 ])%list.
Proof.
  intros Hp Hf H2 N2.
  assert (H1 : Gui.pos_amt_of (get_position_info (Gui.position_risk1 v))
               = Return 0%Q).
  { now rewrite (get_position_info_failed _ Hf). }
  assert (Hx : xorb (nonzero 0) (nonzero a2) = true).
  { now rewrite (nonzero_true _ N2). }
  rewrite (gui_repair_cycle g v st 0 a2 Hp H1 H2 Hx).
  cbn [snd Gui.trace]. now rewrite (nonzero_true _ N2).
Qed.

Lemma gui_failed_query_reads_flat_witness :
  let v := {| Gui.ticker_price := ticker_at 3000;
              Gui.premium_index := funding_at (1 # 10000);
              Gui.position_risk1 := position_risk_error;
              Gui.position_risk2 := position_risk_at (-1 # 10);
              Gui.ticker_price_qty := ticker_at 3000;
              Gui.order_timestamp1 := 1000000;
              Gui.order_reply1 := order_accepted;
              Gui.order_timestamp2 := 1000000;
              Gui.order_reply2 := order_accepted;
              Gui.now := 100;
              Gui.now_str := "12:00:00" |} in
  Gui.trace (snd (Gui.trading_loop_iteration gui_setup v
                    (gui_state (Some 50%Q) (status_of LONG (1 # 10))
                       (status_of SHORT (1 # 10))))) =
    [ market_order (demo_api "key2") "ETHUSDT"
        (flatten_side (-1 # 10)) (py_abs (-1 # 10)) 1000000;
      Sleep 2 ].
Proof.
  intros v.
  apply (gui_failed_query_reads_flat gui_setup v
           (gui_state (Some 50%Q) (status_of LONG (1 # 10))
              (status_of SHORT (1 # 10))) (-1 # 10)).
  - reflexivity.
  - apply pq_venue_error. now exists (JNum (-1021)).
  - reflexivity.
  - discriminate.
Defined.

(** X7. When the open is partial in the desktop loop (at least one of
    the two leg orders did not go through), nothing is booked and
    nothing compensates: the two orders are the only requests, the
    counter, the volume, the open time and both projections stay as
    they were. *)
Theorem gui_partial_open_books_nothing (g : Gui.Setup) (v : Gui.Venue)
    (st : Gui.State) (a1 a2 q : Q) :
  (0 < get_current_price (Gui.ticker_price v))%Q ->
  Gui.pos_amt_of (get_position_info (Gui.position_risk1 v)) = Return a1 ->
  Gui.pos_amt_of (get_position_info (Gui.position_risk2 v)) = Return a2 ->
  (a1 == 0)%Q -> (a2 == 0)%Q ->
  calculate_quantity_from_usdt (Gui.usdt_amount g) (Gui.ticker_price_qty v)
    = Return q ->
  (5 <= q * get_current_price (Gui.ticker_price v))%Q ->
  both_succeeded (order_result (Gui.order_reply1 v))
    (order_result (Gui.order_reply2 v)) = false ->
  let short1 := Qltb 0 (get_funding_rate (Gui.premium_index v)) in
  let r := Gui.trading_loop_iteration g v st in
  Gui.trace (snd r) =
    (Gui.trace st ++
     [ market_order (Gui.account1_api g) (Gui.symbol g)
         (if short1 then SELL else BUY) q (Gui.order_timestamp1 v);
       market_order (Gui.account2_api g) (Gui.symbol g)
         (if short1 then BUY else SELL) q (Gui.order_timestamp2 v);
       Sleep 1 ])%list /\
  Gui.account_status (snd r) = Gui.account_status st /\
  Gui.trade_count (Gui.stats (snd r)) = Gui.trade_count (Gui.stats st) /\
  Gui.total_volume_usdt (Gui.stats (snd r)) =
    Gui.total_volume_usdt (Gui.stats st) /\
  Gui.position_open_time (Gui.stats (snd r)) =
    Gui.position_open_time (Gui.stats st).
Proof.
  intros Hp H1 H2 Z1 Z2 Hq Hn Hb short1 r. subst short1 r.
  pose proof (quantity_positive _ _ _ Hq) as Hpos.
  apply price_test in Hp. apply Qeq_eq_bool in Z1, Z2.
  apply Qltb_false_iff in Hn. unfold both_succeeded in Hb.
  run_gui. rewrite Hp. run_gui. rewrite H1. run_gui. rewrite H2.
  rewrite Z1, Z2. run_gui. rewrite Hq. run_gui. rewrite Hn.
  destruct (Qltb 0 (get_funding_rate (Gui.premium_index v))); run_gui;
    rewrite !place_order_posts by exact Hpos; run_gui; rewrite Hb; run_gui;
    unfold market_order; rewrite <- !app_assoc; repeat split; reflexivity.
Qed.

Lemma gui_partial_open_books_nothing_witness :
  let v := {| Gui.ticker_price := ticker_at 3000;
              Gui.premium_index := funding_at (1 # 10000);
              Gui.position_risk1 := position_risk_at 0;
              Gui.position_risk2 := position_risk_at 0;
              Gui.ticker_price_qty := ticker_at 3000;
              Gui.order_timestamp1 := 1000000;
              Gui.order_reply1 := order_accepted;
              Gui.order_timestamp2 := 1000000;
              Gui.order_reply2 := order_rejected;
              Gui.now := 100;
              Gui.now_str := "12:00:00" |} in
  let st := gui_state None (status_of NONE 0) (status_of NONE 0) in
  let r := Gui.trading_loop_iteration gui_setup v st in
  Gui.trace (snd r) =
    [ market_order (demo_api "key1") "ETHUSDT" SELL (100 # 1000) 1000000;
      market_order (demo_api "key2") "ETHUSDT" BUY (100 # 1000) 1000000;
      Sleep 1 ] /\
  Gui.account_status (snd r) = Gui.account_status st /\
  Gui.trade_count (Gui.stats (snd r)) = 0%nat /\
  Gui.total_volume_usdt (Gui.stats (snd r)) = 0%Q /\
  Gui.position_open_time (Gui.stats (snd r)) = None.
Proof.
  intros v st.
  apply (gui_partial_open_books_nothing gui_setup v st 0 0 (100 # 1000)).
  - reflexivity.
  - reflexivity.
  - reflexivity.
  - reflexivity.
  - reflexivity.
  - reflexivity.
  - discriminate.
  - reflexivity.
Defined.

(** X8. In the terminal loop, when the order on account 1 goes through
    and the order on account 2 does not, [close_all_positions] is run
    on account 1 right after the two orders, and nothing is booked: the
    trade counter, the volume and the open time stay as they were. *)
Theorem cli_compensates_leg_a (g : Cli.Setup) (v : Cli.Venue)
    (ui : Cli.TradingUI) (q : Q) :
  Cli.side_of (Cli.account_statuses ui !! account1_name) = NONE ->
  calculate_quantity_from_usdt (Cli.usdt_amount g) (Cli.ticker_price_qty v)
    = Return q ->
  (5 <= q * get_current_price (Cli.ticker_price v))%Q ->
  succeeded (order_result (Cli.order_reply1 v)) = true ->
  succeeded (order_result (Cli.order_reply2 v)) = false ->
  let short1 := Qltb 0 (get_funding_rate (Cli.premium_index v)) in
  let legs :=
    [ cli_order g (Cli.account1 g) (if short1 then SELL else BUY) q
        (Cli.order_timestamp1 v);
      cli_order g (Cli.account2 g) (if short1 then BUY else SELL) q
        (Cli.order_timestamp2 v) ] in
  let r := Cli.main_iteration g v ui in
  Cli.trace (snd r) =
    (snd (close_all_positions (Cli.account1 g) (Cli.cfg_symbol g)
            (Cli.close_all_venue v) (Cli.trace ui ++ legs))
     ++ [Sleep (Cli.cfg_wait_seconds g)])%list /\
  Cli.trade_count (Cli.stats (snd r)) = Cli.trade_count (Cli.stats ui) /\
  Cli.total_volume_usdt (Cli.stats (snd r)) =
    Cli.total_volume_usdt (Cli.stats ui) /\
  Cli.position_open_time (Cli.stats (snd r)) =
    Cli.position_open_time (Cli.stats ui).
Proof.
  intros Hs Hq Hn S1 S2 short1 legs r. subst short1 legs r.
  pose proof (quantity_positive _ _ _ Hq) as Hpos.
  apply Qltb_false_iff in Hn.
  run_cli. rewrite Hs. run_cli. rewrite Hq. run_cli. rewrite Hn.
  destruct (Qltb 0 (get_funding_rate (Cli.premium_index v))); run_cli;
    rewrite !place_order_posts by exact Hpos; run_cli;
    rewrite S1, S2; run_cli; unfold cli_order; rewrite <- !app_assoc;
    cbn [app];
    match goal with
    | |- context [close_all_positions ?s ?y ?w ?t] =>
        destruct (close_all_loop_returns s y w max_retries 0%nat t)
          as [x Hx];
        fold (close_all_positions s y w t) in Hx;
        destruct (close_all_positions s y w t) as [o tr'];
        cbn [fst] in Hx; subst o
    end; run_cli; repeat split; reflexivity.
Qed.

Lemma cli_compensates_leg_a_witness :
  let v := {| Cli.ticker_price := ticker_at 3000;
              Cli.premium_index := funding_at (1 # 10000);
              Cli.ticker_price_qty := ticker_at 3000;
              Cli.order_timestamp1 := 1000000;
              Cli.order_reply1 := order_accepted;
              Cli.order_timestamp2 := 1000000;
              Cli.order_reply2 := order_rejected;
              Cli.close_all_venue :=
                fun _ => {| positions_reply := position_risk_at (-1 # 10);
                            order_timestamp := 1000001;
                            order_reply := order_accepted |};
              Cli.now := 100;
              Cli.now_str := "2025-01-01 12:00:00" |} in
  let ui := cli_ui None (status_of NONE 0) (status_of NONE 0) in
  let legs :=
    [ cli_order cli_setup (demo_api "key1") SELL (100 # 1000) 1000000;
      cli_order cli_setup (demo_api "key2") BUY (100 # 1000) 1000000 ] in
  let r := Cli.main_iteration cli_setup v ui in
  Cli.trace (snd r) =
    (snd (close_all_positions (demo_api "key1") "ETHUSDT"
            (Cli.close_all_venue v) ([] ++ legs))
     ++ [Sleep 60])%list /\
  Cli.trade_count (Cli.stats (snd r)) = 0%nat /\
  Cli.total_volume_usdt (Cli.stats (snd r)) = 0%Q /\
  Cli.position_open_time (Cli.stats (snd r)) = None.
Proof.
  intros v ui legs.
  apply (cli_compensates_leg_a cli_setup v ui (100 # 1000)).
  - reflexivity.
  - reflexivity.
  - discriminate.
  - reflexivity.
  - reflexivity.
Defined.

(** In that run the compensating close buys back the 0.1 just sold. *)
Example cli_compensation_trace :
  posts (Cli.trace (snd (Cli.main_iteration cli_setup
      {| Cli.ticker_price := ticker_at 3000;
         Cli.premium_index := funding_at (1 # 10000);
         Cli.ticker_price_qty := ticker_at 3000;
         Cli.order_timestamp1 := 1000000;
         Cli.order_reply1 := order_accepted;
         Cli.order_timestamp2 := 1000000;
         Cli.order_reply2 := order_rejected;
         Cli.close_all_venue :=
           fun _ => {| positions_reply := position_risk_at (-1 # 10);
                       order_timestamp := 1000001;
                       order_reply := order_accepted |};
         Cli.now := 100;
         Cli.now_str := "2025-01-01 12:00:00" |}
      (cli_ui None (status_of NONE 0) (status_of NONE 0))))) =
    [ cli_order cli_setup (demo_api "key1") SELL (100 # 1000) 1000000;
      cli_order cli_setup (demo_api "key2") BUY (100 # 1000) 1000000;
      market_order (demo_api "key1") "ETHUSDT" BUY (1 # 10) 1000001 ].
Proof. vm_compute. reflexivity. Qed.

(** X9. The compensation is one-sided: when the order on account 1 does
    not go through, the terminal loop does nothing more in that cycle,
    also when the order on account 2 did go through. The two leg orders
    are the only requests and nothing is booked. *)
Theorem cli_no_compensation_for_leg_b (g : Cli.Setup) (v : Cli.Venue)
    (ui : Cli.TradingUI) (q : Q) :
  Cli.side_of (Cli.account_statuses ui !! account1_name) = NONE ->
  calculate_quantity_from_usdt (Cli.usdt_amount g) (Cli.ticker_price_qty v)
    = Return q ->
  (5 <= q * get_current_price (Cli.ticker_price v))%Q ->
  succeeded (order_result (Cli.order_reply1 v)) = false ->
  let short1 := Qltb 0 (get_funding_rate (Cli.premium_index v)) in
  let r := Cli.main_iteration g v ui in
  Cli.trace (snd r) =
    (Cli.trace ui ++
     [ cli_order g (Cli.account1 g) (if short1 then SELL else BUY) q
         (Cli.order_timestamp1 v);
       cli_order g (Cli.account2 g) (if short1 then BUY else SELL) q
         (Cli.order_timestamp2 v);
       Sleep (Cli.cfg_wait_seconds g) ])%list /\
  Cli.trade_count (Cli.stats (snd r)) = Cli.trade_count (Cli.stats ui) /\
  Cli.position_open_time (Cli.stats (snd r)) =
    Cli.position_open_time (Cli.stats ui).
Proof.
  intros Hs Hq Hn S1 short1 r. subst short1 r.
  pose proof (quantity_positive _ _ _ Hq) as Hpos.
  apply Qltb_false_iff in Hn.
  run_cli. rewrite Hs. run_cli. rewrite Hq. run_cli. rewrite Hn.
  destruct (Qltb 0 (get_funding_rate (Cli.premium_index v))); run_cli;
    rewrite !place_order_posts by exact Hpos; run_cli;
    rewrite S1; run_cli; unfold cli_order; rewrite <- !app_assoc;
    repeat split; reflexivity.
Qed.

Lemma cli_no_compensation_for_leg_b_witness :
  let v := {| Cli.ticker_price := ticker_at 3000;
              Cli.premium_index := funding_at (1 # 10000);
              Cli.ticker_price_qty := ticker_at 3000;
              Cli.order_timestamp1 := 1000000;
              Cli.order_reply1 := order_rejected;
              Cli.order_timestamp2 := 1000000;
              Cli.order_reply2 := order_accepted;
              Cli.close_all_venue := flat_venue;
              Cli.now := 100;
              Cli.now_str := "2025-01-01 12:00:00" |} in
  let ui := cli_ui None (status_of NONE 0) (status_of NONE 0) in
  let r := Cli.main_iteration cli_setup v ui in
  Cli.trace (snd r) =
    [ cli_order cli_setup (demo_api "key1") SELL (100 # 1000) 1000000;
      cli_order cli_setup (demo_api "key2") BUY (100 # 1000) 1000000;
      Sleep 60 ] /\
  Cli.trade_count (Cli.stats (snd r)) = 0%nat /\
  Cli.position_open_time (Cli.stats (snd r)) = None.
Proof.
  intros v ui.
  apply (cli_no_compensation_for_leg_b cli_setup v ui (100 # 1000)).
  - reflexivity.
  - reflexivity.
  - discriminate.
  - reflexivity.
Defined.

(** X10. An open below the venue's minimum notional is skipped: when
    the computed quantity times the loop's price is below 5, neither
    loop posts an order or books anything; the desktop loop waits five
    seconds, the terminal loop waits [wait_seconds] twice (once before
    its [continue], once at the end of the cycle). *)
Theorem no_open_below_min_notional :
  (forall (g : Gui.Setup) (v : Gui.Venue) (st : Gui.State) (a1 a2 q : Q),
      (0 < get_current_price (Gui.ticker_price v))%Q ->
      Gui.pos_amt_of (get_position_info (Gui.position_risk1 v)) = Return a1 ->
      Gui.pos_amt_of (get_position_info (Gui.position_risk2 v)) = Return a2 ->
      (a1 == 0)%Q -> (a2 == 0)%Q ->
      calculate_quantity_from_usdt (Gui.usdt_amount g)
        (Gui.ticker_price_qty v) = Return q ->
      (q * get_current_price (Gui.ticker_price v) < 5)%Q ->
      let r := Gui.trading_loop_iteration g v st in
      Gui.trace (snd r) = (Gui.trace st ++ [Sleep 5])%list /\
      Gui.account_status (snd r) = Gui.account_status st /\
      Gui.trade_count (Gui.stats (snd r)) = Gui.trade_count (Gui.stats st) /\
      Gui.position_open_time (Gui.stats (snd r)) =
        Gui.position_open_time (Gui.stats st)) /\
  (forall (g : Cli.Setup) (v : Cli.Venue) (ui : Cli.TradingUI) (q : Q),
      Cli.side_of (Cli.account_statuses ui !! account1_name) = NONE ->
      calculate_quantity_from_usdt (Cli.usdt_amount g)
        (Cli.ticker_price_qty v) = Return q ->
      (q * get_current_price (Cli.ticker_price v) < 5)%Q ->
      let r := Cli.main_iteration g v ui in
      Cli.trace (snd r) =
        (Cli.trace ui ++
         [Sleep (Cli.cfg_wait_seconds g); Sleep (Cli.cfg_wait_seconds g)])%list
      /\
      Cli.trade_count (Cli.stats (snd r)) = Cli.trade_count (Cli.stats ui) /\
      Cli.position_open_time (Cli.stats (snd r)) =
        Cli.position_open_time (Cli.stats ui)).
Proof.
  split.
  - intros g v st a1 a2 q Hp H1 H2 Z1 Z2 Hq Hn r. subst r.
    apply price_test in Hp. apply Qeq_eq_bool in Z1, Z2.
    apply Qltb_true_iff in Hn.
    run_gui. rewrite Hp. run_gui. rewrite H1. run_gui. rewrite H2.
    rewrite Z1, Z2. run_gui. rewrite Hq. run_gui. rewrite Hn.
    run_gui. auto.
  - intros g v ui q Hs Hq Hn r. subst r. apply Qltb_true_iff in Hn.
    run_cli. rewrite Hs. run_cli. rewrite Hq. run_cli. rewrite Hn.
    run_cli. rewrite <- !app_assoc. auto.
Qed.

(** The specification's scenario: 1 USDT at price 3000 gives the
    minimum quantity 0.001, a notional of 3, and no order. *)
Lemma no_open_below_min_notional_witness :
  let g := {| Gui.account1_api := demo_api "key1";
              Gui.account2_api := demo_api "key2";
              Gui.symbol := "ETHUSDT";
              Gui.usdt_amount := 1;
              Gui.wait_seconds := 60 |} in
  let c := {| Cli.account1 := demo_api "key1";
              Cli.account2 := demo_api "key2";
              Cli.cfg_symbol := "ETHUSDT";
              Cli.usdt_amount := 1;
              Cli.cfg_position_side := "BOTH";
              Cli.order_type := "MARKET";
              Cli.cfg_leverage := 20;
              Cli.cfg_wait_seconds := 60;
              Cli.max_trades := 100 |} in
  Gui.trace (snd (Gui.trading_loop_iteration g
                    (gui_venue (ticker_at 3000) (1 # 10000) 0 0 100)
                    (gui_state None (status_of NONE 0) (status_of NONE 0))))
    = [Sleep 5] /\
  Cli.trace (snd (Cli.main_iteration c (cli_venue (1 # 10000) 100)
                    (cli_ui None (status_of NONE 0) (status_of NONE 0))))
    = [Sleep 60; Sleep 60].
Proof.
  intros g c. split.
  - apply (proj1 no_open_below_min_notional g
             (gui_venue (ticker_at 3000) (1 # 10000) 0 0 100)
             (gui_state None (status_of NONE 0) (status_of NONE 0))
             0%Q 0%Q (1 # 1000));
      reflexivity.
  - apply (proj2 no_open_below_min_notional c (cli_venue (1 # 10000) 100)
             (cli_ui None (status_of NONE 0) (status_of NONE 0)) (1 # 1000));
      reflexivity.
Defined.

(** X11. When the price request inside [calculate_quantity_from_usdt]
    fails, the division by zero it raises is caught by the loop: no
    order is posted, nothing is booked, and the loop waits five seconds.
    In the desktop loop this happens although the loop's own price
    request, made just before, succeeded. *)
Theorem quantity_failure_skips_cycle :
  (forall (g : Gui.Setup) (v : Gui.Venue) (st : Gui.State) (a1 a2 : Q),
      (0 < get_current_price (Gui.ticker_price v))%Q ->
      Gui.pos_amt_of (get_position_info (Gui.position_risk1 v)) = Return a1 ->
      Gui.pos_amt_of (get_position_info (Gui.position_risk2 v)) = Return a2 ->
      (a1 == 0)%Q -> (a2 == 0)%Q ->
      price_fetch_failed (Gui.ticker_price_qty v) ->
      let r := Gui.trading_loop_iteration g v st in
      fst r = Return tt /\
      Gui.trace (snd r) = (Gui.trace st ++ [Sleep 5])%list /\
      Gui.account_status (snd r) = Gui.account_status st /\
      Gui.trade_count (Gui.stats (snd r)) = Gui.trade_count (Gui.stats st)) /\
  (forall (g : Cli.Setup) (v : Cli.Venue) (ui : Cli.TradingUI),
      Cli.side_of (Cli.account_statuses ui !! account1_name) = NONE ->
      price_fetch_failed (Cli.ticker_price_qty v) ->
      let r := Cli.main_iteration g v ui in
      fst r = Return tt /\
      Cli.trace (snd r) = (Cli.trace ui ++ [Sleep 5])%list /\
      Cli.trade_count (Cli.stats (snd r)) = Cli.trade_count (Cli.stats ui)).
Proof.
  split.
  - intros g v st a1 a2 Hp H1 H2 Z1 Z2 Hf r. subst r.
    apply price_test in Hp. apply Qeq_eq_bool in Z1, Z2.
    assert (Hq : calculate_quantity_from_usdt (Gui.usdt_amount g)
                   (Gui.ticker_price_qty v) = Raise ZeroDivisionError).
    { unfold calculate_quantity_from_usdt.
      now rewrite (get_current_price_failed _ Hf). }
    run_gui. rewrite Hp. run_gui. rewrite H1. run_gui. rewrite H2.
    rewrite Z1, Z2. run_gui. rewrite Hq. run_gui. auto.
  - intros g v ui Hs Hf r. subst r.
    assert (Hq : calculate_quantity_from_usdt (Cli.usdt_amount g)
                   (Cli.ticker_price_qty v) = Raise ZeroDivisionError).
    { unfold calculate_quantity_from_usdt.
      now rewrite (get_current_price_failed _ Hf). }
    run_cli. rewrite Hs. run_cli. rewrite Hq. run_cli. auto.
Qed.

Lemma quantity_failure_skips_cycle_witness :
  let v := {| Gui.ticker_price := ticker_at 3000;
              Gui.premium_index := funding_at (1 # 10000);
              Gui.position_risk1 := position_risk_at 0;
              Gui.position_risk2 := position_risk_at 0;
              Gui.ticker_price_qty := ConnectionError;
              Gui.order_timestamp1 := 1000000;
              Gui.order_reply1 := order_accepted;
              Gui.order_timestamp2 := 1000000;
              Gui.order_reply2 := order_accepted;
              Gui.now := 100;
              Gui.now_str := "12:00:00" |} in
  let c := {| Cli.ticker_price := ticker_at 3000;
              Cli.premium_index := funding_at (1 # 10000);
              Cli.ticker_price_qty := ConnectionError;
              Cli.order_timestamp1 := 1000000;
              Cli.order_reply1 := order_accepted;
              Cli.order_timestamp2 := 1000000;
              Cli.order_reply2 := order_accepted;
              Cli.close_all_venue := flat_venue;
              Cli.now := 100;
              Cli.now_str := "2025-01-01 12:00:00" |} in
  Gui.trace (snd (Gui.trading_loop_iteration gui_setup v
                    (gui_state None (status_of NONE 0) (status_of NONE 0))))
    = [Sleep 5] /\
  Cli.trace (snd (Cli.main_iteration cli_setup c
                    (cli_ui None (status_of NONE 0) (status_of NONE 0))))
    = [Sleep 5].
Proof.
  intros v c. split.
  - apply (proj1 quantity_failure_skips_cycle gui_setup v
             (gui_state None (status_of NONE 0) (status_of NONE 0))
             0%Q 0%Q);
      first [reflexivity | constructor].
  - apply (proj2 quantity_failure_skips_cycle cli_setup c
             (cli_ui None (status_of NONE 0) (status_of NONE 0)));
      first [reflexivity | constructor].
Defined.

(** X12. The terminal loop has no test of its own on the price, yet it
    never opens a hedge in a cycle whose price request failed: the
    quantity computation raises, or the notional, a positive quantity
    times a price that is not positive, is below the minimum. *)
Theorem cli_never_opens_without_price (g : Cli.Setup) (v : Cli.Venue)
    (ui : Cli.TradingUI) :
  Cli.side_of (Cli.account_statuses ui !! account1_name) = NONE ->
  (get_current_price (Cli.ticker_price v) <= 0)%Q ->
  let r := Cli.main_iteration g v ui in
  posts (Cli.trace (snd r)) = posts (Cli.trace ui) /\
  Cli.trade_count (Cli.stats (snd r)) = Cli.trade_count (Cli.stats ui) /\
  Cli.position_open_time (Cli.stats (snd r)) =
    Cli.position_open_time (Cli.stats ui).
Proof.
  intros Hs Hp r. subst r.
  run_cli. rewrite Hs. run_cli.
  destruct (calculate_quantity_from_usdt (Cli.usdt_amount g)
              (Cli.ticker_price_qty v)) as [q|e] eqn:Hq; run_cli.
  - pose proof (positive_test _ (quantity_positive _ _ _ Hq)) as Hpos.
    assert (Hn : Qltb (q * get_current_price (Cli.ticker_price v)) 5 = true).
    { apply Qltb_true_iff.
      apply Qle_lt_trans with (0 * get_current_price (Cli.ticker_price v))%Q.
      - nra.
      - ring_simplify. reflexivity. }
    rewrite Hn. run_cli. rewrite <- !app_assoc. norm_posts. auto.
  - norm_posts. auto.
Qed.

Lemma cli_never_opens_without_price_witness :
  let v := {| Cli.ticker_price := ConnectionError;
              Cli.premium_index := funding_at (1 # 10000);
              Cli.ticker_price_qty := ticker_at 3000;
              Cli.order_timestamp1 := 1000000;
              Cli.order_reply1 := order_accepted;
              Cli.order_timestamp2 := 1000000;
              Cli.order_reply2 := order_accepted;
              Cli.close_all_venue := flat_venue;
              Cli.now := 100;
              Cli.now_str := "2025-01-01 12:00:00" |} in
  let ui := cli_ui None (status_of NONE 0) (status_of NONE 0) in
  let r := Cli.main_iteration cli_setup v ui in
  posts (Cli.trace (snd r)) = posts (Cli.trace ui) /\
  Cli.trade_count (Cli.stats (snd r)) = Cli.trade_count (Cli.stats ui) /\
  Cli.position_open_time (Cli.stats (snd r)) =
    Cli.position_open_time (Cli.stats ui).
Proof.
  intros v ui.
  apply (cli_never_opens_without_price cli_setup v ui).
  - reflexivity.
  - discriminate.
Defined.

(** ** More on request timestamps *)

(** X13. A synchronising call whose fetched server time is within
    60000 ms of the local time adopts it: the call returns the server
    time, stores [server_time - local_time] as the offset and the time
    of the fetch as the last synchronisation, clears the warned flag
    and prints nothing. *)
Theorem get_timestamp_adopts_server_time
    (clock : nat -> Q) (time_endpoint : nat -> Http) (s : Session)
    (d : gmap string JVal) (server_time : Q) :
  sync_due clock s ->
  time_endpoint (requests s) = Response 200 (Decoded (JDict d)) ->
  d !! "serverTime" = Some (JNum server_time) ->
  (Qabs (server_time - millis (clock (3 + reads s)%nat)) <= 60000)%Q ->
  let r := _get_timestamp clock time_endpoint s in
  fst r = Return server_time /\
  time_offset (api (snd r)) =
    (server_time - millis (clock (1 + reads s)%nat))%Q /\
  last_time_sync (api (snd r)) = clock (2 + reads s)%nat /\
  server_time_warned (api (snd r)) = false /\
  printed (snd r) = printed s.
Proof.
  intros Hdue Hep Hd Hok r.
  apply sync_due_test in Hdue. apply Qltb_false_iff in Hok.
  subst r. run_session. rewrite Hdue. run_session. rewrite Hep.
  run_session. rewrite Hd. run_session.
  unfold millis in Hok. cbn [Nat.add] in Hok. rewrite Hok. run_session.
  cbn [fst snd api printed server_time_warned time_offset last_time_sync].
  auto.
Qed.

Lemma get_timestamp_adopts_server_time_witness :
  let r := _get_timestamp (fun _ => 1000%Q)
             (fun _ => server_time_at 1000250) fresh_session in
  fst r = Return 1000250%Q /\
  time_offset (api (snd r)) = (1000250 - millis 1000)%Q /\
  last_time_sync (api (snd r)) = 1000%Q /\
  server_time_warned (api (snd r)) = false /\
  printed (snd r) = [].
Proof.
  apply (get_timestamp_adopts_server_time (fun _ => 1000%Q)
           (fun _ => server_time_at 1000250) fresh_session
           {["serverTime" := JNum 1000250]} 1000250).
  - right. reflexivity.
  - reflexivity.
  - reflexivity.
  - vm_compute. discriminate.
Defined.

(** X14. When the time request of a synchronising call fails, the call
    prints one warning if none is pending and nothing if the warned flag
    is already set, leaves the offset and the time of the last
    synchronisation as they were (so the next call asks again), and
    returns the local time plus the cached offset, or the plain local
    time when that offset exceeds 60000 ms. *)
Theorem get_timestamp_fetch_failure
    (clock : nat -> Q) (time_endpoint : nat -> Http) (s : Session) :
  sync_due clock s ->
  time_fetch_failed (time_endpoint (requests s)) ->
  let r := _get_timestamp clock time_endpoint s in
  let local1 := millis (clock (1 + reads s)%nat) in
  let local2 := millis (clock (2 + reads s)%nat) in
  let fallback := (local1 + time_offset (api s))%Q in
  fst r = Return (if Qltb 60000 (py_abs (fallback - local2))
                  then local2 else fallback) /\
  time_offset (api (snd r)) = time_offset (api s) /\
  last_time_sync (api (snd r)) = last_time_sync (api s) /\
  server_time_warned (api (snd r)) = true /\
  (if server_time_warned (api s)
   then printed (snd r) = printed s
   else exists w, (w = FetchFailed \/ w = FetchException) /\
                  printed (snd r) = (printed s ++ [w])%list).
Proof.
  intros Hdue Hf r local1 local2 fallback. subst r local1 local2 fallback.
  apply sync_due_test in Hdue. unfold millis. cbn [Nat.add].
  run_session. rewrite Hdue. run_session.
  destruct Hf as [|st b Hst|st|st|st l|st d Hd]; run_session;
    try (apply Z.eqb_neq in Hst; rewrite Hst);
    try rewrite Hd;
    try destruct (st =? 200)%Z; run_session.
  all: destruct (server_time_warned (api s)) eqn:W; run_session;
    rewrite ?W; run_session;
    match goal with
    | |- context [Qltb 60000 ?x] => destruct (Qltb 60000 x)
    end; run_session; rewrite ?W;
    cbn [fst snd api printed server_time_warned time_offset last_time_sync];
    repeat split; eauto.
Qed.

Lemma get_timestamp_fetch_failure_witness :
  let r := _get_timestamp (fun _ => 1000%Q) (fun _ => ConnectionError)
             fresh_session in
  let local1 := millis 1000 in
  let local2 := millis 1000 in
  let fallback := (local1 + 0)%Q in
  fst r = Return (if Qltb 60000 (py_abs (fallback - local2))
                  then local2 else fallback) /\
  time_offset (api (snd r)) = 0%Q /\
  last_time_sync (api (snd r)) = 0%Q /\
  server_time_warned (api (snd r)) = true /\
  exists w, (w = FetchFailed \/ w = FetchException) /\
            printed (snd r) = ([] ++ [w])%list.
Proof.
  apply (get_timestamp_fetch_failure (fun _ => 1000%Q)
           (fun _ => ConnectionError) fresh_session).
  - right. reflexivity.
  - constructor.
Defined.

(** The state a skewed synchronising call leaves behind. *)
Lemma get_timestamp_skew_state
    (clock : nat -> Q) (time_endpoint : nat -> Http) (s : Session)
    (d : gmap string JVal) (server_time : Q) :
  sync_due clock s ->
  time_endpoint (requests s) = Response 200 (Decoded (JDict d)) ->
  d !! "serverTime" = Some (JNum server_time) ->
  (60000 < Qabs (server_time - millis (clock (3 + reads s)%nat)))%Q ->
  _get_timestamp clock time_endpoint s =
    (Return (millis (clock (3 + reads s)%nat)),
     {| api :=
          set_server_time_warned true
            (set_server_time_warned false
               (set_last_time_sync (clock (2 + reads s)%nat)
                  (set_time_offset
                     (server_time - millis (clock (1 + reads s)%nat))
                     (api s))));
        reads := (4 + reads s)%nat;
        requests := S (requests s);
        printed :=
          (printed s ++
           [TimeDiffTooLarge
              (server_time - millis (clock (3 + reads s)%nat))])%list |}).
Proof.
  intros Hdue Hep Hd Hskew.
  apply sync_due_test in Hdue. apply Qltb_true_iff in Hskew.
  unfold millis in *. cbn [Nat.add] in *.
  run_session. rewrite Hdue. run_session. rewrite Hep.
  run_session. rewrite Hd. run_session. rewrite Hskew. run_session.
  reflexivity.
Qed.

(** X15. The remote time discarded by a skewed synchronising call is
    not discarded for long: the call has stored the skewed offset, and
    the next call made within 300 seconds returns the local time plus
    that offset, without asking the venue and without printing. *)
Theorem cached_offset_keeps_skew
    (clock : nat -> Q) (time_endpoint : nat -> Http) (s : Session)
    (d : gmap string JVal) (server_time : Q) :
  sync_due clock s ->
  time_endpoint (requests s) = Response 200 (Decoded (JDict d)) ->
  d !! "serverTime" = Some (JNum server_time) ->
  (60000 < Qabs (server_time - millis (clock (3 + reads s)%nat)))%Q ->
  (clock (4 + reads s)%nat - clock (2 + reads s)%nat <= 300)%Q ->
  ~ (clock (2 + reads s)%nat == 0)%Q ->
  let first := _get_timestamp clock time_endpoint s in
  let second := _get_timestamp clock time_endpoint (snd first) in
  fst first = Return (millis (clock (3 + reads s)%nat)) /\
  fst second =
    Return (millis (clock (5 + reads s)%nat)
            + (server_time - millis (clock (1 + reads s)%nat)))%Q /\
  requests (snd second) = S (requests s) /\
  printed (snd second) = printed (snd first).
Proof.
  intros Hdue Hep Hd Hskew Hnear Hnz first second. subst second first.
  rewrite (get_timestamp_skew_state clock time_endpoint s d server_time
             Hdue Hep Hd Hskew).
  cbn [fst snd]. split; [reflexivity|].
  apply Qltb_false_iff in Hnear. apply nonzero_test in Hnz.
  run_session. cbn [Nat.add] in *. rewrite Hnear, Hnz. run_session.
  cbn [fst snd requests printed]. auto.
Qed.

Lemma cached_offset_keeps_skew_witness :
  let first := _get_timestamp (fun _ => 1000%Q)
                 (fun _ => server_time_at 1120000) fresh_session in
  let second := _get_timestamp (fun _ => 1000%Q)
                  (fun _ => server_time_at 1120000) (snd first) in
  fst first = Return (millis 1000) /\
  fst second = Return (millis 1000 + (1120000 - millis 1000))%Q /\
  requests (snd second) = 1%nat /\
  printed (snd second) = printed (snd first).
Proof.
  apply (cached_offset_keeps_skew (fun _ => 1000%Q)
           (fun _ => server_time_at 1120000) fresh_session
           {["serverTime" := JNum 1120000]} 1120000).
  - right. reflexivity.
  - reflexivity.
  - reflexivity.
  - vm_compute. reflexivity.
  - vm_compute. discriminate.
  - discriminate.
Defined.

(** ** More on [close_all_positions] *)

Lemma open_reading_attempt (self : AsterDexAPI) (symbol : string)
    (attempt : nat) (v : CloseAllVenue) (amt : Q) (tr : list Event) :
  open_reading v amt ->
  close_all_attempt self symbol attempt v tr =
    (Return
       (match order_result (order_reply v) with
        | Some r =>
            if truthy r && in_json "orderId" r then Some (Some r) else None
        | None => None
        end),
     (tr ++
      [market_order self symbol (flatten_side amt) (py_abs amt)
         (order_timestamp v)] ++
      match order_result (order_reply v) with
      | Some r =>
          if truthy r && in_json "orderId" r then []
          else if truthy r && in_json "code" r
               then if (attempt <? max_retries - 1)%nat
                    then [Sleep 1] else []
               else []
      | None => []
      end)%list).
Proof.
  intros (Ht & Ha & Hn).
  pose proof (py_abs_nonzero amt (nonzero_true _ Hn)) as Hpos.
  apply nonzero_test in Hn.
  run_eff. rewrite Ht. run_eff. rewrite Ha. run_eff. rewrite Hn.
  fold (flatten_side amt). rewrite Hpos. run_eff.
  unfold market_order.
  destruct (order_result (order_reply v)) as [r|]; run_eff;
    [|reflexivity].
  destruct (truthy r && in_json "orderId" r); run_eff;
    [now rewrite app_nil_r|].
  destruct (truthy r && in_json "code" r); run_eff;
    [|now rewrite app_nil_r].
  destruct (attempt <? max_retries - 1)%nat; run_eff;
    rewrite <- ?app_assoc, ?app_nil_r; reflexivity.
Qed.

(** X16. When the first attempt of [close_all_positions] reads a
    non-zero amount and the venue accepts the order (its answer has an
    [orderId]), exactly one market order is posted, SELL for a positive
    amount and BUY for a negative one, sized to the absolute amount, and
    the venue's answer is returned. *)
Theorem close_all_positions_closes (self : AsterDexAPI) (symbol : string)
    (venue : nat -> CloseAllVenue) (amt : Q) (r : Json) (tr : list Event) :
  open_reading (venue 0%nat) amt ->
  order_result (order_reply (venue 0%nat)) = Some r ->
  truthy r && in_json "orderId" r = true ->
  close_all_positions self symbol venue tr =
    (Return (Some r),
     (tr ++ [market_order self symbol (flatten_side amt) (py_abs amt)
               (order_timestamp (venue 0%nat))])%list).
Proof.
  intros Ho Hr Hid. unfold close_all_positions, max_retries.
  cbn [close_all_loop]. cbv beta iota zeta delta [bind].
  rewrite (open_reading_attempt self symbol 0 (venue 0%nat) amt tr Ho).
  rewrite Hr, Hid. cbv beta iota. now rewrite app_nil_r.
Qed.

Lemma close_all_positions_closes_witness :
  let venue := fun _ : nat =>
                 {| positions_reply := position_risk_at (-1 # 10);
                    order_timestamp := 1000001;
                    order_reply := order_accepted |} in
  close_all_positions (demo_api "key1") "ETHUSDT" venue [] =
    (Return (Some (JDict {["orderId" := JNum 1]})),
     ([] ++ [market_order (demo_api "key1") "ETHUSDT"
               (flatten_side (-1 # 10)) (py_abs (-1 # 10)) 1000001])%list).
Proof.
  intros venue.
  apply (close_all_positions_closes (demo_api "key1") "ETHUSDT" venue
           (-1 # 10) (JDict {["orderId" := JNum 1]}) []).
  - split; [reflexivity|]. split; [reflexivity|discriminate].
  - reflexivity.
  - reflexivity.
Defined.

(** X17. A rejected close is retried at once: when each of the three
    attempts reads a non-zero amount and [place_order] returns nothing
    (a venue error or a failed request), [close_all_positions] posts
    three orders back to back, without the one-second wait it makes on
    its other retry paths, and returns [None]. *)
Theorem close_all_positions_rejected (self : AsterDexAPI) (symbol : string)
    (venue : nat -> CloseAllVenue) (a0 a1 a2 : Q) (tr : list Event) :
  open_reading (venue 0%nat) a0 ->
  open_reading (venue 1%nat) a1 ->
  open_reading (venue 2%nat) a2 ->
  (forall i : nat, order_result (order_reply (venue i)) = None) ->
  close_all_positions self symbol venue tr =
    (Return None,
     (tr ++
      [ market_order self symbol (flatten_side a0) (py_abs a0)
          (order_timestamp (venue 0%nat));
        market_order self symbol (flatten_side a1) (py_abs a1)
          (order_timestamp (venue 1%nat));
        market_order self symbol (flatten_side a2) (py_abs a2)
          (order_timestamp (venue 2%nat)) ])%list).
Proof.
  intros H0 H1 H2 Hr. unfold close_all_positions, max_retries.
  cbn [close_all_loop]. cbv beta iota zeta delta [bind].
  rewrite (open_reading_attempt self symbol 0 (venue 0%nat) a0 _ H0).
  rewrite Hr. cbv beta iota.
  rewrite (open_reading_attempt self symbol 1 (venue 1%nat) a1 _ H1).
  rewrite Hr. cbv beta iota.
  rewrite (open_reading_attempt self symbol 2 (venue 2%nat) a2 _ H2).
  rewrite Hr. cbv beta iota. unfold ret.
  rewrite !app_nil_r, <- !app_assoc. reflexivity.
Qed.

Lemma close_all_positions_rejected_witness :
  let venue := fun _ : nat =>
                 {| positions_reply := position_risk_at (1 # 10);
                    order_timestamp := 1000001;
                    order_reply := order_rejected |} in
  close_all_positions (demo_api "key1") "ETHUSDT" venue [] =
    (Return None,
     ([] ++
      [ market_order (demo_api "key1") "ETHUSDT" (flatten_side (1 # 10))
          (py_abs (1 # 10)) 1000001;
        market_order (demo_api "key1") "ETHUSDT" (flatten_side (1 # 10))
          (py_abs (1 # 10)) 1000001;
        market_order (demo_api "key1") "ETHUSDT" (flatten_side (1 # 10))
          (py_abs (1 # 10)) 1000001 ])%list).
Proof.
  intros venue.
  apply (close_all_positions_rejected (demo_api "key1") "ETHUSDT" venue
           (1 # 10) (1 # 10) (1 # 10) []).
  - split; [reflexivity|]. split; [reflexivity|discriminate].
  - split; [reflexivity|]. split; [reflexivity|discriminate].
  - split; [reflexivity|]. split; [reflexivity|discriminate].
  - intros i. reflexivity.
Defined.

(** ** [calculate_margin] *)

Example margin_derived :
  calculate_margin (position_record (1 # 10) 3000 2990 20) 20
    = Return (1500 # 100).
Proof. vm_compute. reflexivity. Qed.

Lemma nonempty_record (d : gmap string JVal) (k : string) (v : JVal) :
  d !! k = Some v -> bool_decide (d = ∅) = false.
Proof.
  intros H. apply bool_decide_eq_false_2. intros ->.
  rewrite lookup_empty in H. discriminate.
Qed.

(** X18. When a cross-margin position reports no margin of its own
    (both initial-margin fields absent or zero) and is open,
    [calculate_margin] derives [abs(amount * price) / leverage] rounded
    to two decimals, where the price is the mark price when that is
    positive and the entry price otherwise, and the leverage is the one
    the position record carries. *)
Theorem calculate_margin_derived (d : gmap string JVal)
    (default_leverage amt mark entry lev i p : Q) :
  is_isolated d = false ->
  get_float d "initialMargin" = Return i -> (i == 0)%Q ->
  get_float d "positionInitialMargin" = Return p -> (p == 0)%Q ->
  d !! "positionAmt" = Some (JNum amt) ->
  d !! "markPrice" = Some (JNum mark) ->
  d !! "entryPrice" = Some (JNum entry) ->
  d !! "leverage" = Some (JNum lev) ->
  ~ (amt == 0)%Q ->
  ~ (lev == 0)%Q ->
  let price := if Qltb 0 mark then mark else entry in
  (0 < price)%Q ->
  calculate_margin d default_leverage =
    Return (py_round (py_abs (amt * price) / lev) 2).
Proof.
  intros Hiso Hi Zi Hp Zp Ha Hm He Hl Na Nl price Hprice.
  apply Qeq_eq_bool in Zi, Zp. apply nonzero_test in Na, Nl.
  apply Qltb_true_iff in Hprice.
  unfold calculate_margin, derived_margin.
  rewrite (nonempty_record d _ _ Ha), Hiso, Hi, Zi, Hp, Zp.
  unfold get_float. rewrite Ha, Hm, He, Hl. cbn [py_float].
  fold price. rewrite Na, Hprice. cbn [negb andb].
  unfold py_truediv. now rewrite Nl.
Qed.

Lemma calculate_margin_derived_witness :
  calculate_margin (position_record (-1 # 10) 0 2990 20) 10 =
    Return (py_round (py_abs ((-1 # 10) * 2990) / 20) 2).
Proof.
  apply (calculate_margin_derived (position_record (-1 # 10) 0 2990 20)
           10 (-1 # 10) 0 2990 20 0 0);
    first [reflexivity | discriminate].
Defined.

(** X19. A position record with leverage zero makes [calculate_margin]
    raise: for an open cross-margin position with a positive price and
    no reported margin the division by the leverage is not guarded. A
    flat position never reaches the division. *)
Theorem calculate_margin_zero_leverage (d : gmap string JVal)
    (default_leverage amt mark entry lev i p : Q) :
  is_isolated d = false ->
  get_float d "initialMargin" = Return i -> (i == 0)%Q ->
  get_float d "positionInitialMargin" = Return p -> (p == 0)%Q ->
  d !! "positionAmt" = Some (JNum amt) ->
  d !! "markPrice" = Some (JNum mark) ->
  d !! "entryPrice" = Some (JNum entry) ->
  d !! "leverage" = Some (JNum lev) ->
  (lev == 0)%Q ->
  (0 < (if Qltb 0 mark then mark else entry))%Q ->
  (~ (amt == 0)%Q ->
   calculate_margin d default_leverage = Raise ZeroDivisionError) /\
  ((amt == 0)%Q ->
   calculate_margin d default_leverage = Return (py_round p 2)).
Proof.
  intros Hiso Hi Zi Hp Zp Ha Hm He Hl Zl Hprice.
  apply Qeq_eq_bool in Zi, Zp, Zl. apply Qltb_true_iff in Hprice.
  unfold calculate_margin, derived_margin.
  rewrite (nonempty_record d _ _ Ha), Hiso, Hi, Zi, Hp, Zp.
  unfold get_float. rewrite Ha, Hm, He, Hl. cbn [py_float].
  rewrite Hprice. split; intros H.
  - apply nonzero_test in H. rewrite H. cbn [negb andb].
    unfold py_truediv. now rewrite Zl.
  - apply Qeq_eq_bool in H. now rewrite H.
Qed.

Lemma calculate_margin_zero_leverage_witness :
  (~ ((1 # 10) == 0)%Q ->
   calculate_margin (position_record (1 # 10) 3000 2990 0) 20
     = Raise ZeroDivisionError) /\
  (((1 # 10) == 0)%Q ->
   calculate_margin (position_record (1 # 10) 3000 2990 0) 20
     = Return (py_round 0 2)).
Proof.
  apply (calculate_margin_zero_leverage
           (position_record (1 # 10) 3000 2990 0) 20 (1 # 10) 3000 2990 0
           0 0);
    first [reflexivity | discriminate].
Defined.

(** X20. For an isolated position that reports a positive
    [isolatedMargin], [calculate_margin] returns that margin rounded to
    two decimals and reads nothing else: the other fields may be absent
    or unparsable. *)
Theorem calculate_margin_isolated (d : gmap string JVal)
    (default_leverage m : Q) :
  d !! "marginType" = Some (JStr "isolated") ->
  d !! "isolatedMargin" = Some (JNum m) ->
  (0 < m)%Q ->
  calculate_margin d default_leverage = Return (py_round m 2).
Proof.
  intros Ht Hm Hpos. apply Qltb_true_iff in Hpos.
  unfold calculate_margin, is_isolated, get_float.
  rewrite (nonempty_record d _ _ Ht), Ht, Hm. cbn [String.eqb py_float].
  simpl. now rewrite Hpos.
Qed.

Lemma calculate_margin_isolated_witness :
  calculate_margin
    (<["marginType" := JStr "isolated"]>
       (<["isolatedMargin" := JNum (12345 # 1000)]>
          (<["initialMargin" := JStr "n/a"]> ∅))) 20
    = Return (py_round (12345 # 1000) 2).
Proof.
  apply calculate_margin_isolated; reflexivity.
Defined.

(** ** Account balances *)

Lemma first_positive_balance_positive (k1 k2 k3 : string)
    (assets : list (gmap string JVal)) (b : Q) :
  first_positive_balance k1 k2 k3 assets = Return (Some b) -> (0 < b)%Q.
Proof.
  induction assets as [|asset rest IH]; cbn [first_positive_balance].
  - discriminate.
  - destruct (is_usdt asset); [|exact IH].
    destruct (get_float asset k1) as [b1|]; [|discriminate].
    destruct (Qltb 0 b1) eqn:E1.
    { intros H. injection H as <-. now apply Qltb_true_iff. }
    destruct (get_float asset k2) as [b2|]; [|discriminate].
    destruct (Qltb 0 b2) eqn:E2.
    { intros H. injection H as <-. now apply Qltb_true_iff. }
    destruct (get_float asset k3) as [b3|]; [|discriminate].
    destruct (Qltb 0 b3) eqn:E3.
    { intros H. injection H as <-. now apply Qltb_true_iff. }
    exact IH.
Qed.

Lemma v1_balance_positive (result : AccountJson) (b : Q) :
  v1_balance result = Return (Some b) -> (0 < b)%Q.
Proof.
  destruct result as [l|fields assets]; cbn [v1_balance]; [discriminate|].
  destruct (fields !! "totalWalletBalance") as [v|].
  - destruct (py_float v) as [x|]; [|discriminate].
    destruct (Qltb 0 x) eqn:E.
    + intros H. injection H as <-. now apply Qltb_true_iff.
    + destruct (fields !! "totalCrossWalletBalance") as [v'|];
        [|discriminate].
      destruct (py_float v') as [y|]; [|discriminate].
      destruct (Qltb 0 y) eqn:E'; [|discriminate].
      intros H. injection H as <-. now apply Qltb_true_iff.
  - destruct (fields !! "totalCrossWalletBalance") as [v'|];
      [|discriminate].
    destruct (py_float v') as [y|]; [|discriminate].
    destruct (Qltb 0 y) eqn:E'; [|discriminate].
    intros H. injection H as <-. now apply Qltb_true_iff.
Qed.

(** X21. Whatever the three endpoints answer, [get_account_balance]
    returns either exactly [0.0] or a strictly positive number: a
    negative or unparsable balance field is never passed on. *)
Theorem get_account_balance_zero_or_positive (bv : BalanceVenue) :
  get_account_balance bv = 0%Q \/ (0 < get_account_balance bv)%Q.
Proof.
  unfold get_account_balance.
  destruct (first_positive_balance "walletBalance" "crossWalletBalance"
              "availableBalance" _) as [[b|]|] eqn:M1.
  { right. exact (first_positive_balance_positive _ _ _ _ _ M1). }
  all: destruct (ok_json (balance_v2 bv)) as [[[l|f a]|]|] eqn:J2.
  all: try (destruct (first_positive_balance "balance" "crossWalletBalance"
                        "availableBalance" l) as [[b|]|] eqn:M2;
            [right; exact (first_positive_balance_positive _ _ _ _ _ M2)
            | | ]).
  all: destruct (ok_json (account_v1 bv)) as [[r|]|] eqn:J3;
    try (left; reflexivity).
  all: destruct (v1_balance r) as [[b|]|] eqn:M3;
    try (left; reflexivity);
    right; exact (v1_balance_positive _ _ M3).
Qed.

Lemma first_positive_balance_skips (k1 k2 k3 : string)
    (pre rest : list (gmap string JVal)) :
  forallb (fun a => negb (is_usdt a)) pre = true ->
  first_positive_balance k1 k2 k3 (pre ++ rest)%list =
    first_positive_balance k1 k2 k3 rest.
Proof.
  induction pre as [|a pre IH]; intros H; [reflexivity|].
  cbn [forallb] in H. apply andb_true_iff in H. destruct H as [Ha Hp].
  apply negb_true_iff in Ha. cbn [app first_positive_balance].
  rewrite Ha. now apply IH.
Qed.

(** X22. When the account endpoint answers and its first USDT asset has
    a positive [walletBalance], [get_account_balance] returns that
    balance; the other two endpoints are not consulted. *)
Theorem get_account_balance_wallet (bv : BalanceVenue)
    (fields usdt : gmap string JVal)
    (pre post : list (gmap string JVal)) (w : Q) :
  info_v4 bv =
    AccResponse 200 (AccDecoded (AccDict fields (Some (pre ++ usdt :: post)%list))) ->
  forallb (fun a => negb (is_usdt a)) pre = true ->
  is_usdt usdt = true ->
  usdt !! "walletBalance" = Some (JNum w) ->
  (0 < w)%Q ->
  get_account_balance bv = w.
Proof.
  intros H4 Hpre Hu Hw Hpos. apply Qltb_true_iff in Hpos.
  unfold get_account_balance, get_account_info. rewrite H4.
  cbn [ok_json Z.eqb Pos.eqb].
  rewrite (first_positive_balance_skips _ _ _ pre (usdt :: post) Hpre).
  cbn [first_positive_balance]. rewrite Hu. unfold get_float.
  rewrite Hw. cbn [py_float]. now rewrite Hpos.
Qed.

Lemma get_account_balance_wallet_witness :
  get_account_balance
    {| info_v4 :=
         AccResponse 200
           (AccDecoded (AccDict ∅ (Some ([other_asset] ++ v4_usdt 250 :: [])%list)));
       info_v2 := AccConnectionError;
       balance_v2 := AccConnectionError;
       account_v1 := AccConnectionError |} = 250%Q.
Proof.
  apply (get_account_balance_wallet _ ∅ (v4_usdt 250) [other_asset] [] 250);
    reflexivity.
Defined.

(** X23. With the account endpoint unusable, the balance comes from the
    [/fapi/v2/balance] answer that [get_account_info] falls back to: for
    a first USDT entry whose [balance] is zero and whose
    [crossWalletBalance] is positive, [get_account_balance] returns the
    cross-wallet balance. *)
Theorem get_account_balance_cross_wallet (bv : BalanceVenue)
    (usdt : gmap string JVal) (pre post : list (gmap string JVal))
    (b c a : Q) :
  v4_unusable (info_v4 bv) ->
  info_v2 bv = AccResponse 200 (AccDecoded (AccList (pre ++ usdt :: post)%list)) ->
  forallb (fun x => negb (is_usdt x)) pre = true ->
  is_usdt usdt = true ->
  get_float usdt "balance" = Return b ->
  get_float usdt "crossWalletBalance" = Return c ->
  get_float usdt "availableBalance" = Return a ->
  (b == 0)%Q -> (0 < c)%Q ->
  get_account_balance bv = c.
Proof.
  intros H4 H2 Hpre Hu Hb Hc Ha Zb Pc.
  apply Qeq_eq_bool in Zb. apply Qltb_true_iff in Pc.
  assert (Hinfo : exists m,
             get_account_info (info_v4 bv) (info_v2 bv) = [m] /\
             is_usdt m = true /\
             m !! "walletBalance" = Some (JNum c)).
  { unfold get_account_info.
    assert (Hv2 : v2_assets (pre ++ usdt :: post)%list =
                  match v2_asset usdt with
                  | Raise e => Raise e
                  | Return x => Return [x]
                  end).
    { clear -Hpre Hu. induction pre as [|x pre IH]; cbn [app v2_assets].
      - now rewrite Hu.
      - cbn [forallb] in Hpre. apply andb_true_iff in Hpre.
        destruct Hpre as [Hx Hp]. apply negb_true_iff in Hx.
        rewrite Hx. now apply IH. }
    rewrite H2. cbn [ok_json Z.eqb Pos.eqb]. rewrite Hv2.
    unfold v2_asset. rewrite Hb, Hc, Ha, Zb, Pc. cbn [andb].
    destruct (ok_json (info_v4 bv)) as [[[l|f [assets|]]|]|] eqn:J;
      try (exfalso; exact (H4 _ _ J));
      (eexists; split; [reflexivity|]; split; reflexivity). }
  destruct Hinfo as (m & Em & Um & Wm).
  unfold get_account_balance. rewrite Em.
  cbn [first_positive_balance]. rewrite Um. unfold get_float.
  rewrite Wm. cbn [py_float]. now rewrite Pc.
Qed.

Lemma get_account_balance_cross_wallet_witness :
  get_account_balance
    {| info_v4 := AccResponse 503 AccEmptyText;
       info_v2 :=
         AccResponse 200
           (AccDecoded (AccList ([] ++ v2_usdt 0 180 0 :: [])%list));
       balance_v2 := AccConnectionError;
       account_v1 := AccConnectionError |} = 180%Q.
Proof.
  apply (get_account_balance_cross_wallet _ (v2_usdt 0 180 0) [] [] 0 180 0);
    try reflexivity.
  intros fields assets. discriminate.
Defined.

(** ** Cleaning up *)

Lemma gui_cleanup_account_reads (api : AsterDexAPI) (symbol : string)
    (risk : Http) (timestamp : Q) (reply : Http) (tr : list Event) (a : Q) :
  Gui.pos_amt_of (get_position_info risk) = Return a ->
  gui_cleanup_account api symbol risk timestamp reply tr =
    (Return tt,
     (tr ++ if nonzero a
            then [market_order api symbol (flatten_side a) (py_abs a)
                    timestamp]
            else [])%list).
Proof.
  unfold gui_cleanup_account, Gui.pos_amt_of, get_float.
  destruct (get_position_info risk) as [[|p l]|d]; intros H.
  - injection H as <-. cbn. now rewrite app_nil_r.
  - rewrite H. cbv beta iota zeta delta [of_outcome bind].
    fold (nonzero a). destruct (nonzero a) eqn:N.
    + rewrite (place_order_posts _ _ _ _ _ _ _ _ _ _ (py_abs_nonzero a N)).
      reflexivity.
    + cbn. now rewrite app_nil_r.
  - injection H as <-. cbn. now rewrite app_nil_r.
Qed.

Lemma gui_cleanup_account_raises (api : AsterDexAPI) (symbol : string)
    (risk : Http) (timestamp : Q) (reply : Http) (tr : list Event) (e : exn) :
  Gui.pos_amt_of (get_position_info risk) = Raise e ->
  gui_cleanup_account api symbol risk timestamp reply tr = (Raise e, tr).
Proof.
  unfold gui_cleanup_account, Gui.pos_amt_of, get_float.
  destruct (get_position_info risk) as [[|p l]|d]; intros H;
    try discriminate.
  now rewrite H.
Qed.

(** X24. The desktop application's [cleanup_positions] sends one market
    order per account that reads a non-zero amount, account 1 first,
    SELL for a positive amount and BUY for a negative one, sized to the
    absolute amount; it does not wait, retry or read the positions
    again, and an account that reads zero (or whose query fails) gets no
    order. *)
Theorem gui_cleanup_orders (g : Gui.Setup) (v : GuiCleanupVenue)
    (tr : list Event) (a1 a2 : Q) :
  Gui.pos_amt_of (get_position_info (cleanup_risk1 v)) = Return a1 ->
  Gui.pos_amt_of (get_position_info (cleanup_risk2 v)) = Return a2 ->
  gui_cleanup_positions g v tr =
    (Return tt,
     (tr ++
      (if nonzero a1
       then [market_order (Gui.account1_api g) (Gui.symbol g)
               (flatten_side a1) (py_abs a1) (cleanup_timestamp1 v)]
       else []) ++
      (if nonzero a2
       then [market_order (Gui.account2_api g) (Gui.symbol g)
               (flatten_side a2) (py_abs a2) (cleanup_timestamp2 v)]
       else []))%list).
Proof.
  intros H1 H2. unfold gui_cleanup_positions, try_except, bind.
  rewrite (gui_cleanup_account_reads _ _ _ _ _ _ _ H1).
  rewrite (gui_cleanup_account_reads _ _ _ _ _ _ _ H2).
  now rewrite app_assoc.
Qed.

Lemma gui_cleanup_orders_witness :
  gui_cleanup_positions gui_setup
    {| cleanup_risk1 := position_risk_at (1 # 10);
       cleanup_timestamp1 := 1000001;
       cleanup_reply1 := order_rejected;
       cleanup_risk2 := position_risk_error;
       cleanup_timestamp2 := 1000002;
       cleanup_reply2 := order_accepted |} [] =
    (Return tt,
     [market_order (demo_api "key1") "ETHUSDT" SELL (1 # 10) 1000001]).
Proof.
  exact (gui_cleanup_orders gui_setup
           {| cleanup_risk1 := position_risk_at (1 # 10);
              cleanup_timestamp1 := 1000001;
              cleanup_reply1 := order_rejected;
              cleanup_risk2 := position_risk_error;
              cleanup_timestamp2 := 1000002;
              cleanup_reply2 := order_accepted |} [] (1 # 10) 0
           eq_refl eq_refl).
Defined.

(** X25. One [try] covers both accounts of the desktop application's
    [cleanup_positions]: when the amount of account 1 does not parse,
    the call ends normally without any order, also when account 2
    holds a position; when only the amount of account 2 does not
    parse, the order of account 1 has already been sent. *)
Theorem gui_cleanup_stops_at_first_error (g : Gui.Setup)
    (v : GuiCleanupVenue) (tr : list Event) (e : exn) :
  (Gui.pos_amt_of (get_position_info (cleanup_risk1 v)) = Raise e ->
   gui_cleanup_positions g v tr = (Return tt, tr)) /\
  (forall a1,
     Gui.pos_amt_of (get_position_info (cleanup_risk1 v)) = Return a1 ->
     Gui.pos_amt_of (get_position_info (cleanup_risk2 v)) = Raise e ->
     gui_cleanup_positions g v tr =
       (Return tt,
        (tr ++
         if nonzero a1
         then [market_order (Gui.account1_api g) (Gui.symbol g)
                 (flatten_side a1) (py_abs a1) (cleanup_timestamp1 v)]
         else [])%list)).
Proof.
  split.
  - intros H1. unfold gui_cleanup_positions, try_except, bind.
    now rewrite (gui_cleanup_account_raises _ _ _ _ _ _ _ H1).
  - intros a1 H1 H2. unfold gui_cleanup_positions, try_except, bind.
    rewrite (gui_cleanup_account_reads _ _ _ _ _ _ _ H1).
    now rewrite (gui_cleanup_account_raises _ _ _ _ _ _ _ H2).
Qed.

Lemma gui_cleanup_stops_at_first_error_witness :
  gui_cleanup_positions gui_setup
    {| cleanup_risk1 := position_risk_unreadable;
       cleanup_timestamp1 := 1000001;
       cleanup_reply1 := order_accepted;
       cleanup_risk2 := position_risk_at (-1 # 10);
       cleanup_timestamp2 := 1000002;
       cleanup_reply2 := order_accepted |} [] = (Return tt, []).
Proof.
  exact (proj1 (gui_cleanup_stops_at_first_error gui_setup
                  {| cleanup_risk1 := position_risk_unreadable;
                     cleanup_timestamp1 := 1000001;
                     cleanup_reply1 := order_accepted;
                     cleanup_risk2 := position_risk_at (-1 # 10);
                     cleanup_timestamp2 := 1000002;
                     cleanup_reply2 := order_accepted |} [] ValueError)
           eq_refl).
Defined.

Ltac run_cleanup :=
  cbv beta iota zeta delta
    [cleanup_attempt report_failure cleanup_call try_except bind ret raise
     get modify of_outcome sleep emit];
  cbn [failed_accounts cleanup_trace fst snd].

Lemma close_all_positions_returns (self : AsterDexAPI) (symbol : string)
    (venue : nat -> CloseAllVenue) (tr : list Event) :
  exists result,
    fst (close_all_positions self symbol venue tr) = Return result.
Proof. apply close_all_loop_returns. Qed.

(** What one cleanup attempt can do to the list of failed accounts. *)
Lemma cleanup_attempt_failed (name : string) (api : AsterDexAPI)
    (symbol : string) (attempt : nat) (v : CleanupVenue) (st : Cleanup) :
  let r := cleanup_attempt name api symbol attempt v st in
  failed_accounts (snd r) = failed_accounts st \/
  ((attempt <? max_cleanup_retries - 1)%nat = false /\
   failed_accounts (snd r) = (failed_accounts st ++ [name])%list /\
   exists tr result,
     fst (close_all_positions api symbol (close_venue v) tr) = Return result /\
     succeeded result = false).
Proof.
  cbv zeta. run_cleanup.
  destruct (attempt <? max_cleanup_retries - 1)%nat eqn:Last.
  - destruct (0 <? attempt)%nat; run_cleanup;
      match goal with
      | |- context [close_all_positions ?a ?s ?w ?t] =>
          destruct (close_all_positions a s w t) as [[result|e] tr'] eqn:C
      end; run_cleanup;
      repeat (atomic_destruct; run_cleanup); left; reflexivity.
  - destruct (0 <? attempt)%nat; run_cleanup;
      match goal with
      | |- context [close_all_positions ?a ?s ?w ?t] =>
          destruct (close_all_positions_returns a s w t) as [res Hres];
          destruct (close_all_positions a s w t) as [[result|e] tr'] eqn:C;
          cbn [fst] in Hres; [|discriminate]
      end; run_cleanup;
      destruct (succeeded result) eqn:S; run_cleanup;
      repeat (atomic_destruct; run_cleanup);
      first [ left; reflexivity
            | right; split; [reflexivity|]; split; [reflexivity|];
              eexists _, result; rewrite C; split; [reflexivity|exact S] ].
Qed.

(** X26. The terminal program's [cleanup_positions] names an account in
    its failure report at most once, and only when the
    [close_all_positions] call of the third cleanup attempt returned
    nothing: an attempt whose closing order was accepted never leads to
    a report. *)
Theorem cleanup_reports_only_unanswered (name : string) (api : AsterDexAPI)
    (symbol : string) (venue : nat -> CleanupVenue) (st : Cleanup) :
  let st' := snd (cleanup_account name api symbol venue st) in
  failed_accounts st' = failed_accounts st \/
  (failed_accounts st' = (failed_accounts st ++ [name])%list /\
   exists tr result,
     fst (close_all_positions api symbol (close_venue (venue 2%nat)) tr)
       = Return result /\
     succeeded result = false).
Proof.
  cbv zeta. unfold cleanup_account, max_cleanup_retries.
  cbn [cleanup_retries]. cbv beta iota zeta delta [bind ret].
  pose proof (cleanup_attempt_failed name api symbol 0 (venue 0%nat) st) as A0.
  cbv zeta in A0.
  destruct (cleanup_attempt name api symbol 0 (venue 0%nat) st)
    as [[[|]|e0] s0]; cbn [snd] in A0;
    (destruct A0 as [A0|(L & _)]; [|discriminate L]);
    try (left; exact A0).
  pose proof (cleanup_attempt_failed name api symbol 1 (venue 1%nat) s0) as A1.
  cbv zeta in A1.
  destruct (cleanup_attempt name api symbol 1 (venue 1%nat) s0)
    as [[[|]|e1] s1]; cbn [snd] in A1;
    (destruct A1 as [A1|(L & _)]; [|discriminate L]);
    try (left; cbn [snd]; congruence).
  pose proof (cleanup_attempt_failed name api symbol 2 (venue 2%nat) s1) as A2.
  cbv zeta in A2.
  destruct (cleanup_attempt name api symbol 2 (venue 2%nat) s1)
    as [[[|]|e2] s2]; cbn [snd] in A2 |- *;
    (destruct A2 as [A2|(_ & A2 & W)];
     [left; congruence | right; split; [congruence | exact W]]).
Qed.

Lemma cleanup_attempt_accepted_open (name : string) (api : AsterDexAPI)
    (symbol : string) (attempt : nat) (v : CleanupVenue) (amt : Q)
    (st : Cleanup) :
  accepted_but_open v amt ->
  cleanup_attempt name api symbol attempt v st =
    (Return CleanupNext,
     {| failed_accounts := failed_accounts st;
        cleanup_trace :=
          (cleanup_trace st ++
           (if (0 <? attempt)%nat then [Sleep 1] else []) ++
           [market_order api symbol (flatten_side amt) (py_abs amt)
              (order_timestamp (close_venue v 0%nat));
            Sleep 2])%list |}).
Proof.
  intros (Ho & (d & Hr & Hid & Hnp) & (b & Hv & Hb)).
  apply nonzero_test in Hb.
  assert (Ht : truthy (JDict d) && in_json "orderId" (JDict d) = true).
  { cbn [truthy in_json]. rewrite Hid, andb_true_r.
    apply negb_true_iff, bool_decide_eq_false. intros ->.
    unfold has_key in Hid. apply bool_decide_eq_true in Hid.
    rewrite lookup_empty in Hid. now destruct Hid. }
  assert (Hc : forall tr,
             close_all_positions api symbol (close_venue v) tr =
               (Return (Some (JDict d)),
                (tr ++ [market_order api symbol (flatten_side amt)
                          (py_abs amt)
                          (order_timestamp (close_venue v 0%nat))])%list)).
  { intros tr. unfold close_all_positions, max_retries.
    cbn [close_all_loop]. cbv beta iota zeta delta [bind].
    rewrite (open_reading_attempt api symbol 0 (close_venue v 0%nat) amt tr Ho).
    rewrite Hr, Ht. cbv beta iota. now rewrite app_nil_r. }
  assert (Hs : succeeded (Some (JDict d)) = true).
  { cbn [succeeded]. now apply andb_true_iff in Ht. }
  run_cleanup.
  destruct (0 <? attempt)%nat; run_cleanup; rewrite Hc, Hs, Hnp, Hid;
    run_cleanup; rewrite Hv, Hb; rewrite <- ?app_assoc; reflexivity.
Qed.

(** X27. A position that survives its closing orders is not reported:
    when in each of the three cleanup attempts the venue accepts the
    closing order and the query two seconds later still reads a
    position, the terminal program's cleanup of that account sends
    three orders, waits two seconds after each and one second between
    attempts, and leaves [failed_accounts] as it was, so the final
    report does not name the account. *)
Theorem cleanup_silent_when_position_survives (name : string)
    (api : AsterDexAPI) (symbol : string) (venue : nat -> CleanupVenue)
    (amt : nat -> Q) (st : Cleanup) :
  (forall k, (k < max_cleanup_retries)%nat ->
             accepted_but_open (venue k) (amt k)) ->
  let order k :=
    market_order api symbol (flatten_side (amt k)) (py_abs (amt k))
      (order_timestamp (close_venue (venue k) 0%nat)) in
  cleanup_account name api symbol venue st =
    (Return tt,
     {| failed_accounts := failed_accounts st;
        cleanup_trace :=
          (cleanup_trace st ++
           [order 0%nat; Sleep 2; Sleep 1; order 1%nat; Sleep 2;
            Sleep 1; order 2%nat; Sleep 2])%list |}).
Proof.
  intros H order. unfold cleanup_account, max_cleanup_retries in *.
  cbn [cleanup_retries]. cbv beta iota zeta delta [bind ret].
  rewrite (cleanup_attempt_accepted_open name api symbol 0 _ (amt 0%nat) st
             (H 0%nat ltac:(lia))).
  cbv beta iota.
  rewrite (cleanup_attempt_accepted_open name api symbol 1 _ (amt 1%nat) _
             (H 1%nat ltac:(lia))).
  cbv beta iota.
  rewrite (cleanup_attempt_accepted_open name api symbol 2 _ (amt 2%nat) _
             (H 2%nat ltac:(lia))).
  cbn [failed_accounts cleanup_trace Nat.ltb Nat.leb app].
  rewrite <- !app_assoc. reflexivity.
Qed.

Lemma stuck_venue_accepted_but_open :
  accepted_but_open (stuck_venue (1 # 10)) (1 # 10).
Proof.
  split; [|split].
  - split; [reflexivity|]. split; [reflexivity|discriminate].
  - exists {["orderId" := JNum 1]}. split; [reflexivity|].
    split; reflexivity.
  - exists (1 # 10). split; [reflexivity|discriminate].
Defined.

Lemma cleanup_silent_when_position_survives_witness :
  failed_accounts
    (snd (cleanup_account account1_name (demo_api "key1") "ETHUSDT"
            (fun _ => stuck_venue (1 # 10))
            {| failed_accounts := []; cleanup_trace := [] |})) = [].
Proof.
  rewrite (cleanup_silent_when_position_survives account1_name
             (demo_api "key1") "ETHUSDT" (fun _ => stuck_venue (1 # 10))
             (fun _ => 1 # 10) {| failed_accounts := []; cleanup_trace := [] |}
             (fun k _ => stuck_venue_accepted_but_open)).
  reflexivity.
Defined.

(** ** The status threads *)

Ltac run_tracker :=
  cbv beta iota zeta delta
    [tracker_iteration tracker_pass tracker_error update_status
     try_except bind ret raise get modify of_outcome];
  cbn [initial_balance_set consecutive_errors last_known_balance statuses
       shown_price set_consecutive_errors balance_seen
       set_initial_balance_set fst snd].

(** A pass in which the balances and the position parse publishes the
    status built from them, for an account that has been added. *)
Lemma tracker_pass_publishes (name : string) (v : TrackerVenue)
    (t : Tracker) (a : AccountStatus) (cb mb up : Q) (p : Tracked) :
  statuses t !! name = Some a ->
  usdt_balances (get_account_info (tracker_info_v4 v) (tracker_info_v2 v))
    = Return (cb, mb, up) ->
  tracked_position (get_position_info (tracker_risk v)) up = Return p ->
  let r := tracker_iteration name v t in
  fst r = Return tt /\
  exists balance initial,
    statuses (snd r) =
      <[name := tracked_status p balance initial]> (statuses t).
Proof.
  intros Ha Hb Hp. cbv zeta. run_tracker. rewrite Hb. run_tracker.
  destruct (Qeq_bool cb 0); run_tracker; rewrite ?Hp; run_tracker.
  all: repeat (atomic_destruct; run_tracker; rewrite ?Hp, ?Ha; run_tracker).
  all: try congruence.
  all: split; [reflexivity|]; eexists _, _; reflexivity.
Qed.

(** X28. The status thread of the terminal program cannot tell a failed
    position query from a closed position: when the query fails
    (connection error, empty or undecodable body, venue error, empty
    list) and the balances parse, the pass publishes side NONE,
    quantity 0 and margin 0 for the account, whatever was published
    before. *)
Theorem tracker_failed_query_reads_flat (name : string) (v : TrackerVenue)
    (t : Tracker) (a : AccountStatus) (cb mb up : Q) :
  statuses t !! name = Some a ->
  usdt_balances (get_account_info (tracker_info_v4 v) (tracker_info_v2 v))
    = Return (cb, mb, up) ->
  position_query_failed (tracker_risk v) ->
  let r := tracker_iteration name v t in
  fst r = Return tt /\
  exists s,
    statuses (snd r) !! name = Some s /\
    position_side s = NONE /\ quantity s = 0%Q /\ margin s = 0%Q /\
    (entry_price s == 0)%Q /\ (liquidation_price s == 0)%Q.
Proof.
  intros Ha Hb Hq. cbv zeta.
  pose proof (get_position_info_failed _ Hq) as Hj.
  destruct (tracker_pass_publishes name v t a cb mb up
              {| position_amt := 0; tracked_entry_price := 0;
                 tracked_liquidation_price := 0;
                 tracked_unrealized_pnl := up; position_margin := 0 |}
              Ha Hb) as (Hr & balance & initial & Hs).
  { now rewrite Hj. }
  split; [exact Hr|].
  exists (tracked_status
            {| position_amt := 0; tracked_entry_price := 0;
               tracked_liquidation_price := 0;
               tracked_unrealized_pnl := up; position_margin := 0 |}
            balance initial).
  rewrite Hs, lookup_insert_eq.
  split; [reflexivity|]. repeat (split; [reflexivity|]). reflexivity.
Qed.

Lemma tracker_failed_query_reads_flat_witness :
  let r := tracker_iteration account1_name
             (tracker_venue 250 position_risk_error)
             (tracker_state 0 (status_of LONG (1 # 10))
                (status_of SHORT (1 # 10))) in
  fst r = Return tt /\
  exists s,
    statuses (snd r) !! account1_name = Some s /\
    position_side s = NONE /\ quantity s = 0%Q /\ margin s = 0%Q /\
    (entry_price s == 0)%Q /\ (liquidation_price s == 0)%Q.
Proof.
  apply (tracker_failed_query_reads_flat account1_name
           (tracker_venue 250 position_risk_error)
           (tracker_state 0 (status_of LONG (1 # 10))
              (status_of SHORT (1 # 10)))
           (status_of LONG (1 # 10)) 250 250 0).
  - reflexivity.
  - reflexivity.
  - apply pq_venue_error. now exists (JNum (-1021)).
Defined.

(** An iteration whose position record cannot be read, after a non-zero
    wallet balance has been read. The fields of the statuses are the
    position, margin and balance fields. *)
Lemma tracker_iteration_unreadable (name : string) (v : TrackerVenue)
    (t : Tracker) (a : AccountStatus) :
  statuses t !! name = Some a ->
  unreadable_position v ->
  exists cb,
    tracker_iteration name v t =
      (Return tt,
       {| initial_balance_set := initial_balance_set t;
          consecutive_errors := 1;
          last_known_balance := cb;
          statuses := statuses t;
          shown_price := shown_price t |}).
Proof.
  intros Ha (cb & mb & up & e & Hb & Hn & Hp). exists cb.
  apply nonzero_test in Hn.
  run_tracker. rewrite Hb. run_tracker. rewrite Hn. run_tracker.
  rewrite Hp. run_tracker. rewrite Ha. cbn [Nat.add Nat.ltb Nat.leb].
  cbv beta iota. now rewrite (insert_id _ _ _ Ha).
Qed.

Lemma update_position_status_unreadable (name : string)
    (running : nat -> bool) (venues : nat -> TrackerVenue) (fuel : nat) :
  forall (i : nat) (t : Tracker) (a : AccountStatus),
  statuses t !! name = Some a ->
  (forall k, unreadable_position (venues k)) ->
  let r := update_position_status name running venues i fuel t in
  fst r = Return tt /\
  statuses (snd r) = statuses t /\
  (consecutive_errors (snd r) = consecutive_errors t \/
   consecutive_errors (snd r) = 1%nat).
Proof.
  induction fuel as [|n IH]; intros i t a Ha Hv; cbv zeta.
  - cbn. auto.
  - cbn [update_position_status]. destruct (running i).
    + cbv beta iota zeta delta [bind].
      destruct (tracker_iteration_unreadable name (venues i) t a Ha (Hv i))
        as [cb ->].
      set (t1 := {| initial_balance_set := initial_balance_set t;
                    consecutive_errors := 1;
                    last_known_balance := cb;
                    statuses := statuses t;
                    shown_price := shown_price t |}).
      destruct (IH (S i) t1 a Ha Hv) as (R & S1 & C). cbv zeta in R, S1, C.
      split; [exact R|]. split; [exact S1|].
      right. destruct C as [C | C]; [rewrite C; reflexivity | exact C].
    + cbn. auto.
Qed.

(** X29. An unreadable position record freezes the position shown by
    the terminal program. While every iteration reads a non-zero wallet
    balance and then fails on the position record (a field that does
    not parse, or the division by a zero leverage in
    [calculate_margin]), the error counter is reset before each
    failure: after any number of iterations it is what it was (no
    iteration ran) or 1, so the fallback for more than five consecutive
    errors is never reached, and every published status keeps its
    position, margin and balance fields; only the texts
    [system_status] and [last_update], which are not modelled, are
    rewritten. *)
Theorem tracker_frozen_by_unreadable_position (name : string)
    (running : nat -> bool) (venues : nat -> TrackerVenue) (fuel : nat)
    (i : nat) (t : Tracker) (a : AccountStatus) :
  statuses t !! name = Some a ->
  (forall k, unreadable_position (venues k)) ->
  let r := update_position_status name running venues i fuel t in
  fst r = Return tt /\
  (forall n s, statuses t !! n = Some s ->
     exists s', statuses (snd r) !! n = Some s' /\ same_position s s') /\
  (consecutive_errors (snd r) = consecutive_errors t \/
   consecutive_errors (snd r) = 1%nat).
Proof.
  intros Ha Hv. cbv zeta.
  destruct (update_position_status_unreadable name running venues fuel
              i t a Ha Hv) as (R & S1 & C). cbv zeta in R, S1, C.
  split; [exact R|]. split; [|exact C].
  intros n s Hn. exists s. rewrite S1. split; [exact Hn|].
  repeat split.
Qed.

Lemma tracker_frozen_by_unreadable_position_witness :
  let venues := fun _ : nat =>
    tracker_venue 250
      (position_risk_of (position_record (1 # 10) 3000 2990 0)) in
  let t := tracker_state 4 (status_of LONG (1 # 10))
             (status_of SHORT (1 # 10)) in
  let r := update_position_status account1_name (fun _ => true) venues 0 8 t in
  fst r = Return tt /\
  (forall n s, statuses t !! n = Some s ->
     exists s', statuses (snd r) !! n = Some s' /\ same_position s s') /\
  (consecutive_errors (snd r) = consecutive_errors t \/
   consecutive_errors (snd r) = 1%nat).
Proof.
  intros venues t.
  apply (tracker_frozen_by_unreadable_position account1_name (fun _ => true)
           venues 8 0 t (status_of LONG (1 # 10))).
  - reflexivity.
  - intros k. exists 250%Q, 250%Q, 0%Q, ZeroDivisionError.
    split; [reflexivity|]. split; [discriminate|reflexivity].
Defined.

Ltac run_status :=
  cbv beta iota zeta delta
    [status_iteration status_update update_account_status Gui.call
     try_except bind ret raise get modify of_outcome sleep emit];
  cbn [Gui.stats Gui.account_status Gui.trace fst snd].

(** X30. An error in the desktop application's status loop skips the
    pause. When the position record of account 1 cannot be read, the
    iteration ends in the silent [except]: nothing is published for
    either account, the time of the last balance update is not
    advanced, and the one-second sleep at the end of the body is not
    reached, so the loop asks the venue again at once; the only wait
    that can occur is the half second before a repeated balance
    request. *)
Theorem status_loop_error_skips_sleep (v : StatusVenue)
    (last_balance_update : Q) (st : Gui.State) (a1 : AccountStatus)
    (e : exn) :
  Gui.account_status st !! account1_name = Some a1 ->
  (forall balance,
     status_shown (get_position_info (status_risk (status_account1 v)))
       balance = Raise e) ->
  let r := status_iteration v last_balance_update st in
  fst r = Return last_balance_update /\
  Gui.account_status (snd r) = Gui.account_status st /\
  Gui.stats (snd r) = Gui.stats st /\
  (Gui.trace (snd r) = Gui.trace st \/
   Gui.trace (snd r) = (Gui.trace st ++ [Sleep (1 # 2)])%list).
Proof.
  intros Ha He. cbv zeta. run_status. rewrite Ha. run_status.
  repeat (atomic_destruct; run_status; rewrite ?He; run_status).
  all: repeat (split; [reflexivity|]); auto.
Qed.

Lemma status_loop_error_skips_sleep_witness :
  let v := {| status_now := 100;
              status_account1 :=
                {| status_balance := no_balance;
                   status_balance_retry := no_balance;
                   status_risk := position_risk_unreadable |};
              status_account2 :=
                {| status_balance := no_balance;
                   status_balance_retry := no_balance;
                   status_risk := position_risk_at (-1 # 10) |} |} in
  let st := gui_state None (status_of NONE 0) (status_of NONE 0) in
  let r := status_iteration v 0 st in
  fst r = Return 0%Q /\
  Gui.account_status (snd r) = Gui.account_status st /\
  Gui.stats (snd r) = Gui.stats st /\
  (Gui.trace (snd r) = Gui.trace st \/
   Gui.trace (snd r) = (Gui.trace st ++ [Sleep (1 # 2)])%list).
Proof.
  intros v st.
  apply (status_loop_error_skips_sleep v 0 st (status_of NONE 0) ValueError).
  - reflexivity.
  - intros balance. reflexivity.
Defined.
